(** * The GlanceAPI reconciler (controllers/glanceapi_controller.go)

    A shallow embedding of [GlanceAPIReconciler.Reconcile] and of its two
    status helpers.  One reconciliation pass is a finite tree of object-store
    calls ([Prog]); the tree is run against any client ([Handler]) and against
    a reference in-memory API server ([apiserver]).  Every run yields the
    result handed back to controller-runtime, the trace of calls with their
    replies, and the final state of the client. *)

From Stdlib Require Import ZArith String List Bool.
From stdpp Require Import base gmap strings.

Import ListNotations.
Local Open Scope Z_scope.
Local Open Scope string_scope.
Local Open Scope list_scope.

(** ** Errors *)

(** [metav1.StatusReason] values a client can report. *)
Inductive StatusReason :=
| NotFound | AlreadyExists | Conflict | Forbidden | ServerTimeout | InternalError.

(** A Go [error] value that is not nil: a Kubernetes status error, a
    type-accessor error of the [unstructured] helpers, a serialisation
    error of the hasher, or an error built by [fmt.Errorf] around another. *)
Inductive Err :=
| StatusError (reason : StatusReason)
| AccessorError (path : string)
| MarshalError (what : string)
| Errorf (format : string) (inner : Err).

(** Go's [error]: [None] is [nil]. *)
Definition error := option Err.

(** [k8s_errors.IsNotFound]. *)
Definition IsNotFound (e : Err) : bool :=
  match e with
  | StatusError NotFound => true
  | _ => false
  end.

(** The test [err != nil && k8s_errors.IsNotFound(err)]. *)
Definition isNotFound (err : error) : bool :=
  match err with
  | Some e => IsNotFound e
  | None => false
  end.

(** The test [err != nil]. *)
Definition notNil (err : error) : bool :=
  match err with
  | Some _ => true
  | None => false
  end.

(** ** Objects *)

Module types.
Record NamespacedName := { Namespace : string; Name : string }.
End types.

Module metav1.
Record ObjectMeta := { Name : string; Namespace : string }.
End metav1.

(** Only the fields the controller reads or writes are kept. *)
Module glancev1beta1.
Record GlanceAPISpec := { Replicas : Z }.
Record GlanceAPIStatus := { DbSyncHash : string; DeploymentHash : string }.
Record GlanceAPI :=
  { ObjectMeta : metav1.ObjectMeta; Spec : GlanceAPISpec; Status : GlanceAPIStatus }.
End glancev1beta1.

Module corev1.
Record PersistentVolumeClaim := { pvcMeta : metav1.ObjectMeta }.
Record Service := { svcMeta : metav1.ObjectMeta }.
(** [Data] is a Go [map[string]string]: [None] is the nil map, which
    [reflect.DeepEqual] tells apart from an empty one. *)
Record ConfigMap :=
  { cmMeta : metav1.ObjectMeta; Data : option (gmap string string) }.
End corev1.

Module unstructured.
(** What the path [status.completed] holds in the object's content:
    nothing, a boolean, a value that is no boolean, or nothing reachable
    because [status] is no map. *)
Inductive Field :=
| Absent
| BoolValue (b : bool)
| OtherValue
| NotAMap.

Record Unstructured :=
  { GroupVersionKind : string; uMeta : metav1.ObjectMeta; statusCompleted : Field }.

(** [unstructured.NestedBool(content, "status", "completed")]:
    value, found, error.  Both accessor errors name the whole path: the one
    for a [status] that is no map is raised on the way to [completed]. *)
Definition NestedBool (u : Unstructured) : bool * bool * error :=
  match statusCompleted u with
  | Absent => (false, false, None)
  | BoolValue b => (b, true, None)
  | OtherValue => (false, false, Some (AccessorError ".status.completed"))
  | NotAMap => (false, false, Some (AccessorError ".status.completed"))
  end.
End unstructured.

Module batchv1.
Inductive JobState := Running | Succeeded | Failed.
Record Job := { jobMeta : metav1.ObjectMeta; jobSpec : string; jobState : JobState }.
End batchv1.

Module appsv1.
Record DeploymentSpec := { Replicas : Z; Template : string }.
Record DeploymentStatus := { ReadyReplicas : Z }.
Record Deployment :=
  { depMeta : metav1.ObjectMeta; Spec : DeploymentSpec; Status : DeploymentStatus }.
End appsv1.

(** The resource kinds the reconciler touches, and the Go type of each. *)
Inductive Kind :=
| KGlanceAPI | KPvc | KService | KConfigMap | KSchema | KJob | KDeployment.

Definition objT (k : Kind) : Type :=
  match k with
  | KGlanceAPI => glancev1beta1.GlanceAPI
  | KPvc => corev1.PersistentVolumeClaim
  | KService => corev1.Service
  | KConfigMap => corev1.ConfigMap
  | KSchema => unstructured.Unstructured
  | KJob => batchv1.Job
  | KDeployment => appsv1.Deployment
  end.

Definition metaOf {k : Kind} : objT k -> metav1.ObjectMeta :=
  match k with
  | KGlanceAPI => glancev1beta1.ObjectMeta
  | KPvc => corev1.pvcMeta
  | KService => corev1.svcMeta
  | KConfigMap => corev1.cmMeta
  | KSchema => unstructured.uMeta
  | KJob => batchv1.jobMeta
  | KDeployment => appsv1.depMeta
  end.

(** [types.NamespacedName{Name: o.Name, Namespace: o.Namespace}]. *)
Definition keyOf {k : Kind} (o : objT k) : types.NamespacedName :=
  {| types.Namespace := metav1.Namespace (metaOf o);
     types.Name := metav1.Name (metaOf o) |}.

Definition emptyMeta : metav1.ObjectMeta :=
  {| metav1.Name := ""; metav1.Namespace := "" |}.

(** The zero value [&T{}] of each kind. *)
Definition zero (k : Kind) : objT k :=
  match k with
  | KGlanceAPI =>
      {| glancev1beta1.ObjectMeta := emptyMeta;
         glancev1beta1.Spec := {| glancev1beta1.Replicas := 0 |};
         glancev1beta1.Status :=
           {| glancev1beta1.DbSyncHash := ""; glancev1beta1.DeploymentHash := "" |} |}
  | KPvc => {| corev1.pvcMeta := emptyMeta |}
  | KService => {| corev1.svcMeta := emptyMeta |}
  | KConfigMap => {| corev1.cmMeta := emptyMeta; corev1.Data := None |}
  | KSchema =>
      {| unstructured.GroupVersionKind := ""; unstructured.uMeta := emptyMeta;
         unstructured.statusCompleted := unstructured.Absent |}
  | KJob =>
      {| batchv1.jobMeta := emptyMeta; batchv1.jobSpec := "";
         batchv1.jobState := batchv1.Running |}
  | KDeployment =>
      {| appsv1.depMeta := emptyMeta;
         appsv1.Spec := {| appsv1.Replicas := 0; appsv1.Template := "" |};
         appsv1.Status := {| appsv1.ReadyReplicas := 0 |} |}
  end.

(** ** Results *)

(** [time.Duration] counts nanoseconds. *)
Definition Second : Z := 1000000000.

(** [ctrl.Result] and [ctrl.Request]. *)
Record Result := { Requeue : bool; RequeueAfter : Z }.
Record Request := { NamespacedName : types.NamespacedName }.

(** [ctrl.Result{}]. *)
Definition noRequeue : Result := {| Requeue := false; RequeueAfter := 0 |}.

(** [ctrl.Result{RequeueAfter: d}]. *)
Definition requeueAfter (d : Z) : Result := {| Requeue := false; RequeueAfter := d |}.

(** ** Calls on the client, and programs over them *)

(** The methods of [client.Client] that the controller and the job helpers
    use, indexed by what they hand back.  [Get] decodes into the object it
    is given and hands it back with the error.  What the server writes back
    into the object of a create or an update (resource version and the
    like) is not among the fields kept here, so these hand back the error
    alone. *)
Inductive Call : Type -> Type :=
| Get (k : Kind) (key : types.NamespacedName) (into : objT k) : Call (objT k * error)
| Create (k : Kind) (obj : objT k) : Call error
| Update (k : Kind) (obj : objT k) : Call error
| StatusUpdate (k : Kind) (obj : objT k) : Call error
| Delete (k : Kind) (obj : objT k) : Call error.

(** A computation that calls the client finitely often. *)
Inductive Prog (A : Type) : Type :=
| Ret (a : A)
| Vis {R : Type} (c : Call R) (k : R -> Prog A).
Arguments Ret {A} a.
Arguments Vis {A R} c k.

Fixpoint bindP {A B : Type} (p : Prog A) (f : A -> Prog B) : Prog B :=
  match p with
  | Ret a => f a
  | Vis c k => Vis c (fun r => bindP (k r) f)
  end.

(** A reconciliation pass either goes on to the next statement or has
    executed a [return]. *)
Inductive Flow (A : Type) : Type :=
| Next (a : A)
| Done (res : Result) (err : error).
Arguments Next {A} a.
Arguments Done {A} res err.

Definition Pass (A : Type) : Type := Prog (Flow A).

Definition ret {A : Type} (a : A) : Pass A := Ret (Next a).

(** [return res, err]. *)
Definition return_ {A : Type} (res : Result) (err : error) : Pass A :=
  Ret (Done res err).

Definition call {R : Type} (c : Call R) : Pass R := Vis c (fun r => Ret (Next r)).

Definition lift {A : Type} (p : Prog A) : Pass A := bindP p (fun a => Ret (Next a)).

Definition bind {A B : Type} (m : Pass A) (f : A -> Pass B) : Pass B :=
  bindP m (fun x => match x with
                    | Next a => f a
                    | Done res err => Ret (Done res err)
                    end).

Declare Scope pass_scope.
Delimit Scope pass_scope with pass.
Notation "x <- m ;; k" := (bind m (fun x => k))
  (at level 100, m at next level, k at level 200, right associativity) : pass_scope.
(** ** Running a program *)

(** One call together with its reply. *)
Inductive Event : Type :=
| Ev {R : Type} (c : Call R) (r : R).

(** A client: any state, any reply to any call. *)
Definition Handler (W : Type) : Type := forall R : Type, Call R -> W -> R * W.

Fixpoint exec {W A : Type} (h : Handler W) (p : Prog A) (w : W) : A * list Event * W :=
  match p with
  | Ret a => (a, [], w)
  | Vis c k =>
      let '(r, w1) := h _ c w in
      let '(a, tr, w2) := exec h (k r) w1 in
      (a, Ev c r :: tr, w2)
  end.

Definition outcome {W A : Type} (x : A * list Event * W) : A := fst (fst x).
Definition trace {W A : Type} (x : A * list Event * W) : list Event := snd (fst x).
Definition final {W A : Type} (x : A * list Event * W) : W := snd x.

Inductive Verb := VGet | VCreate | VUpdate | VStatusUpdate | VDelete.

Definition verbOf {R : Type} (c : Call R) : Verb :=
  match c with
  | Get _ _ _ => VGet
  | Create _ _ => VCreate
  | Update _ _ => VUpdate
  | StatusUpdate _ _ => VStatusUpdate
  | Delete _ _ => VDelete
  end.

Definition kindOf {R : Type} (c : Call R) : Kind :=
  match c with
  | Get k _ _ => k
  | Create k _ => k
  | Update k _ => k
  | StatusUpdate k _ => k
  | Delete k _ => k
  end.

(** The error a call came back with. *)
Definition replyError {R : Type} (c : Call R) : R -> error :=
  match c in Call R0 return R0 -> error with
  | Get _ _ _ => fun r => snd r
  | Create _ _ => fun r => r
  | Update _ _ => fun r => r
  | StatusUpdate _ _ => fun r => r
  | Delete _ _ => fun r => r
  end.

Definition evVerb (e : Event) : Verb := match e with Ev c _ => verbOf c end.
Definition evKind (e : Event) : Kind := match e with Ev c _ => kindOf c end.
Definition evError (e : Event) : error := match e with Ev c r => replyError c r end.

#[global] Instance Verb_eq_dec : EqDecision Verb.
Proof. solve_decision. Defined.
#[global] Instance Kind_eq_dec : EqDecision Kind.
Proof. solve_decision. Defined.

(** The verb and kind of every call of a trace, in order. *)
Definition calls (tr : list Event) : list (Verb * Kind) :=
  map (fun e => (evVerb e, evKind e)) tr.

(** Calls that create or change an object: create, update, status update. *)
Definition isWrite (e : Event) : bool :=
  match evVerb e with
  | VCreate | VUpdate | VStatusUpdate => true
  | VGet | VDelete => false
  end.

Definition writes (tr : list Event) : list Event := filter (fun e => isWrite e = true) tr.

(** ** Package [glance]: the job helpers and the templates *)

Module glance.

(** Modelled from the spec: [glance.EnsureJob] (package [pkg], where the
    helper that runs the one-shot job lives).  Section 4.4: if no live job
    exists, create it and report requeue=true; if a live job exists and has
    not reached a terminal success state, report requeue=true; a job that
    failed is surfaced as an error; a job that completed successfully
    reports requeue=false.  Section 4.2: errors of the store are surfaced. *)
Definition EnsureJob (job : batchv1.Job) : Prog (bool * error) :=
  Vis (Get KJob (keyOf (k:=KJob) job) (zero KJob)) (fun r =>
    let '(foundJob, err) := r in
    if isNotFound err then
      Vis (Create KJob job) (fun err =>
        if notNil err then Ret (false, err) else Ret (true, None))
    else if notNil err then Ret (true, err)
    else
      match batchv1.jobState foundJob with
      | batchv1.Running => Ret (true, None)
      | batchv1.Failed => Ret (true, Some (StatusError InternalError))
      | batchv1.Succeeded => Ret (false, None)
      end).

(** Modelled from the spec: [glance.DeleteJob] (package [pkg]).
    Section 4.4: [deleteJob] reclaims the transient job object;
    section 7: NotFound on a fetch is expected and not an error.  The job
    is fetched and, when it is there, deleted.  The boolean it reports is
    never read by [Reconcile]. *)
Definition DeleteJob (job : batchv1.Job) : Prog (bool * error) :=
  Vis (Get KJob (keyOf (k:=KJob) job) (zero KJob)) (fun r =>
    let '(foundJob, err) := r in
    if notNil err then
      if isNotFound err then Ret (false, None) else Ret (false, err)
    else
      Vis (Delete KJob foundJob) (fun err =>
        if notNil err then Ret (false, err) else Ret (true, None))).

(** The templating functions of package [glance] and the hasher of
    lib-common ([util.ObjectHash]): pure functions of the instance, given
    from outside.  [SchemaObject] and [ObjectHash] can fail. *)
Class Templates := {
  Pvc : glancev1beta1.GlanceAPI -> corev1.PersistentVolumeClaim;
  Service : glancev1beta1.GlanceAPI -> corev1.Service;
  ConfigMap : glancev1beta1.GlanceAPI -> corev1.ConfigMap;
  SchemaObject : glancev1beta1.GlanceAPI -> unstructured.Unstructured * error;
  DbSyncJob : glancev1beta1.GlanceAPI -> batchv1.Job;
  Deployment : glancev1beta1.GlanceAPI -> string -> appsv1.Deployment;
  ObjectHash : forall k : Kind, objT k -> string * error
}.
End glance.

(** ** The controller *)

Section Controller.
Local Open Scope pass_scope.

Context {G : glance.Templates}.

(** [setDbSyncHash]: the instance is a pointer in Go; here the changed
    instance is handed back with the error. *)
Definition setDbSyncHash (api : glancev1beta1.GlanceAPI) (hashStr : string)
  : Prog (glancev1beta1.GlanceAPI * error) :=
  if negb (String.eqb hashStr (glancev1beta1.DbSyncHash (glancev1beta1.Status api))) then
    let api :=
      {| glancev1beta1.ObjectMeta := glancev1beta1.ObjectMeta api;
         glancev1beta1.Spec := glancev1beta1.Spec api;
         glancev1beta1.Status :=
           {| glancev1beta1.DbSyncHash := hashStr;
              glancev1beta1.DeploymentHash :=
                glancev1beta1.DeploymentHash (glancev1beta1.Status api) |} |} in
    Vis (StatusUpdate KGlanceAPI api) (fun err =>
      if notNil err then Ret (api, err) else Ret (api, None))
  else Ret (api, None).

(** [setDeploymentHash]. *)
Definition setDeploymentHash (instance : glancev1beta1.GlanceAPI) (hashStr : string)
  : Prog (glancev1beta1.GlanceAPI * error) :=
  if negb (String.eqb hashStr
             (glancev1beta1.DeploymentHash (glancev1beta1.Status instance))) then
    let instance :=
      {| glancev1beta1.ObjectMeta := glancev1beta1.ObjectMeta instance;
         glancev1beta1.Spec := glancev1beta1.Spec instance;
         glancev1beta1.Status :=
           {| glancev1beta1.DbSyncHash :=
                glancev1beta1.DbSyncHash (glancev1beta1.Status instance);
              glancev1beta1.DeploymentHash := hashStr |} |} in
    Vis (StatusUpdate KGlanceAPI instance) (fun err =>
      if notNil err then Ret (instance, err) else Ret (instance, None))
  else Ret (instance, None).

(** Lines 58-70: fetch the Glance instance. *)
Definition fetchInstance (req : Request) : Pass glancev1beta1.GlanceAPI :=
  r <- call (Get KGlanceAPI (NamespacedName req) (zero KGlanceAPI)) ;;
  let '(instance, err) := r in
  match err with
  | Some e =>
      if IsNotFound e then return_ noRequeue None
      else return_ noRequeue (Some e)
  | None => ret instance
  end.

(** Lines 72-88: the PVC. *)
Definition syncPvc (instance : glancev1beta1.GlanceAPI) : Pass unit :=
  let pvc := glance.Pvc instance in
  r <- call (Get KPvc (keyOf (k:=KPvc) pvc) (zero KPvc)) ;;
  let '(foundPvc, err) := r in
  if isNotFound err then
    err <- call (Create KPvc pvc) ;;
    if notNil err then return_ noRequeue err
    else return_ (requeueAfter (Second * 5)) err
  else if notNil err then return_ noRequeue err
  else ret tt.

(** Lines 90-106: the Service. *)
Definition syncService (instance : glancev1beta1.GlanceAPI) : Pass unit :=
  let service := glance.Service instance in
  r <- call (Get KService (keyOf (k:=KService) service) (zero KService)) ;;
  let '(foundService, err) := r in
  if isNotFound err then
    err <- call (Create KService service) ;;
    if notNil err then return_ noRequeue err
    else return_ (requeueAfter (Second * 5)) err
  else if notNil err then return_ noRequeue err
  else ret tt.

(** [reflect.DeepEqual] on two [map[string]string]. *)
Definition DeepEqual (a b : option (gmap string string)) : bool := bool_decide (a = b).

(** Lines 108-127: the ConfigMap.  The desired ConfigMap is handed on, the
    deployment phase hashes it. *)
Definition syncConfigMap (instance : glancev1beta1.GlanceAPI) : Pass corev1.ConfigMap :=
  let configMap := glance.ConfigMap instance in
  r <- call (Get KConfigMap (keyOf (k:=KConfigMap) configMap) (zero KConfigMap)) ;;
  let '(foundConfigMap, err) := r in
  if isNotFound err then
    err <- call (Create KConfigMap configMap) ;;
    if notNil err then return_ noRequeue err
    else ret configMap
  else if negb (DeepEqual (corev1.Data configMap) (corev1.Data foundConfigMap)) then
    let foundConfigMap :=
      {| corev1.cmMeta := corev1.cmMeta foundConfigMap;
         corev1.Data := corev1.Data configMap |} in
    err <- call (Update KConfigMap foundConfigMap) ;;
    if notNil err then return_ noRequeue err
    else return_ (requeueAfter (Second * 5)) err
  else ret configMap.

(** Lines 129-151: the DB schema object and its [status.completed] flag. *)
Definition syncSchema (instance : glancev1beta1.GlanceAPI) : Pass unit :=
  let '(schemaObj, err) := glance.SchemaObject instance in
  if notNil err then return_ noRequeue err
  else
    let foundSchema :=
      {| unstructured.GroupVersionKind := unstructured.GroupVersionKind schemaObj;
         unstructured.uMeta := emptyMeta;
         unstructured.statusCompleted := unstructured.Absent |} in
    r <- call (Get KSchema (keyOf (k:=KSchema) schemaObj) foundSchema) ;;
    let '(foundSchema, err) := r in
    if isNotFound err then
      err <- call (Create KSchema schemaObj) ;;
      if notNil err then return_ noRequeue err
      else ret tt
    else if notNil err then return_ noRequeue err
    else
      let '(completed, _, err) := unstructured.NestedBool foundSchema in
      if negb completed then return_ (requeueAfter (Second * 5)) err
      else ret tt.

(** Lines 153-179: the DB sync job.  The instance is handed on with the
    hash that [setDbSyncHash] wrote into it. *)
Definition syncDbSync (instance : glancev1beta1.GlanceAPI)
  : Pass glancev1beta1.GlanceAPI :=
  let job := glance.DbSyncJob instance in
  let '(dbSyncHash, err) := glance.ObjectHash KJob job in
  match err with
  | Some e => return_ noRequeue (Some (Errorf "error calculating DB sync hash: %v" e))
  | None =>
      _ <- (if negb (String.eqb
                      (glancev1beta1.DbSyncHash (glancev1beta1.Status instance))
                      dbSyncHash)
            then
              r <- lift (glance.EnsureJob job) ;;
              let '(requeue, err) := r in
              if notNil err then return_ noRequeue err
              else if requeue then return_ (requeueAfter (Second * 5)) err
              else ret tt
            else ret tt) ;;
      r <- lift (setDbSyncHash instance dbSyncHash) ;;
      let '(instance, err) := r in
      if notNil err then return_ noRequeue err
      else
        r <- lift (glance.DeleteJob job) ;;
        let '(requeue, err) := r in
        if notNil err then return_ noRequeue err
        else ret instance
  end.

(** Lines 181-229: the deployment. *)
Definition syncDeployment (instance : glancev1beta1.GlanceAPI)
    (configMap : corev1.ConfigMap) : Pass unit :=
  let '(configMapHash, err) := glance.ObjectHash KConfigMap configMap in
  match err with
  | Some e => return_ noRequeue (Some (Errorf "error calculating config map hash: %v" e))
  | None =>
      let deployment := glance.Deployment instance configMapHash in
      let '(deploymentHash, err) := glance.ObjectHash KDeployment deployment in
      match err with
      | Some e => return_ noRequeue (Some (Errorf "error deployment hash: %v" e))
      | None =>
          r <- call (Get KDeployment (keyOf (k:=KDeployment) deployment)
                       (zero KDeployment)) ;;
          let '(foundDeployment, err) := r in
          if isNotFound err then
            err <- call (Create KDeployment deployment) ;;
            if notNil err then return_ noRequeue err
            else return_ (requeueAfter (Second * 10)) err
          else if notNil err then return_ noRequeue err
          else if negb (String.eqb
                          (glancev1beta1.DeploymentHash (glancev1beta1.Status instance))
                          deploymentHash)
          then
            let foundDeployment :=
              {| appsv1.depMeta := appsv1.depMeta foundDeployment;
                 appsv1.Spec := appsv1.Spec deployment;
                 appsv1.Status := appsv1.Status foundDeployment |} in
            err <- call (Update KDeployment foundDeployment) ;;
            if notNil err then return_ noRequeue err
            else
              r <- lift (setDeploymentHash instance deploymentHash) ;;
              let '(_, err1) := r in
              if notNil err1 then return_ noRequeue err1
              else return_ (requeueAfter (Second * 10)) err
          else if Z.eqb (appsv1.ReadyReplicas (appsv1.Status foundDeployment))
                        (glancev1beta1.Replicas (glancev1beta1.Spec instance))
          then ret tt
          else return_ (requeueAfter (Second * 5)) err
      end
  end.

(** The body of [Reconcile], phase after phase. *)
Definition pass (req : Request) : Pass unit :=
  instance <- fetchInstance req ;;
  _ <- syncPvc instance ;;
  _ <- syncService instance ;;
  configMap <- syncConfigMap instance ;;
  _ <- syncSchema instance ;;
  instance <- syncDbSync instance ;;
  syncDeployment instance configMap.

(** [Reconcile]: what the pass returned, or line 231 when it ran to the
    end. *)
Definition Reconcile (req : Request) : Prog (Result * error) :=
  bindP (pass req) (fun x =>
    match x with
    | Done res err => Ret (res, err)
    | Next _ => Ret (noRequeue, None)
    end).
End Controller.

(** ** A reference API server *)

(** The object store is outside the controller and outside the repository
    (section 6 of the spec lists what it offers); this is the plain in-memory
    one: a collection per kind keyed by namespace and name, [Get] answering
    NotFound for a missing key, [Create] refusing a taken key, [Update],
    [StatusUpdate] and [Delete] refusing a missing one.  [Update] keeps the
    stored status and [StatusUpdate] changes nothing else.  An [outage] makes
    every call of a verb on a kind fail with a given error, store untouched.
    [Create] stores the object with an empty status.  What [Create] and
    [Update] store is the object as it goes over the wire ([wire]). *)
Module apiserver.
Record Store := {
  glanceapis : gmap (string * string) glancev1beta1.GlanceAPI;
  pvcs : gmap (string * string) corev1.PersistentVolumeClaim;
  services : gmap (string * string) corev1.Service;
  configmaps : gmap (string * string) corev1.ConfigMap;
  schemas : gmap (string * string) unstructured.Unstructured;
  jobs : gmap (string * string) batchv1.Job;
  deployments : gmap (string * string) appsv1.Deployment
}.

Record World := { store : Store; outage : Verb -> Kind -> error }.

Definition collection (k : Kind) : Store -> gmap (string * string) (objT k) :=
  match k with
  | KGlanceAPI => glanceapis
  | KPvc => pvcs
  | KService => services
  | KConfigMap => configmaps
  | KSchema => schemas
  | KJob => jobs
  | KDeployment => deployments
  end.

Definition setCollection (k : Kind) : gmap (string * string) (objT k) -> Store -> Store :=
  match k with
  | KGlanceAPI => fun m s =>
      {| glanceapis := m; pvcs := pvcs s; services := services s;
         configmaps := configmaps s; schemas := schemas s; jobs := jobs s;
         deployments := deployments s |}
  | KPvc => fun m s =>
      {| glanceapis := glanceapis s; pvcs := m; services := services s;
         configmaps := configmaps s; schemas := schemas s; jobs := jobs s;
         deployments := deployments s |}
  | KService => fun m s =>
      {| glanceapis := glanceapis s; pvcs := pvcs s; services := m;
         configmaps := configmaps s; schemas := schemas s; jobs := jobs s;
         deployments := deployments s |}
  | KConfigMap => fun m s =>
      {| glanceapis := glanceapis s; pvcs := pvcs s; services := services s;
         configmaps := m; schemas := schemas s; jobs := jobs s;
         deployments := deployments s |}
  | KSchema => fun m s =>
      {| glanceapis := glanceapis s; pvcs := pvcs s; services := services s;
         configmaps := configmaps s; schemas := m; jobs := jobs s;
         deployments := deployments s |}
  | KJob => fun m s =>
      {| glanceapis := glanceapis s; pvcs := pvcs s; services := services s;
         configmaps := configmaps s; schemas := schemas s; jobs := m;
         deployments := deployments s |}
  | KDeployment => fun m s =>
      {| glanceapis := glanceapis s; pvcs := pvcs s; services := services s;
         configmaps := configmaps s; schemas := schemas s; jobs := jobs s;
         deployments := m |}
  end.

Definition addr (key : types.NamespacedName) : string * string :=
  (types.Namespace key, types.Name key).

(** The object with the spec of [new] and the status of [old]. *)
Definition keepStatus (k : Kind) : objT k -> objT k -> objT k :=
  match k with
  | KGlanceAPI => fun new old =>
      {| glancev1beta1.ObjectMeta := glancev1beta1.ObjectMeta new;
         glancev1beta1.Spec := glancev1beta1.Spec new;
         glancev1beta1.Status := glancev1beta1.Status old |}
  | KPvc => fun new _ => new
  | KService => fun new _ => new
  | KConfigMap => fun new _ => new
  | KSchema => fun new old =>
      {| unstructured.GroupVersionKind := unstructured.GroupVersionKind new;
         unstructured.uMeta := unstructured.uMeta new;
         unstructured.statusCompleted := unstructured.statusCompleted old |}
  | KJob => fun new old =>
      {| batchv1.jobMeta := batchv1.jobMeta new;
         batchv1.jobSpec := batchv1.jobSpec new;
         batchv1.jobState := batchv1.jobState old |}
  | KDeployment => fun new old =>
      {| appsv1.depMeta := appsv1.depMeta new;
         appsv1.Spec := appsv1.Spec new;
         appsv1.Status := appsv1.Status old |}
  end.

(** A new object starts with an empty status, whatever status was sent. *)
Definition created (k : Kind) (o : objT k) : objT k := keepStatus k o (zero k).

(** What is left of an object that is sent to the server.  The [Data] of a
    ConfigMap is serialised [omitempty]: a map without entries is left out,
    and what is read back is the nil map. *)
Definition wire (k : Kind) : objT k -> objT k :=
  match k with
  | KConfigMap => fun c =>
      {| corev1.cmMeta := corev1.cmMeta c;
         corev1.Data :=
           match corev1.Data c with
           | Some m => if decide (m = ∅) then None else Some m
           | None => None
           end |}
  | KGlanceAPI | KPvc | KService | KSchema | KJob | KDeployment => fun o => o
  end.

Definition put (k : Kind) (o : objT k) (w : World) : World :=
  {| store := setCollection k (<[addr (keyOf o) := o]> (collection k (store w))) (store w);
     outage := outage w |}.

Definition remove (k : Kind) (o : objT k) (w : World) : World :=
  {| store := setCollection k (delete (addr (keyOf o)) (collection k (store w))) (store w);
     outage := outage w |}.

Definition find (k : Kind) (key : types.NamespacedName) (w : World) : option (objT k) :=
  collection k (store w) !! addr key.

Definition handle : Handler World := fun R c =>
  match c in Call R0 return World -> R0 * World with
  | Get k key into => fun w =>
      match outage w VGet k with
      | Some e => ((into, Some e), w)
      | None =>
          match find k key w with
          | Some o => ((o, None), w)
          | None => ((into, Some (StatusError NotFound)), w)
          end
      end
  | Create k obj => fun w =>
      match outage w VCreate k with
      | Some e => (Some e, w)
      | None =>
          match find k (keyOf obj) w with
          | Some _ => (Some (StatusError AlreadyExists), w)
          | None => (None, put k (created k (wire k obj)) w)
          end
      end
  | Update k obj => fun w =>
      match outage w VUpdate k with
      | Some e => (Some e, w)
      | None =>
          match find k (keyOf obj) w with
          | Some old => (None, put k (keepStatus k (wire k obj) old) w)
          | None => (Some (StatusError NotFound), w)
          end
      end
  | StatusUpdate k obj => fun w =>
      match outage w VStatusUpdate k with
      | Some e => (Some e, w)
      | None =>
          match find k (keyOf obj) w with
          | Some old => (None, put k (keepStatus k old obj) w)
          | None => (Some (StatusError NotFound), w)
          end
      end
  | Delete k obj => fun w =>
      match outage w VDelete k with
      | Some e => (Some e, w)
      | None =>
          match find k (keyOf obj) w with
          | Some _ => (None, remove k obj w)
          | None => (Some (StatusError NotFound), w)
          end
      end
  end.

Definition noOutage : Verb -> Kind -> error := fun _ _ => None.

Definition emptyStore : Store :=
  {| glanceapis := ∅; pvcs := ∅; services := ∅; configmaps := ∅; schemas := ∅;
     jobs := ∅; deployments := ∅ |}.

Definition empty : World := {| store := emptyStore; outage := noOutage |}.

(** No call fails for a reason of the server's own. *)
Definition healthy (w : World) : Prop := forall v k, outage w v k = None.
End apiserver.

(** ** A concrete instance *)

(** Templates and a hasher to run the controller on: every object is named
    after the instance, the hash of an object is a rendering of its desired
    content. *)
Module sample.
Definition nameOf (i : glancev1beta1.GlanceAPI) (suffix : string) : metav1.ObjectMeta :=
  {| metav1.Name := metav1.Name (glancev1beta1.ObjectMeta i) +:+ suffix;
     metav1.Namespace := metav1.Namespace (glancev1beta1.ObjectMeta i) |}.

Definition Pvc (i : glancev1beta1.GlanceAPI) : corev1.PersistentVolumeClaim :=
  {| corev1.pvcMeta := nameOf i "" |}.

Definition Service (i : glancev1beta1.GlanceAPI) : corev1.Service :=
  {| corev1.svcMeta := nameOf i "" |}.

Definition ConfigMap (i : glancev1beta1.GlanceAPI) : corev1.ConfigMap :=
  {| corev1.cmMeta := nameOf i "";
     corev1.Data := Some {[ "glance-api.conf" := "[DEFAULT]" ]} |}.

Definition SchemaObject (i : glancev1beta1.GlanceAPI) : unstructured.Unstructured * error :=
  ({| unstructured.GroupVersionKind := "database.openstack.org/v1beta1, Kind=MariaDBSchema";
      unstructured.uMeta := nameOf i "";
      unstructured.statusCompleted := unstructured.Absent |}, None).

Definition DbSyncJob (i : glancev1beta1.GlanceAPI) : batchv1.Job :=
  {| batchv1.jobMeta := nameOf i "-db-sync";
     batchv1.jobSpec := "glance-manage db_sync";
     batchv1.jobState := batchv1.Running |}.

Definition Deployment (i : glancev1beta1.GlanceAPI) (configHash : string)
  : appsv1.Deployment :=
  {| appsv1.depMeta := nameOf i "";
     appsv1.Spec :=
       {| appsv1.Replicas := glancev1beta1.Replicas (glancev1beta1.Spec i);
          appsv1.Template := "CONFIG_HASH=" +:+ configHash |};
     appsv1.Status := {| appsv1.ReadyReplicas := 0 |} |}.

Definition ObjectHash (k : Kind) : objT k -> string * error :=
  match k with
  | KJob => fun j => ("job:" +:+ batchv1.jobSpec j, None)
  | KConfigMap => fun c =>
      (match corev1.Data c with
       | Some d => "cm:" +:+ default "" (d !! "glance-api.conf")
       | None => "cm:nil"
       end, None)
  | KDeployment => fun d =>
      ((if Z.eqb (appsv1.Replicas (appsv1.Spec d)) 1 then "dep:1:" else "dep:n:")
         +:+ appsv1.Template (appsv1.Spec d), None)
  | _ => fun _ => ("", Some (MarshalError "unsupported"))
  end.

Definition templates : glance.Templates :=
  {| glance.Pvc := Pvc; glance.Service := Service; glance.ConfigMap := ConfigMap;
     glance.SchemaObject := SchemaObject; glance.DbSyncJob := DbSyncJob;
     glance.Deployment := Deployment; glance.ObjectHash := ObjectHash |}.

Definition Reconcile : Request -> Prog (Result * error) := @Reconcile templates.

Definition instance : glancev1beta1.GlanceAPI :=
  {| glancev1beta1.ObjectMeta := {| metav1.Name := "glance"; metav1.Namespace := "openstack" |};
     glancev1beta1.Spec := {| glancev1beta1.Replicas := 1 |};
     glancev1beta1.Status :=
       {| glancev1beta1.DbSyncHash := ""; glancev1beta1.DeploymentHash := "" |} |}.

Definition req : Request :=
  {| NamespacedName := {| types.Namespace := "openstack"; types.Name := "glance" |} |}.

(** The instance has just been created, nothing else is there. *)
Definition fresh : apiserver.World := apiserver.put KGlanceAPI instance apiserver.empty.

(** The instance with both hashes recorded. *)
Definition recorded : glancev1beta1.GlanceAPI :=
  {| glancev1beta1.ObjectMeta := glancev1beta1.ObjectMeta instance;
     glancev1beta1.Spec := glancev1beta1.Spec instance;
     glancev1beta1.Status :=
       {| glancev1beta1.DbSyncHash := fst (ObjectHash KJob (DbSyncJob instance));
          glancev1beta1.DeploymentHash :=
            fst (ObjectHash KDeployment
                   (Deployment instance (fst (ObjectHash KConfigMap (ConfigMap instance))))) |} |}.

(** The instance with its PVC, Service and ConfigMap. *)
Definition provisioned : apiserver.World :=
  apiserver.put KConfigMap (ConfigMap instance)
    (apiserver.put KService (Service instance)
       (apiserver.put KPvc (Pvc instance) fresh)).

(** The same with a ConfigMap that somebody edited. *)
Definition drifted : apiserver.World :=
  apiserver.put KConfigMap
    {| corev1.cmMeta := nameOf instance "";
       corev1.Data := Some {[ "glance-api.conf" := "[DEFAULT] debug = true" ]} |}
    provisioned.

(** Everything in place: schema completed, hashes recorded, job gone, one
    replica ready. *)
Definition settled : apiserver.World :=
  apiserver.put KDeployment
    {| appsv1.depMeta := nameOf instance "";
       appsv1.Spec := appsv1.Spec (Deployment instance "cm:[DEFAULT]");
       appsv1.Status := {| appsv1.ReadyReplicas := 1 |} |}
    (apiserver.put KSchema
       {| unstructured.GroupVersionKind :=
            unstructured.GroupVersionKind (fst (SchemaObject instance));
          unstructured.uMeta := nameOf instance "";
          unstructured.statusCompleted := unstructured.BoolValue true |}
       (apiserver.put KGlanceAPI recorded provisioned)).

(** The fetch of ConfigMaps times out, everything else works. *)
Definition configMapFetchDown (w : apiserver.World) : apiserver.World :=
  {| apiserver.store := apiserver.store w;
     apiserver.outage := fun v k =>
       match v, k with
       | VGet, KConfigMap => Some (StatusError ServerTimeout)
       | _, _ => None
       end |}.
End sample.

(** ** The rest of the cluster *)

(** What other controllers do between passes: the schema controller marks the
    schema completed, the job controller finishes the job, the deployment
    controller reports ready replicas. *)
Module cluster.
Import apiserver.

Definition amend (k : Kind) (f : objT k -> objT k) (w : World) : World :=
  {| store := setCollection k (f <$> collection k (store w)) (store w);
     outage := outage w |}.

Definition completeSchema : World -> World :=
  amend KSchema (fun u =>
    {| unstructured.GroupVersionKind := unstructured.GroupVersionKind u;
       unstructured.uMeta := unstructured.uMeta u;
       unstructured.statusCompleted := unstructured.BoolValue true |}).

Definition finishJob : World -> World :=
  amend KJob (fun j =>
    {| batchv1.jobMeta := batchv1.jobMeta j;
       batchv1.jobSpec := batchv1.jobSpec j;
       batchv1.jobState := batchv1.Succeeded |}).

Definition rollOut (n : Z) : World -> World :=
  amend KDeployment (fun d =>
    {| appsv1.depMeta := appsv1.depMeta d;
       appsv1.Spec := appsv1.Spec d;
       appsv1.Status := {| appsv1.ReadyReplicas := n |} |}).
End cluster.


(** ** Monitors on traces *)

(** What has been seen so far in a pass: the instance as fetched, a job
    fetched in state succeeded, a deployment update that came back nil. *)
Record Seen := {
  fetched : option glancev1beta1.GlanceAPIStatus;
  jobSucceeded : bool;
  deploymentUpdated : bool
}.

Definition nothingSeen : Seen :=
  {| fetched := None; jobSucceeded := false; deploymentUpdated := false |}.

(** A status write is confirmed when each hash it carries is the one fetched
    at the start of the pass or follows the operation it stands for. *)
Definition confirmed (s : Seen) (api : glancev1beta1.GlanceAPI) : bool :=
  match fetched s with
  | None => false
  | Some st =>
      (String.eqb (glancev1beta1.DbSyncHash (glancev1beta1.Status api))
                  (glancev1beta1.DbSyncHash st) || jobSucceeded s)
      && (String.eqb (glancev1beta1.DeploymentHash (glancev1beta1.Status api))
                     (glancev1beta1.DeploymentHash st) || deploymentUpdated s)
  end.

(** One event: the state after it, and whether it is an unconfirmed status
    write. *)
Definition observe (s : Seen) (e : Event) : Seen * bool :=
  match e with
  | Ev c r =>
      match c in Call R0 return R0 -> Seen * bool with
      | Get k _ _ =>
          match k return objT k * error -> Seen * bool with
          | KGlanceAPI => fun r =>
              match fetched s, snd r with
              | None, None =>
                  ({| fetched := Some (glancev1beta1.Status (fst r));
                      jobSucceeded := jobSucceeded s;
                      deploymentUpdated := deploymentUpdated s |}, true)
              | _, _ => (s, true)
              end
          | KJob => fun r =>
              match batchv1.jobState (fst r), snd r with
              | batchv1.Succeeded, None =>
                  ({| fetched := fetched s; jobSucceeded := true;
                      deploymentUpdated := deploymentUpdated s |}, true)
              | _, _ => (s, true)
              end
          | _ => fun _ => (s, true)
          end
      | Update k _ =>
          match k with
          | KDeployment => fun err =>
              match err with
              | None =>
                  ({| fetched := fetched s; jobSucceeded := jobSucceeded s;
                      deploymentUpdated := true |}, true)
              | Some _ => (s, true)
              end
          | _ => fun _ => (s, true)
          end
      | StatusUpdate k obj =>
          match k return objT k -> error -> Seen * bool with
          | KGlanceAPI => fun api _ => (s, confirmed s api)
          | _ => fun _ _ => (s, true)
          end obj
      | Create _ _ => fun _ => (s, true)
      | Delete _ _ => fun _ => (s, true)
      end r
  end.

Fixpoint statusWritesConfirmed (s : Seen) (tr : list Event) : bool :=
  match tr with
  | [] => true
  | e :: tr' => snd (observe s e) && statusWritesConfirmed (fst (observe s e)) tr'
  end.

Definition seenAfter (s : Seen) (tr : list Event) : Seen :=
  fold_left (fun s e => fst (observe s e)) tr s.

(** Kinds whose calls the monitor ignores. *)
Definition quietKind (k : Kind) : bool :=
  match k with
  | KPvc | KService | KConfigMap | KSchema => true
  | KGlanceAPI | KJob | KDeployment => false
  end.

Definition quiet (tr : list Event) : bool := forallb (fun e => quietKind (evKind e)) tr.

(** No call of the trace is on kind [k]. *)
Definition avoids (k : Kind) (tr : list Event) : bool :=
  forallb (fun e => negb (bool_decide (evKind e = k))) tr.

(** ** Names for what the runs show *)

(** The replies of the server, as events. *)
Definition found (k : Kind) (key : types.NamespacedName) (o : objT k) : Event :=
  Ev (Get k key (zero k)) (o, None).
Definition missing (k : Kind) (key : types.NamespacedName) : Event :=
  Ev (Get k key (zero k)) (zero k, Some (StatusError NotFound)).
Definition done (c : Call error) : Event := Ev c None.

(** The live ConfigMap with the desired data, as the pass sends it back. *)
Definition withData (c desired : corev1.ConfigMap) : corev1.ConfigMap :=
  {| corev1.cmMeta := corev1.cmMeta c; corev1.Data := corev1.Data desired |}.

(** The object the schema is fetched into. *)
Definition schemaInto (schemaObj : unstructured.Unstructured) : unstructured.Unstructured :=
  {| unstructured.GroupVersionKind := unstructured.GroupVersionKind schemaObj;
     unstructured.uMeta := emptyMeta;
     unstructured.statusCompleted := unstructured.Absent |}.

(** The instance with a new DbSyncHash, and with a new DeploymentHash. *)
Definition withDbSyncHash (i : glancev1beta1.GlanceAPI) (hashStr : string)
  : glancev1beta1.GlanceAPI :=
  {| glancev1beta1.ObjectMeta := glancev1beta1.ObjectMeta i;
     glancev1beta1.Spec := glancev1beta1.Spec i;
     glancev1beta1.Status :=
       {| glancev1beta1.DbSyncHash := hashStr;
          glancev1beta1.DeploymentHash :=
            glancev1beta1.DeploymentHash (glancev1beta1.Status i) |} |}.

Definition withDeploymentHash (i : glancev1beta1.GlanceAPI) (hashStr : string)
  : glancev1beta1.GlanceAPI :=
  {| glancev1beta1.ObjectMeta := glancev1beta1.ObjectMeta i;
     glancev1beta1.Spec := glancev1beta1.Spec i;
     glancev1beta1.Status :=
       {| glancev1beta1.DbSyncHash := glancev1beta1.DbSyncHash (glancev1beta1.Status i);
          glancev1beta1.DeploymentHash := hashStr |} |}.

(** The live deployment with the desired spec, as the pass sends it back. *)
Definition withSpec (d desired : appsv1.Deployment) : appsv1.Deployment :=
  {| appsv1.depMeta := appsv1.depMeta d;
     appsv1.Spec := appsv1.Spec desired;
     appsv1.Status := appsv1.Status d |}.

(** ** The scenario of a fresh instance: its states *)

(** The templates look at the name and at the spec of the instance only,
    not at its status. *)
Definition statusBlind (G : glance.Templates) : Prop :=
  forall i i' : glancev1beta1.GlanceAPI,
    glancev1beta1.ObjectMeta i = glancev1beta1.ObjectMeta i' ->
    glancev1beta1.Spec i = glancev1beta1.Spec i' ->
    glance.Pvc i = glance.Pvc i'
    /\ glance.Service i = glance.Service i'
    /\ glance.ConfigMap i = glance.ConfigMap i'
    /\ glance.SchemaObject i = glance.SchemaObject i'
    /\ glance.DbSyncJob i = glance.DbSyncJob i'
    /\ (forall configHash, glance.Deployment i configHash = glance.Deployment i' configHash).

(** The request for an instance. *)
Definition requestFor (i : glancev1beta1.GlanceAPI) : Request :=
  {| NamespacedName := keyOf (k:=KGlanceAPI) i |}.

(** Nothing of what the controller manages for the instance is there. *)
Definition unprovisioned {G : glance.Templates} (i : glancev1beta1.GlanceAPI)
    (w : apiserver.World) : Prop :=
  apiserver.find KPvc (keyOf (k:=KPvc) (glance.Pvc i)) w = None
  /\ apiserver.find KService (keyOf (k:=KService) (glance.Service i)) w = None
  /\ apiserver.find KConfigMap (keyOf (k:=KConfigMap) (glance.ConfigMap i)) w = None
  /\ apiserver.find KSchema (keyOf (k:=KSchema) (fst (glance.SchemaObject i))) w = None
  /\ apiserver.find KJob (keyOf (k:=KJob) (glance.DbSyncJob i)) w = None
  /\ forall configHash,
       apiserver.find KDeployment (keyOf (k:=KDeployment) (glance.Deployment i configHash)) w
       = None.

(** The stores the scenario goes through, from a store [w0] that holds the
    instance [i] alone. *)
Module scenario.
Section States.
Context {G : glance.Templates}.
Import apiserver.

Variable i : glancev1beta1.GlanceAPI.
Variable schemaObj : unstructured.Unstructured.
Variables dbSyncHash configMapHash deploymentHash : string.
Variable w0 : World.

Definition run (w : World) : (Result * error) * list Event * World :=
  exec handle (Reconcile (requestFor i)) w.

Definition hasPvc : World := put KPvc (glance.Pvc i) w0.
Definition hasService : World := put KService (glance.Service i) hasPvc.
Definition hasSchema : World :=
  put KJob (created KJob (glance.DbSyncJob i))
    (put KSchema (created KSchema schemaObj)
       (put KConfigMap (glance.ConfigMap i) hasService)).

Definition gateOpen : World := cluster.completeSchema hasSchema.
Definition jobDone : World := cluster.finishJob gateOpen.

(** The schema object once completed, the job once succeeded. *)
Definition schemaCompleted : unstructured.Unstructured :=
  {| unstructured.GroupVersionKind := unstructured.GroupVersionKind schemaObj;
     unstructured.uMeta := unstructured.uMeta schemaObj;
     unstructured.statusCompleted := unstructured.BoolValue true |}.

Definition jobSucceededObj : batchv1.Job :=
  {| batchv1.jobMeta := batchv1.jobMeta (glance.DbSyncJob i);
     batchv1.jobSpec := batchv1.jobSpec (glance.DbSyncJob i);
     batchv1.jobState := batchv1.Succeeded |}.

(** The instance after the job hash was recorded, then the deployment hash. *)
Definition i1 : glancev1beta1.GlanceAPI := withDbSyncHash i dbSyncHash.
Definition i2 : glancev1beta1.GlanceAPI := withDeploymentHash i1 deploymentHash.

Definition deployed : World :=
  put KDeployment (created KDeployment (glance.Deployment i configMapHash))
    (remove KJob jobSucceededObj (put KGlanceAPI i1 jobDone)).

(** The deployment with [ready] replicas ready, and once all the replicas
    the instance asks for are ready. *)
Definition deploymentWith (ready : Z) : appsv1.Deployment :=
  {| appsv1.depMeta := appsv1.depMeta (glance.Deployment i configMapHash);
     appsv1.Spec := appsv1.Spec (glance.Deployment i configMapHash);
     appsv1.Status := {| appsv1.ReadyReplicas := ready |} |}.

Definition deploymentReady : appsv1.Deployment :=
  deploymentWith (glancev1beta1.Replicas (glancev1beta1.Spec i)).

(** The store after the creation of the deployment, with [ready] replicas
    ready; the store after the pass that comes then; and that store once
    all replicas are ready. *)
Definition rolledOut (ready : Z) : World := cluster.rollOut ready deployed.

Definition updated (ready : Z) : World :=
  put KGlanceAPI i2 (put KDeployment (deploymentWith ready) (rolledOut ready)).

Definition allReady (ready : Z) : World :=
  cluster.rollOut (glancev1beta1.Replicas (glancev1beta1.Spec i)) (updated ready).
End States.
End scenario.

(** ** Programs that leave the jobs alone *)

(** A program none of whose calls is on a job or is a delete. *)
Inductive gentle {A : Type} : Prog A -> Prop :=
| gentle_ret (a : A) : gentle (Ret a)
| gentle_vis {R : Type} (c : Call R) (k : R -> Prog A) :
    kindOf c <> KJob -> verbOf c <> VDelete -> (forall r, gentle (k r)) ->
    gentle (Vis c k).

(** A pass that writes nothing leaves the store as it is, or removes a job
    and writes nothing when run again. *)
Definition settles {A : Type} (p : Pass A) : Prop :=
  forall w, apiserver.healthy w -> writes (trace (exec apiserver.handle p w)) = [] ->
    final (exec apiserver.handle p w) = w
    \/ exists j,
         final (exec apiserver.handle p w) = apiserver.remove KJob j w
         /\ writes (trace (exec apiserver.handle p (apiserver.remove KJob j w))) = [].

(** ** The controller's registration *)

(** The part of controller-runtime's builder that [SetupWithManager] fills
    in: the kind reconciled and the kinds whose changes wake the reconciler
    of their owner. *)
Module ctrl.



End ctrl.


(** ** More monitors on traces *)

(** A failed call after which the pass goes on: a fetch answered NotFound,
    and any failed fetch of the ConfigMap. *)
Definition survivable (e : Event) : bool :=
  match evError e with
  | None => true
  | Some err =>
      match evVerb e with
      | VGet => IsNotFound err || bool_decide (evKind e = KConfigMap)
      | VCreate | VUpdate | VStatusUpdate | VDelete => false
      end
  end.

(** Every other failed call is the last one, and what is returned then is
    the empty result with the error of that call.  [out] is what the run
    returned, [None] when it went on. *)
Fixpoint failuresReturned (tr : list Event) (out : option (Result * error)) : Prop :=
  match tr with
  | [] => True
  | e :: tr' =>
      if survivable e then failuresReturned tr' out
      else tr' = [] /\ out = Some (noRequeue, evError e)
  end.

(** What a phase returned, [None] when the pass goes on. *)
Definition returned {A : Type} (fl : Flow A) : option (Result * error) :=
  match fl with
  | Next _ => None
  | Done res err => Some (res, err)
  end.

(** The calls a pass is ever seen to make. *)
Definition permitted (c : Verb * Kind) : bool :=
  match c with
  | (VGet, _) => true
  | (VCreate, (KPvc | KService | KConfigMap | KSchema | KJob | KDeployment)) => true
  | (VUpdate, (KConfigMap | KDeployment)) => true
  | (VStatusUpdate, KGlanceAPI) => true
  | (VDelete, KJob) => true
  | _ => false
  end.

(** A create or an update of an object of kind [k]. *)
Definition makes (k : Kind) (e : Event) : bool :=
  match evVerb e with
  | VCreate | VUpdate => bool_decide (evKind e = k)
  | VGet | VStatusUpdate | VDelete => false
  end.

Definition made (k : Kind) (tr : list Event) : nat :=
  length (filter (fun e => makes k e = true) tr).

(** The results a pass hands back: no [Requeue] flag, a delay of nothing,
    five or ten seconds, and with an error the empty result, or five
    seconds beside an accessor error. *)
Definition wellShaped (out : Result * error) : Prop :=
  Requeue (fst out) = false
  /\ (RequeueAfter (fst out) = 0 \/ RequeueAfter (fst out) = Second * 5
      \/ RequeueAfter (fst out) = Second * 10)
  /\ (forall e, snd out = Some e ->
       fst out = noRequeue
       \/ (fst out = requeueAfter (Second * 5) /\ exists path, e = AccessorError path)).

(** What a pass has got to: the instance as fetched, and the job hash that a
    status write which came back nil has recorded. *)
Record Progress := {
  pInstance : option glancev1beta1.GlanceAPI;
  pRecorded : option string
}.

Definition noProgress : Progress := {| pInstance := None; pRecorded := None |}.

(** The hash of the job of the fetched instance is in the Status that was
    fetched, or has been recorded since. *)
Definition jobHashRecorded {G : glance.Templates} (s : Progress) : bool :=
  match pInstance s with
  | None => false
  | Some i =>
      match glance.ObjectHash KJob (glance.DbSyncJob i) with
      | (dbSyncHash, None) =>
          String.eqb (glancev1beta1.DbSyncHash (glancev1beta1.Status i)) dbSyncHash
          || match pRecorded s with
             | Some recorded => String.eqb recorded dbSyncHash
             | None => false
             end
      | (_, Some _) => false
      end
  end.

(** One event: the progress after it, and whether it is a delete of the job
    or a create or update of the deployment that comes before the job hash
    is recorded. *)
Definition advance {G : glance.Templates} (s : Progress) (e : Event) : Progress * bool :=
  match e with
  | Ev c r =>
      match c in Call R0 return R0 -> Progress * bool with
      | Get k _ _ =>
          match k return objT k * error -> Progress * bool with
          | KGlanceAPI => fun r =>
              match pInstance s, snd r with
              | None, None => ({| pInstance := Some (fst r); pRecorded := pRecorded s |}, true)
              | _, _ => (s, true)
              end
          | _ => fun _ => (s, true)
          end
      | Create k _ =>
          match k with
          | KDeployment => fun _ => (s, jobHashRecorded s)
          | _ => fun _ => (s, true)
          end
      | Update k _ =>
          match k with
          | KDeployment => fun _ => (s, jobHashRecorded s)
          | _ => fun _ => (s, true)
          end
      | StatusUpdate k obj =>
          match k return objT k -> error -> Progress * bool with
          | KGlanceAPI => fun api err =>
              match err with
              | None =>
                  ({| pInstance := pInstance s;
                      pRecorded :=
                        Some (glancev1beta1.DbSyncHash (glancev1beta1.Status api)) |}, true)
              | Some _ => (s, true)
              end
          | _ => fun _ _ => (s, true)
          end obj
      | Delete k _ =>
          match k with
          | KJob => fun _ => (s, jobHashRecorded s)
          | _ => fun _ => (s, true)
          end
      end r
  end.

Fixpoint afterJobHash {G : glance.Templates} (s : Progress) (tr : list Event) : bool :=
  match tr with
  | [] => true
  | e :: tr' => snd (advance s e) && afterJobHash (fst (advance s e)) tr'
  end.

Definition progressAfter {G : glance.Templates} (s : Progress) (tr : list Event) : Progress :=
  fold_left (fun s e => fst (advance s e)) tr s.

(** The reply that lets a pass through to the job: the schema object fetched
    with [status.completed] true, or the schema object created. *)
Definition opensGate (e : Event) : bool :=
  match e with
  | Ev c r =>
      match c in Call R0 return R0 -> bool with
      | Get k _ _ =>
          match k return objT k * error -> bool with
          | KSchema => fun r =>
              match snd r with
              | None => fst (fst (unstructured.NestedBool (fst r)))
              | Some _ => false
              end
          | _ => fun _ => false
          end
      | Create k _ =>
          match k with
          | KSchema => fun err => negb (notNil err)
          | _ => fun _ => false
          end
      | Update _ _ => fun _ => false
      | StatusUpdate _ _ => fun _ => false
      | Delete _ _ => fun _ => false
      end r
  end.

(** The calls of the job and deployment phases: any call on a job or on a
    deployment, and any status write. *)
Definition behindGate (e : Event) : bool :=
  match evKind e, evVerb e with
  | KJob, _ => true
  | KDeployment, _ => true
  | _, VStatusUpdate => true
  | _, _ => false
  end.

Fixpoint gateKept (open : bool) (tr : list Event) : bool :=
  match tr with
  | [] => true
  | e :: tr' => (negb (behindGate e) || open) && gateKept (open || opensGate e) tr'
  end.

Definition openAfter (open : bool) (tr : list Event) : bool :=
  fold_left (fun o e => o || opensGate e) tr open.

(** Every object of the store is kept under its own namespace and name. *)
Definition wellKeyed (w : apiserver.World) : Prop :=
  forall (k : Kind) (key : types.NamespacedName) (o : objT k),
    apiserver.find k key w = Some o -> keyOf o = key.

(** The errors a pass comes to by itself, with a server that serves every
    call: a hash that cannot be computed, a schema object that cannot be
    built, a [status.completed] that cannot be read, a job that failed. *)
Definition ownFailure {G : glance.Templates} (e : Err) : Prop :=
  (exists format inner, e = Errorf format inner)
  \/ (exists i, snd (glance.SchemaObject i) = Some e)
  \/ (exists path, e = AccessorError path)
  \/ e = StatusError InternalError.

(** What a phase needs of the store it starts from. *)
Definition sound (key : types.NamespacedName) (w : apiserver.World) : Prop :=
  apiserver.healthy w /\ wellKeyed w /\ is_Some (apiserver.find KGlanceAPI key w).

(** A phase that returns an error returns one of the pass's own. *)
Definition failsOnItsOwn {G : glance.Templates} {A : Type} (fl : Flow A) : Prop :=
  forall res e, fl = Done res (Some e) -> ownFailure e.

(** ** Fetch before write *)

#[global] Instance NamespacedName_eq_dec : EqDecision types.NamespacedName.
Proof. solve_decision. Defined.

(** The namespace and name a call addresses: the key of a fetch, the
    namespace and name of the object of any other call. *)
Definition evKey (e : Event) : types.NamespacedName :=
  match e with
  | Ev c _ =>
      match c with
      | Get _ key _ => key
      | Create _ obj => keyOf obj
      | Update _ obj => keyOf obj
      | StatusUpdate _ obj => keyOf obj
      | Delete _ obj => keyOf obj
      end
  end.

(** The namespace and name of the object a fetch handed back. *)
Definition evFound (e : Event) : option types.NamespacedName :=
  match e with
  | Ev c r =>
      match c in Call R0 return R0 -> option types.NamespacedName with
      | Get _ _ _ => fun r => Some (keyOf (fst r))
      | Create _ _ | Update _ _ | StatusUpdate _ _ | Delete _ _ => fun _ => None
      end r
  end.

(** A create, other than that of the job helper, answers the call before
    it: a fetch of the same kind under the same namespace and name that was
    answered NotFound.  An update answers a fetch of the same kind that was
    not answered NotFound and sends back the object that fetch handed over;
    the fetch came back nil unless the kind is ConfigMap. *)
Definition answers (prev : option Event) (e : Event) : bool :=
  match evVerb e with
  | VCreate =>
      bool_decide (evKind e = KJob)
      || match prev with
         | Some g =>
             bool_decide (evVerb g = VGet) && bool_decide (evKind g = evKind e)
             && bool_decide (evKey g = evKey e) && isNotFound (evError g)
         | None => false
         end
  | VUpdate =>
      match prev with
      | Some g =>
          bool_decide (evVerb g = VGet) && bool_decide (evKind g = evKind e)
          && bool_decide (evFound g = Some (evKey e)) && negb (isNotFound (evError g))
          && (negb (notNil (evError g)) || bool_decide (evKind e = KConfigMap))
      | None => false
      end
  | VGet | VStatusUpdate | VDelete => true
  end.

Fixpoint fetchedFirst (prev : option Event) (tr : list Event) : bool :=
  match tr with
  | [] => true
  | e :: tr' => answers prev e && fetchedFirst (Some e) tr'
  end.

(** ** More concrete stores *)

Module later.
(** The recorded instance after its replicas were raised to three: the
    deployment hash in Status is that of the one-replica deployment. *)
Definition scaled : glancev1beta1.GlanceAPI :=
  {| glancev1beta1.ObjectMeta := glancev1beta1.ObjectMeta sample.instance;
     glancev1beta1.Spec := {| glancev1beta1.Replicas := 3 |};
     glancev1beta1.Status := glancev1beta1.Status sample.recorded |}.

Definition scaledUp : apiserver.World := apiserver.put KGlanceAPI scaled sample.settled.

(** The provisioned store with a schema object whose [status.completed]
    is not a boolean. *)
Definition unreadable : apiserver.World :=
  apiserver.put KSchema
    {| unstructured.GroupVersionKind :=
         unstructured.GroupVersionKind (fst (sample.SchemaObject sample.instance));
       unstructured.uMeta := sample.nameOf sample.instance "";
       unstructured.statusCompleted := unstructured.OtherValue |}
    sample.provisioned.
End later.

(** ** Properties that hold for every client *)

Lemma exec_bindP {W A B : Type} (h : Handler W) (p : Prog A) (f : A -> Prog B) (w : W) :
  exec h (bindP p f) w =
    let '(a, tr1, w1) := exec h p w in
    let '(b, tr2, w2) := exec h (f a) w1 in
    (b, tr1 ++ tr2, w2).
Proof.
  revert w. induction p as [a | R c k IH]; intros w; simpl.
  - destruct (exec h (f a) w) as [[b tr2] w2]. reflexivity.
  - destruct (h R c w) as [r w1]. rewrite IH.
    destruct (exec h (k r) w1) as [[a tr1] w1'].
    destruct (exec h (f a) w1') as [[b tr2] w2]. reflexivity.
Qed.

Lemma exec_bind {W A B : Type} (h : Handler W) (m : Pass A) (f : A -> Pass B) (w : W) :
  exec h (bind m f) w =
    match exec h m w with
    | (Next a, tr1, w1) =>
        let '(b, tr2, w2) := exec h (f a) w1 in (b, tr1 ++ tr2, w2)
    | (Done res err, tr1, w1) => (Done res err, tr1, w1)
    end.
Proof.
  unfold bind. rewrite exec_bindP.
  destruct (exec h m w) as [[[a | res err] tr1] w1]; simpl.
  - destruct (exec h (f a) w1) as [[b tr2] w2]. reflexivity.
  - rewrite app_nil_r. reflexivity.
Qed.

Lemma avoids_not_in (k : Kind) (v : Verb) (tr : list Event) :
  avoids k tr = true -> ~ In (v, k) (calls tr).
Proof.
  induction tr as [| e tr IH]; simpl; [tauto |].
  intros H. apply andb_prop in H as [He Htr]. intros [Heq | Hin]; [| exact (IH Htr Hin)].
  injection Heq as _ Hk. rewrite bool_decide_eq_true_2 in He by exact Hk. discriminate He.
Qed.

Lemma statusWritesConfirmed_app (s : Seen) (tr1 tr2 : list Event) :
  statusWritesConfirmed s (tr1 ++ tr2)
  = statusWritesConfirmed s tr1 && statusWritesConfirmed (seenAfter s tr1) tr2.
Proof.
  revert s. induction tr1 as [| e tr1 IH]; intros s; simpl; [reflexivity |].
  rewrite IH, andb_assoc. reflexivity.
Qed.

Lemma quiet_ignored (s : Seen) (tr : list Event) :
  quiet tr = true -> seenAfter s tr = s /\ statusWritesConfirmed s tr = true.
Proof.
  induction tr as [| e tr IH]; simpl; [split; reflexivity |].
  intros Hq. apply andb_prop in Hq as [He Htr]. destruct (IH Htr) as [IH1 IH2].
  assert (Hobs : observe s e = (s, true)).
  { destruct e as [R c r]. destruct c as [k ? ? | k ? | k ? | k ? | k ?];
      destruct k; simpl in He; try discriminate He; reflexivity. }
  unfold seenAfter in *. simpl. rewrite Hobs. simpl. split; assumption.
Qed.

(** Case analysis on the reply to the next call of a run. *)
Ltac reply h :=
  match goal with
  | |- context [h ?R ?c ?w] =>
      let r := fresh "r" in
      let w' := fresh "w" in
      let E := fresh "Hcall" in
      destruct (h R c w) as [r w'] eqn:E
  end.

Ltac branch :=
  match goal with
  | |- context [match ?x with (_, _) => _ end] => is_var x; destruct x
  | |- context [match ?x with Some _ => _ | None => _ end] => is_var x; destruct x
  | |- context [isNotFound ?x] => is_var x; destruct x
  | |- context [notNil ?x] => is_var x; destruct x
  | |- context [match batchv1.jobState ?j with _ => _ end] =>
      destruct (batchv1.jobState j) eqn:?
  | |- context [match unstructured.statusCompleted ?u with _ => _ end] =>
      destruct (unstructured.statusCompleted u) as [| [|] | |] eqn:?
  | |- context [Z.eqb ?a ?b] => destruct (Z.eqb a b) eqn:?
  | |- context [DeepEqual ?a ?b] => destruct (DeepEqual a b) eqn:?
  | |- context [IsNotFound ?e] => destruct (IsNotFound e) eqn:?
  | |- context [String.eqb ?a ?b] => destruct (String.eqb a b) eqn:?
  | |- context [glance.ObjectHash ?k ?o] => destruct (glance.ObjectHash k o) eqn:?
  | |- context [glance.SchemaObject ?i] => destruct (glance.SchemaObject i) eqn:?
  end.

Section ForEveryClient.
Context {G : glance.Templates}.
Context {W : Type} (h : Handler W).

(** C10.  Handing [setDbSyncHash] or [setDeploymentHash] the hash that the
    Status already holds makes no call on the client, leaves the instance
    and the client as they are and returns nil; for any hash, the only
    call is one status update, made exactly when the hash differs from
    the stored one. *)
Theorem set_hash_writes_only_on_change :
  forall (api : glancev1beta1.GlanceAPI) (hashStr : string) (w : W),
    exec h (setDbSyncHash api (glancev1beta1.DbSyncHash (glancev1beta1.Status api))) w
      = ((api, None), [], w)
    /\ exec h (setDeploymentHash api
                 (glancev1beta1.DeploymentHash (glancev1beta1.Status api))) w
      = ((api, None), [], w)
    /\ calls (trace (exec h (setDbSyncHash api hashStr) w))
      = (if String.eqb hashStr (glancev1beta1.DbSyncHash (glancev1beta1.Status api))
         then [] else [(VStatusUpdate, KGlanceAPI)])
    /\ calls (trace (exec h (setDeploymentHash api hashStr) w))
      = (if String.eqb hashStr (glancev1beta1.DeploymentHash (glancev1beta1.Status api))
         then [] else [(VStatusUpdate, KGlanceAPI)]).
Proof.
  intros api hashStr w. unfold setDbSyncHash, setDeploymentHash.
  rewrite !String.eqb_refl. simpl. repeat split.
  - destruct (String.eqb hashStr _); simpl; [reflexivity |].
    reply h. destruct r; reflexivity.
  - destruct (String.eqb hashStr _); simpl; [reflexivity |].
    reply h. destruct r; reflexivity.
Qed.

(** C9.  When the fetch of the instance answers NotFound, the pass returns
    the empty result with a nil error, and that fetch is its only call. *)
Theorem reconcile_instance_gone :
  forall (req : Request) (w w' : W) (into : glancev1beta1.GlanceAPI) (e : Err),
    h _ (Get KGlanceAPI (NamespacedName req) (zero KGlanceAPI)) w = ((into, Some e), w') ->
    IsNotFound e = true ->
    exec h (Reconcile req) w
      = ((noRequeue, None),
         [Ev (Get KGlanceAPI (NamespacedName req) (zero KGlanceAPI)) (into, Some e)],
         w').
Proof.
  intros req w w' into e Hget Hnf.
  unfold Reconcile, pass, fetchInstance. simpl in Hget |- *. rewrite Hget. simpl.
  rewrite Hnf. reflexivity.
Qed.

Ltac cases := repeat (first [reply h | branch | progress simpl]).

(** Whatever the client, a schema object that was missing and could be
    created does not end the pass: the job phase comes next. *)
Lemma schema_created_goes_on (instance : glancev1beta1.GlanceAPI)
    (schemaObj into : unstructured.Unstructured) (e : Err) (w w1 w2 : W) :
  glance.SchemaObject instance = (schemaObj, None) ->
  h _ (Get KSchema (keyOf (k:=KSchema) schemaObj) (schemaInto schemaObj)) w
  = ((into, Some e), w1) ->
  IsNotFound e = true ->
  h _ (Create KSchema schemaObj) w1 = (None, w2) ->
  exec h (syncSchema instance) w
  = (Next tt,
     [Ev (Get KSchema (keyOf (k:=KSchema) schemaObj) (schemaInto schemaObj)) (into, Some e);
      Ev (Create KSchema schemaObj) None],
     w2).
Proof.
  intros Hs Hget Hnf Hcreate. unfold syncSchema. rewrite Hs. simpl.
  fold (schemaInto schemaObj). simpl in Hget, Hcreate. rewrite Hget. simpl.
  rewrite Hnf. simpl. rewrite Hcreate. reflexivity.
Qed.

(** Whatever the client, an error of the ConfigMap fetch that is not
    NotFound is not returned: the pass goes on with the object it holds,
    to an update when the data differ and to the next phase when not. *)
Lemma configmap_fetch_error_goes_on (instance : glancev1beta1.GlanceAPI)
    (c : corev1.ConfigMap) (e : Err) (w w1 : W) :
  h _ (Get KConfigMap (keyOf (k:=KConfigMap) (glance.ConfigMap instance)) (zero KConfigMap)) w
  = ((c, Some e), w1) ->
  IsNotFound e = false ->
  exec h (syncConfigMap instance) w
  = (if DeepEqual (corev1.Data (glance.ConfigMap instance)) (corev1.Data c)
     then (Next (glance.ConfigMap instance),
           [Ev (Get KConfigMap (keyOf (k:=KConfigMap) (glance.ConfigMap instance))
                  (zero KConfigMap)) (c, Some e)],
           w1)
     else
       let '(err, w2) :=
         h _ (Update KConfigMap (withData c (glance.ConfigMap instance))) w1 in
       ((if notNil err then Done noRequeue err
         else Done (requeueAfter (Second * 5)) err),
        [Ev (Get KConfigMap (keyOf (k:=KConfigMap) (glance.ConfigMap instance))
               (zero KConfigMap)) (c, Some e);
         Ev (Update KConfigMap (withData c (glance.ConfigMap instance))) err],
        w2)).
Proof.
  intros Hget Hnf. unfold syncConfigMap. simpl. simpl in Hget. rewrite Hget. simpl.
  rewrite Hnf. destruct (DeepEqual _ _); simpl; [reflexivity |].
  fold (withData c (glance.ConfigMap instance)).
  destruct (h _ (Update KConfigMap _) w1) as [[err |] w2]; reflexivity.
Qed.

Lemma syncPvc_quiet (instance : glancev1beta1.GlanceAPI) (w : W) :
  quiet (trace (exec h (syncPvc instance) w)) = true.
Proof. unfold syncPvc, trace. cases; reflexivity. Qed.

Lemma syncService_quiet (instance : glancev1beta1.GlanceAPI) (w : W) :
  quiet (trace (exec h (syncService instance) w)) = true.
Proof. unfold syncService, trace. cases; reflexivity. Qed.

Lemma syncConfigMap_quiet (instance : glancev1beta1.GlanceAPI) (w : W) :
  quiet (trace (exec h (syncConfigMap instance) w)) = true.
Proof. unfold syncConfigMap, trace. cases; reflexivity. Qed.

Lemma syncSchema_quiet (instance : glancev1beta1.GlanceAPI) (w : W) :
  quiet (trace (exec h (syncSchema instance) w)) = true.
Proof. unfold syncSchema, unstructured.NestedBool, trace. cases; reflexivity. Qed.

Lemma fetchInstance_confirmed (req : Request) (w : W) :
  let x := exec h (fetchInstance req) w in
  statusWritesConfirmed nothingSeen (trace x) = true
  /\ forall instance, outcome x = Next instance ->
       confirmed (seenAfter nothingSeen (trace x)) instance = true.
Proof.
  unfold fetchInstance, trace, outcome, seenAfter. cases.
  all: split; [reflexivity | intros i Hi; try discriminate Hi].
  injection Hi as <-. unfold confirmed. simpl. rewrite !String.eqb_refl. reflexivity.
Qed.

Lemma confirmed_inv (s : Seen) (api : glancev1beta1.GlanceAPI) :
  confirmed s api = true ->
  exists st, fetched s = Some st
    /\ (String.eqb (glancev1beta1.DbSyncHash (glancev1beta1.Status api))
                   (glancev1beta1.DbSyncHash st) || jobSucceeded s) = true
    /\ (String.eqb (glancev1beta1.DeploymentHash (glancev1beta1.Status api))
                   (glancev1beta1.DeploymentHash st) || deploymentUpdated s) = true.
Proof.
  unfold confirmed. destruct (fetched s) as [st |]; [| discriminate].
  intros H. apply andb_prop in H. exists st. tauto.
Qed.

Ltac use_confirmed H :=
  apply confirmed_inv in H as (st & Hst & Hdb & Hdep);
  unfold confirmed; simpl; rewrite ?Hst; simpl;
  rewrite ?Hdb, ?Hdep, ?orb_true_r; simpl; try reflexivity.

Lemma syncDbSync_confirmed (instance : glancev1beta1.GlanceAPI) (s : Seen) (w : W) :
  confirmed s instance = true ->
  let x := exec h (syncDbSync instance) w in
  statusWritesConfirmed s (trace x) = true
  /\ forall instance', outcome x = Next instance' ->
       confirmed (seenAfter s (trace x)) instance' = true.
Proof.
  intros Hs.
  unfold syncDbSync, setDbSyncHash, glance.EnsureJob, glance.DeleteJob, trace, outcome,
    seenAfter.
  destruct (glance.ObjectHash KJob (glance.DbSyncJob instance)) as [dbSyncHash [e |]].
  { simpl. split; [reflexivity | discriminate]. }
  rewrite (String.eqb_sym dbSyncHash).
  destruct (String.eqb _ dbSyncHash) eqn:Hhash; simpl.
  - cases.
    all: split; [reflexivity | intros i Hi; try discriminate Hi].
    all: injection Hi as <-; simpl; rewrite ?Heqj; simpl.
    all: first [assumption | use_confirmed Hs].
  - cases.
    all: try (split; [reflexivity | intros i Hi; discriminate Hi]).
    all: split; [| intros i Hi; try discriminate Hi; injection Hi as <-].
    all: try congruence.
    all: simpl; rewrite ?Heqj, ?Heqj0; simpl; use_confirmed Hs.
Qed.

Lemma syncDeployment_confirmed (instance : glancev1beta1.GlanceAPI)
    (configMap : corev1.ConfigMap) (s : Seen) (w : W) :
  confirmed s instance = true ->
  statusWritesConfirmed s (trace (exec h (syncDeployment instance configMap) w)) = true.
Proof.
  intros Hs. unfold syncDeployment, setDeploymentHash, trace.
  destruct (glance.ObjectHash KConfigMap configMap) as [configMapHash [e |]];
    [reflexivity |].
  destruct (glance.ObjectHash KDeployment _) as [deploymentHash [e |]]; [reflexivity |].
  rewrite (String.eqb_sym deploymentHash).
  cases.
  all: try reflexivity.
  all: use_confirmed Hs.
Qed.

Lemma bind_avoids {A B : Type} (k : Kind) (m : Pass A) (f : A -> Pass B) (w : W) :
  avoids k (trace (exec h m w)) = true ->
  (forall a w', avoids k (trace (exec h (f a) w')) = true) ->
  avoids k (trace (exec h (bind m f) w)) = true.
Proof.
  rewrite exec_bind.
  destruct (exec h m w) as [[[a | res err] tr1] w1]; unfold trace; simpl;
    intros Hm Hf; [| exact Hm].
  specialize (Hf a w1). destruct (exec h (f a) w1) as [[b tr2] w2]. simpl in *.
  unfold avoids in *. rewrite forallb_app, Hm. exact Hf.
Qed.

Lemma syncSchema_avoids_configmap (instance : glancev1beta1.GlanceAPI) (w : W) :
  avoids KConfigMap (trace (exec h (syncSchema instance) w)) = true.
Proof. unfold syncSchema, unstructured.NestedBool, trace. cases; reflexivity. Qed.

Lemma syncDbSync_avoids_configmap (instance : glancev1beta1.GlanceAPI) (w : W) :
  avoids KConfigMap (trace (exec h (syncDbSync instance) w)) = true.
Proof.
  unfold syncDbSync, setDbSyncHash, glance.EnsureJob, glance.DeleteJob, trace.
  cases; reflexivity.
Qed.

Lemma syncDeployment_avoids_configmap (instance : glancev1beta1.GlanceAPI)
    (configMap : corev1.ConfigMap) (w : W) :
  avoids KConfigMap (trace (exec h (syncDeployment instance configMap) w)) = true.
Proof. unfold syncDeployment, setDeploymentHash, trace. cases; reflexivity. Qed.

(** After the ConfigMap phase no call is on a ConfigMap. *)
Lemma rest_avoids_configmap (instance : glancev1beta1.GlanceAPI)
    (configMap : corev1.ConfigMap) (w : W) :
  avoids KConfigMap
    (trace (exec h (bind (syncSchema instance) (fun _ =>
                    bind (syncDbSync instance) (fun instance' =>
                    syncDeployment instance' configMap))) w)) = true.
Proof.
  apply bind_avoids; [apply syncSchema_avoids_configmap |]. intros _ w1.
  apply bind_avoids; [apply syncDbSync_avoids_configmap |]. intros instance' w2.
  apply syncDeployment_avoids_configmap.
Qed.

Lemma bind_confirmed {A B : Type} (m : Pass A) (f : A -> Pass B) (s : Seen) (w : W) :
  statusWritesConfirmed s (trace (exec h m w)) = true ->
  (forall a, outcome (exec h m w) = Next a ->
     statusWritesConfirmed (seenAfter s (trace (exec h m w)))
       (trace (exec h (f a) (final (exec h m w)))) = true) ->
  statusWritesConfirmed s (trace (exec h (bind m f) w)) = true.
Proof.
  rewrite exec_bind.
  destruct (exec h m w) as [[[a | res err] tr1] w1]; unfold trace, outcome, final; simpl;
    intros Hm Hf; [| exact Hm].
  specialize (Hf a eq_refl).
  destruct (exec h (f a) w1) as [[b tr2] w2]. simpl in *.
  rewrite statusWritesConfirmed_app, Hm. exact Hf.
Qed.

Lemma bind_quiet {A B : Type} (m : Pass A) (f : A -> Pass B) (s : Seen) (w : W) :
  quiet (trace (exec h m w)) = true ->
  (forall a, statusWritesConfirmed s (trace (exec h (f a) (final (exec h m w)))) = true) ->
  statusWritesConfirmed s (trace (exec h (bind m f) w)) = true.
Proof.
  intros Hq Hf. destruct (quiet_ignored s _ Hq) as [Hs Hok].
  apply bind_confirmed; [exact Hok |]. intros a _. rewrite Hs. apply Hf.
Qed.

(** The monitor does reject a status write that comes too early: a job
    hash other than the fetched one, written before any job was seen to
    have succeeded. *)
Example early_status_write_rejected :
  statusWritesConfirmed nothingSeen
    [found KGlanceAPI (NamespacedName sample.req) sample.instance;
     done (StatusUpdate KGlanceAPI sample.recorded)]
  = false.
Proof. reflexivity. Qed.

(** C7.  In every pass against every client, each status write carries only
    confirmed hashes: a DbSyncHash other than the one fetched at the start
    of the pass is written only after the job was fetched in state
    succeeded, a DeploymentHash other than the fetched one only after the
    deployment update came back without error. *)
Theorem status_hash_written_after_success :
  forall (req : Request) (w : W),
    statusWritesConfirmed nothingSeen (trace (exec h (Reconcile req) w)) = true.
Proof.
  intros req w. unfold Reconcile, pass. rewrite exec_bindP.
  match goal with
  | |- context [exec h ?p w] =>
      assert (Hpass : statusWritesConfirmed nothingSeen (trace (exec h p w)) = true)
  end.
  { destruct (fetchInstance_confirmed req w) as [Hok0 Hinv0].
    apply bind_confirmed; [exact Hok0 |]. intros instance Hinstance.
    specialize (Hinv0 instance Hinstance).
    apply bind_quiet; [apply syncPvc_quiet |]. intros _.
    apply bind_quiet; [apply syncService_quiet |]. intros _.
    apply bind_quiet; [apply syncConfigMap_quiet |]. intros configMap.
    apply bind_quiet; [apply syncSchema_quiet |]. intros _.
    destruct (syncDbSync_confirmed instance _ (final (exec h (syncSchema instance)
      (final (exec h (syncConfigMap instance) (final (exec h (syncService instance)
      (final (exec h (syncPvc instance) (final (exec h (fetchInstance req) w)))))))))) Hinv0)
      as [Hok5 Hinv5].
    apply bind_confirmed; [exact Hok5 |]. intros instance' Hinstance'.
    apply syncDeployment_confirmed. apply Hinv5. exact Hinstance'. }
  destruct (exec h _ w) as [[fl tr] w1]. unfold trace in *. simpl in Hpass.
  destruct fl; simpl; rewrite app_nil_r; exact Hpass.
Qed.

Lemma syncDbSync_recorded (instance : glancev1beta1.GlanceAPI) (w : W) :
  glance.ObjectHash KJob (glance.DbSyncJob instance)
  = (glancev1beta1.DbSyncHash (glancev1beta1.Status instance), None) ->
  let x := exec h (syncDbSync instance) w in
  let y := exec h (glance.DeleteJob (glance.DbSyncJob instance)) w in
  trace x = trace y /\ final x = final y
  /\ outcome x = (if notNil (snd (outcome y)) then Done noRequeue (snd (outcome y))
                  else Next instance)
  /\ writes (trace x) = []
  /\ (calls (trace x) = [(VGet, KJob)]
      \/ calls (trace x) = [(VGet, KJob); (VDelete, KJob)]).
Proof.
  intros Hhash.
  unfold syncDbSync, setDbSyncHash, glance.DeleteJob, trace, final, outcome.
  rewrite Hhash, String.eqb_refl. simpl.
  cases; repeat split; auto.
Qed.

(** C2, as the code has it.  When Status already holds the hash of the
    current job, the job phase does not run [EnsureJob] and writes no
    status: it is the run of [DeleteJob] alone, which fetches the job and
    deletes it when it is there.  The phase creates and updates nothing and
    goes on to the deployment phase with the instance unchanged, unless a
    call of [DeleteJob] failed, whose error it returns. *)
Theorem dbsync_recorded_hash_runs_only_delete :
  forall (instance : glancev1beta1.GlanceAPI) (w : W),
    glance.ObjectHash KJob (glance.DbSyncJob instance)
    = (glancev1beta1.DbSyncHash (glancev1beta1.Status instance), None) ->
    let x := exec h (syncDbSync instance) w in
    let y := exec h (glance.DeleteJob (glance.DbSyncJob instance)) w in
    trace x = trace y /\ final x = final y
    /\ outcome x = (if notNil (snd (outcome y)) then Done noRequeue (snd (outcome y))
                    else Next instance)
    /\ writes (trace x) = []
    /\ (calls (trace x) = [(VGet, KJob)]
        \/ calls (trace x) = [(VGet, KJob); (VDelete, KJob)]).
Proof. intros instance w Hhash. exact (syncDbSync_recorded instance w Hhash). Qed.
End ForEveryClient.

(** ** The reference API server: lookups after a change *)

Module apiserver_facts.
Import apiserver.

Lemma find_put_eq (k : Kind) (o : objT k) (w : World) :
  find k (keyOf o) (put k o w) = Some o.
Proof. unfold find, put. destruct k; simpl; apply lookup_insert_eq. Qed.

Lemma find_put_at (k : Kind) (o : objT k) (key : types.NamespacedName) (w : World) :
  key = keyOf o -> find k key (put k o w) = Some o.
Proof. intros ->. apply find_put_eq. Qed.

Lemma find_put_kind (k k' : Kind) (o : objT k') (key : types.NamespacedName) (w : World) :
  k <> k' -> find k key (put k' o w) = find k key w.
Proof. intros Hk. destruct k, k'; try congruence; reflexivity. Qed.

Lemma find_remove_eq (k : Kind) (o : objT k) (w : World) :
  find k (keyOf o) (remove k o w) = None.
Proof. unfold find, remove. destruct k; simpl; apply lookup_delete_eq. Qed.

Lemma find_remove_kind (k k' : Kind) (o : objT k') (key : types.NamespacedName) (w : World) :
  k <> k' -> find k key (remove k' o w) = find k key w.
Proof. intros Hk. destruct k, k'; try congruence; reflexivity. Qed.

Lemma find_amend (k : Kind) (f : objT k -> objT k) (key : types.NamespacedName) (w : World) :
  find k key (cluster.amend k f w) = f <$> find k key w.
Proof. unfold find, cluster.amend. destruct k; simpl; apply lookup_fmap. Qed.

Lemma find_amend_kind (k k' : Kind) (f : objT k' -> objT k')
    (key : types.NamespacedName) (w : World) :
  k <> k' -> find k key (cluster.amend k' f w) = find k key w.
Proof. intros Hk. destruct k, k'; try congruence; reflexivity. Qed.

Lemma healthy_put (k : Kind) (o : objT k) (w : World) : healthy w -> healthy (put k o w).
Proof. intros H v k0. apply H. Qed.

Lemma healthy_remove (k : Kind) (o : objT k) (w : World) :
  healthy w -> healthy (remove k o w).
Proof. intros H v k0. apply H. Qed.

Lemma healthy_amend (k : Kind) (f : objT k -> objT k) (w : World) :
  healthy w -> healthy (cluster.amend k f w).
Proof. intros H v k0. apply H. Qed.

Lemma get_found (k : Kind) (key : types.NamespacedName) (into o : objT k) (w : World) :
  healthy w -> find k key w = Some o ->
  handle _ (Get k key into) w = ((o, None), w).
Proof. intros Hh Hf. simpl. rewrite Hh, Hf. reflexivity. Qed.

Lemma get_missing (k : Kind) (key : types.NamespacedName) (into : objT k) (w : World) :
  healthy w -> find k key w = None ->
  handle _ (Get k key into) w = ((into, Some (StatusError NotFound)), w).
Proof. intros Hh Hf. simpl. rewrite Hh, Hf. reflexivity. Qed.

Lemma create_fresh (k : Kind) (o : objT k) (w : World) :
  healthy w -> find k (keyOf o) w = None ->
  handle _ (Create k o) w = (None, put k (created k (wire k o)) w).
Proof. intros Hh Hf. simpl. rewrite Hh, Hf. reflexivity. Qed.

Lemma update_found (k : Kind) (o old : objT k) (w : World) :
  healthy w -> find k (keyOf o) w = Some old ->
  handle _ (Update k o) w = (None, put k (keepStatus k (wire k o) old) w).
Proof. intros Hh Hf. simpl. rewrite Hh, Hf. reflexivity. Qed.

Lemma status_update_found (k : Kind) (o old : objT k) (w : World) :
  healthy w -> find k (keyOf o) w = Some old ->
  handle _ (StatusUpdate k o) w = (None, put k (keepStatus k old o) w).
Proof. intros Hh Hf. simpl. rewrite Hh, Hf. reflexivity. Qed.

Lemma delete_found (k : Kind) (o old : objT k) (w : World) :
  healthy w -> find k (keyOf o) w = Some old ->
  handle _ (Delete k o) w = (None, remove k o w).
Proof. intros Hh Hf. simpl. rewrite Hh, Hf. reflexivity. Qed.

Lemma wire_key (k : Kind) (o : objT k) : keyOf (wire k o) = keyOf o.
Proof. destruct k; reflexivity. Qed.

(** A ConfigMap whose data is nil or has an entry is stored as it is sent. *)
Lemma wire_keeps (c : corev1.ConfigMap) :
  corev1.Data c <> Some ∅ -> wire KConfigMap c = c.
Proof.
  intros Hd. destruct c as [m [d |]]; simpl in *; [| reflexivity].
  destruct (decide (d = ∅)) as [-> | _]; [congruence | reflexivity].
Qed.

(** A ConfigMap whose data is the map without entries is stored with nil
    data. *)
Lemma wire_drops (c : corev1.ConfigMap) :
  corev1.Data c = Some ∅ -> corev1.Data (wire KConfigMap c) = None.
Proof. intros Hd. simpl. rewrite Hd. destruct (decide _); [reflexivity | congruence]. Qed.

Lemma find_empty (k : Kind) (key : types.NamespacedName) : find k key empty = None.
Proof. unfold find. destruct k; apply lookup_empty. Qed.

Lemma find_remove_at (k : Kind) (o : objT k) (key : types.NamespacedName) (w : World) :
  key = keyOf o -> find k key (remove k o w) = None.
Proof. intros ->. apply find_remove_eq. Qed.

Lemma healthy_empty : healthy empty.
Proof. intros v k. reflexivity. Qed.

(** A fetch leaves the store alone. *)
Lemma get_keeps (k : Kind) (key : types.NamespacedName) (into : objT k) (w : World) :
  snd (handle _ (Get k key into) w) = w.
Proof.
  simpl. destruct (outage w VGet k); [reflexivity |].
  destruct (find k key w); reflexivity.
Qed.
End apiserver_facts.

Arguments apiserver.handle : simpl never.
Arguments apiserver.find : simpl never.
Arguments apiserver.put : simpl never.
Arguments apiserver.remove : simpl never.
Arguments keyOf : simpl never.

(** ** The phases against the reference API server *)

Section OnApiserver.
Context {G : glance.Templates}.
Import apiserver apiserver_facts.

Lemma fetch_present (req : Request) (i : glancev1beta1.GlanceAPI) (w : World) :
  healthy w -> find KGlanceAPI (NamespacedName req) w = Some i ->
  exec handle (fetchInstance req) w
  = (Next i, [found KGlanceAPI (NamespacedName req) i], w).
Proof.
  intros Hh Hf. unfold fetchInstance. simpl.
  rewrite (get_found KGlanceAPI _ _ _ _ Hh Hf). reflexivity.
Qed.

Lemma fetch_absent (req : Request) (w : World) :
  healthy w -> find KGlanceAPI (NamespacedName req) w = None ->
  exec handle (fetchInstance req) w
  = (Done noRequeue None, [missing KGlanceAPI (NamespacedName req)], w).
Proof.
  intros Hh Hf. unfold fetchInstance. simpl.
  rewrite (get_missing KGlanceAPI _ _ _ Hh Hf). reflexivity.
Qed.

Lemma pvc_present (i : glancev1beta1.GlanceAPI) (p : corev1.PersistentVolumeClaim)
    (w : World) :
  healthy w -> find KPvc (keyOf (k:=KPvc) (glance.Pvc i)) w = Some p ->
  exec handle (syncPvc i) w
  = (Next tt, [found KPvc (keyOf (k:=KPvc) (glance.Pvc i)) p], w).
Proof.
  intros Hh Hf. unfold syncPvc. simpl.
  rewrite (get_found KPvc _ _ _ _ Hh Hf). reflexivity.
Qed.

Lemma pvc_absent (i : glancev1beta1.GlanceAPI) (w : World) :
  healthy w -> find KPvc (keyOf (k:=KPvc) (glance.Pvc i)) w = None ->
  exec handle (syncPvc i) w
  = (Done (requeueAfter (Second * 5)) None,
     [missing KPvc (keyOf (k:=KPvc) (glance.Pvc i)); done (Create KPvc (glance.Pvc i))],
     put KPvc (glance.Pvc i) w).
Proof.
  intros Hh Hf. unfold syncPvc. simpl.
  rewrite (get_missing KPvc _ _ _ Hh Hf). simpl.
  rewrite (create_fresh KPvc _ _ Hh Hf). reflexivity.
Qed.

Lemma service_present (i : glancev1beta1.GlanceAPI) (s : corev1.Service) (w : World) :
  healthy w -> find KService (keyOf (k:=KService) (glance.Service i)) w = Some s ->
  exec handle (syncService i) w
  = (Next tt, [found KService (keyOf (k:=KService) (glance.Service i)) s], w).
Proof.
  intros Hh Hf. unfold syncService. simpl.
  rewrite (get_found KService _ _ _ _ Hh Hf). reflexivity.
Qed.

Lemma service_absent (i : glancev1beta1.GlanceAPI) (w : World) :
  healthy w -> find KService (keyOf (k:=KService) (glance.Service i)) w = None ->
  exec handle (syncService i) w
  = (Done (requeueAfter (Second * 5)) None,
     [missing KService (keyOf (k:=KService) (glance.Service i));
      done (Create KService (glance.Service i))],
     put KService (glance.Service i) w).
Proof.
  intros Hh Hf. unfold syncService. simpl.
  rewrite (get_missing KService _ _ _ Hh Hf). simpl.
  rewrite (create_fresh KService _ _ Hh Hf). reflexivity.
Qed.

Lemma configmap_absent (i : glancev1beta1.GlanceAPI) (w : World) :
  healthy w -> find KConfigMap (keyOf (k:=KConfigMap) (glance.ConfigMap i)) w = None ->
  exec handle (syncConfigMap i) w
  = (Next (glance.ConfigMap i),
     [missing KConfigMap (keyOf (k:=KConfigMap) (glance.ConfigMap i));
      done (Create KConfigMap (glance.ConfigMap i))],
     put KConfigMap (wire KConfigMap (glance.ConfigMap i)) w).
Proof.
  intros Hh Hf. unfold syncConfigMap. simpl.
  rewrite (get_missing KConfigMap _ _ _ Hh Hf). simpl.
  rewrite (create_fresh KConfigMap _ _ Hh Hf). reflexivity.
Qed.

Lemma configmap_same (i : glancev1beta1.GlanceAPI) (c : corev1.ConfigMap) (w : World) :
  healthy w -> find KConfigMap (keyOf (k:=KConfigMap) (glance.ConfigMap i)) w = Some c ->
  corev1.Data c = corev1.Data (glance.ConfigMap i) ->
  exec handle (syncConfigMap i) w
  = (Next (glance.ConfigMap i),
     [found KConfigMap (keyOf (k:=KConfigMap) (glance.ConfigMap i)) c], w).
Proof.
  intros Hh Hf Hd. unfold syncConfigMap. simpl.
  rewrite (get_found KConfigMap _ _ _ _ Hh Hf). simpl.
  unfold DeepEqual. rewrite Hd, bool_decide_eq_true_2 by reflexivity. reflexivity.
Qed.

Lemma configmap_drift (i : glancev1beta1.GlanceAPI) (c : corev1.ConfigMap) (w : World) :
  healthy w -> find KConfigMap (keyOf (k:=KConfigMap) (glance.ConfigMap i)) w = Some c ->
  keyOf (k:=KConfigMap) c = keyOf (k:=KConfigMap) (glance.ConfigMap i) ->
  corev1.Data c <> corev1.Data (glance.ConfigMap i) ->
  exec handle (syncConfigMap i) w
  = (Done (requeueAfter (Second * 5)) None,
     [found KConfigMap (keyOf (k:=KConfigMap) (glance.ConfigMap i)) c;
      done (Update KConfigMap (withData c (glance.ConfigMap i)))],
     put KConfigMap (wire KConfigMap (withData c (glance.ConfigMap i))) w).
Proof.
  intros Hh Hf Hk Hd. unfold syncConfigMap. simpl.
  rewrite (get_found KConfigMap _ _ _ _ Hh Hf). simpl.
  unfold DeepEqual. rewrite bool_decide_eq_false_2 by congruence. simpl.
  fold (withData c (glance.ConfigMap i)).
  assert (Hf' : find KConfigMap (keyOf (k:=KConfigMap) (withData c (glance.ConfigMap i))) w
                = Some c) by (rewrite <- Hf, <- Hk; reflexivity).
  rewrite (update_found KConfigMap _ _ _ Hh Hf'). reflexivity.
Qed.

Lemma schema_absent (i : glancev1beta1.GlanceAPI) (schemaObj : unstructured.Unstructured)
    (w : World) :
  healthy w -> glance.SchemaObject i = (schemaObj, None) ->
  find KSchema (keyOf (k:=KSchema) schemaObj) w = None ->
  exec handle (syncSchema i) w
  = (Next tt,
     [Ev (Get KSchema (keyOf (k:=KSchema) schemaObj) (schemaInto schemaObj))
         (schemaInto schemaObj, Some (StatusError NotFound));
      done (Create KSchema schemaObj)],
     put KSchema (created KSchema schemaObj) w).
Proof.
  intros Hh Hs Hf. unfold syncSchema. rewrite Hs. simpl.
  fold (schemaInto schemaObj).
  rewrite (get_missing KSchema _ _ _ Hh Hf). simpl.
  rewrite (create_fresh KSchema _ _ Hh Hf). reflexivity.
Qed.

Lemma schema_present (i : glancev1beta1.GlanceAPI) (schemaObj u : unstructured.Unstructured)
    (w : World) :
  healthy w -> glance.SchemaObject i = (schemaObj, None) ->
  find KSchema (keyOf (k:=KSchema) schemaObj) w = Some u ->
  exec handle (syncSchema i) w
  = ((if fst (fst (unstructured.NestedBool u)) then Next tt
      else Done (requeueAfter (Second * 5)) (snd (unstructured.NestedBool u))),
     [Ev (Get KSchema (keyOf (k:=KSchema) schemaObj) (schemaInto schemaObj)) (u, None)],
     w).
Proof.
  intros Hh Hs Hf. unfold syncSchema. rewrite Hs. simpl.
  fold (schemaInto schemaObj).
  rewrite (get_found KSchema _ _ _ _ Hh Hf). simpl.
  destruct (unstructured.NestedBool u) as [[[|] fnd] err]; reflexivity.
Qed.

Lemma dbsync_skip_absent (i : glancev1beta1.GlanceAPI) (w : World) :
  healthy w ->
  glance.ObjectHash KJob (glance.DbSyncJob i)
  = (glancev1beta1.DbSyncHash (glancev1beta1.Status i), None) ->
  find KJob (keyOf (k:=KJob) (glance.DbSyncJob i)) w = None ->
  exec handle (syncDbSync i) w
  = (Next i, [missing KJob (keyOf (k:=KJob) (glance.DbSyncJob i))], w).
Proof.
  intros Hh Hhash Hf. unfold syncDbSync, setDbSyncHash, glance.DeleteJob.
  rewrite Hhash, String.eqb_refl. simpl.
  rewrite (get_missing KJob _ _ _ Hh Hf). reflexivity.
Qed.

Lemma dbsync_skip_present (i : glancev1beta1.GlanceAPI) (j : batchv1.Job) (w : World) :
  healthy w ->
  glance.ObjectHash KJob (glance.DbSyncJob i)
  = (glancev1beta1.DbSyncHash (glancev1beta1.Status i), None) ->
  find KJob (keyOf (k:=KJob) (glance.DbSyncJob i)) w = Some j ->
  keyOf (k:=KJob) j = keyOf (k:=KJob) (glance.DbSyncJob i) ->
  exec handle (syncDbSync i) w
  = (Next i,
     [found KJob (keyOf (k:=KJob) (glance.DbSyncJob i)) j; done (Delete KJob j)],
     remove KJob j w).
Proof.
  intros Hh Hhash Hf Hk. unfold syncDbSync, setDbSyncHash, glance.DeleteJob.
  rewrite Hhash, String.eqb_refl. simpl.
  rewrite (get_found KJob _ _ _ _ Hh Hf). simpl.
  rewrite <- Hk in Hf. rewrite (delete_found KJob _ _ _ Hh Hf). reflexivity.
Qed.

Lemma dbsync_start (i : glancev1beta1.GlanceAPI) (dbSyncHash : string) (w : World) :
  healthy w ->
  glance.ObjectHash KJob (glance.DbSyncJob i) = (dbSyncHash, None) ->
  glancev1beta1.DbSyncHash (glancev1beta1.Status i) <> dbSyncHash ->
  find KJob (keyOf (k:=KJob) (glance.DbSyncJob i)) w = None ->
  exec handle (syncDbSync i) w
  = (Done (requeueAfter (Second * 5)) None,
     [missing KJob (keyOf (k:=KJob) (glance.DbSyncJob i));
      done (Create KJob (glance.DbSyncJob i))],
     put KJob (created KJob (glance.DbSyncJob i)) w).
Proof.
  intros Hh Hhash Hne Hf. unfold syncDbSync, glance.EnsureJob.
  rewrite Hhash. apply String.eqb_neq in Hne. rewrite Hne. simpl.
  rewrite (get_missing KJob _ _ _ Hh Hf). simpl.
  rewrite (create_fresh KJob _ _ Hh Hf). reflexivity.
Qed.

Lemma dbsync_running (i : glancev1beta1.GlanceAPI) (dbSyncHash : string) (j : batchv1.Job)
    (w : World) :
  healthy w ->
  glance.ObjectHash KJob (glance.DbSyncJob i) = (dbSyncHash, None) ->
  glancev1beta1.DbSyncHash (glancev1beta1.Status i) <> dbSyncHash ->
  find KJob (keyOf (k:=KJob) (glance.DbSyncJob i)) w = Some j ->
  batchv1.jobState j = batchv1.Running ->
  exec handle (syncDbSync i) w
  = (Done (requeueAfter (Second * 5)) None,
     [found KJob (keyOf (k:=KJob) (glance.DbSyncJob i)) j], w).
Proof.
  intros Hh Hhash Hne Hf Hst. unfold syncDbSync, glance.EnsureJob.
  rewrite Hhash. apply String.eqb_neq in Hne. rewrite Hne. simpl.
  rewrite (get_found KJob _ _ _ _ Hh Hf). simpl. rewrite Hst. reflexivity.
Qed.

Lemma dbsync_succeeded (i old : glancev1beta1.GlanceAPI) (dbSyncHash : string)
    (j : batchv1.Job) (w : World) :
  healthy w ->
  glance.ObjectHash KJob (glance.DbSyncJob i) = (dbSyncHash, None) ->
  glancev1beta1.DbSyncHash (glancev1beta1.Status i) <> dbSyncHash ->
  find KJob (keyOf (k:=KJob) (glance.DbSyncJob i)) w = Some j ->
  keyOf (k:=KJob) j = keyOf (k:=KJob) (glance.DbSyncJob i) ->
  batchv1.jobState j = batchv1.Succeeded ->
  find KGlanceAPI (keyOf (k:=KGlanceAPI) i) w = Some old ->
  exec handle (syncDbSync i) w
  = (Next (withDbSyncHash i dbSyncHash),
     [found KJob (keyOf (k:=KJob) (glance.DbSyncJob i)) j;
      done (StatusUpdate KGlanceAPI (withDbSyncHash i dbSyncHash));
      found KJob (keyOf (k:=KJob) (glance.DbSyncJob i)) j;
      done (Delete KJob j)],
     remove KJob j
       (put KGlanceAPI (keepStatus KGlanceAPI old (withDbSyncHash i dbSyncHash)) w)).
Proof.
  intros Hh Hhash Hne Hf Hk Hst Hi.
  unfold syncDbSync, setDbSyncHash, glance.EnsureJob, glance.DeleteJob.
  rewrite Hhash. apply String.eqb_neq in Hne.
  rewrite Hne, (String.eqb_sym dbSyncHash), Hne. simpl.
  rewrite (get_found KJob _ _ _ _ Hh Hf). simpl. rewrite Hst. simpl.
  fold (withDbSyncHash i dbSyncHash).
  rewrite (status_update_found KGlanceAPI (withDbSyncHash i dbSyncHash) old w Hh Hi). simpl.
  set (w1 := put KGlanceAPI _ w).
  assert (Hh1 : healthy w1) by (apply healthy_put, Hh).
  assert (Hf1 : find KJob (keyOf (k:=KJob) (glance.DbSyncJob i)) w1 = Some j)
    by (unfold w1; rewrite find_put_kind by discriminate; exact Hf).
  rewrite (get_found KJob _ _ _ _ Hh1 Hf1). simpl.
  rewrite <- Hk in Hf1. rewrite (delete_found KJob _ _ _ Hh1 Hf1). reflexivity.
Qed.

Lemma deployment_absent (i : glancev1beta1.GlanceAPI) (configMap : corev1.ConfigMap)
    (configMapHash deploymentHash : string) (w : World) :
  healthy w ->
  glance.ObjectHash KConfigMap configMap = (configMapHash, None) ->
  glance.ObjectHash KDeployment (glance.Deployment i configMapHash)
  = (deploymentHash, None) ->
  find KDeployment (keyOf (k:=KDeployment) (glance.Deployment i configMapHash)) w = None ->
  exec handle (syncDeployment i configMap) w
  = (Done (requeueAfter (Second * 10)) None,
     [missing KDeployment (keyOf (k:=KDeployment) (glance.Deployment i configMapHash));
      done (Create KDeployment (glance.Deployment i configMapHash))],
     put KDeployment (created KDeployment (glance.Deployment i configMapHash)) w).
Proof.
  intros Hh Hc Hd Hf. unfold syncDeployment. rewrite Hc, Hd. simpl.
  rewrite (get_missing KDeployment _ _ _ Hh Hf). simpl.
  rewrite (create_fresh KDeployment _ _ Hh Hf). reflexivity.
Qed.

Lemma deployment_changed (i old : glancev1beta1.GlanceAPI) (configMap : corev1.ConfigMap)
    (configMapHash deploymentHash : string) (d : appsv1.Deployment) (w : World) :
  healthy w ->
  glance.ObjectHash KConfigMap configMap = (configMapHash, None) ->
  glance.ObjectHash KDeployment (glance.Deployment i configMapHash)
  = (deploymentHash, None) ->
  find KDeployment (keyOf (k:=KDeployment) (glance.Deployment i configMapHash)) w = Some d ->
  keyOf (k:=KDeployment) d = keyOf (k:=KDeployment) (glance.Deployment i configMapHash) ->
  glancev1beta1.DeploymentHash (glancev1beta1.Status i) <> deploymentHash ->
  find KGlanceAPI (keyOf (k:=KGlanceAPI) i) w = Some old ->
  exec handle (syncDeployment i configMap) w
  = (Done (requeueAfter (Second * 10)) None,
     [found KDeployment (keyOf (k:=KDeployment) (glance.Deployment i configMapHash)) d;
      done (Update KDeployment (withSpec d (glance.Deployment i configMapHash)));
      done (StatusUpdate KGlanceAPI (withDeploymentHash i deploymentHash))],
     put KGlanceAPI (keepStatus KGlanceAPI old (withDeploymentHash i deploymentHash))
       (put KDeployment
          (keepStatus KDeployment (withSpec d (glance.Deployment i configMapHash)) d) w)).
Proof.
  intros Hh Hc Hd Hf Hk Hne Hi. unfold syncDeployment, setDeploymentHash.
  rewrite Hc, Hd. simpl.
  rewrite (get_found KDeployment _ _ _ _ Hh Hf). simpl.
  apply String.eqb_neq in Hne. rewrite Hne, (String.eqb_sym deploymentHash), Hne. simpl.
  fold (withSpec d (glance.Deployment i configMapHash)).
  fold (withDeploymentHash i deploymentHash).
  assert (Hf' : find KDeployment
                  (keyOf (k:=KDeployment) (withSpec d (glance.Deployment i configMapHash))) w
                = Some d) by (rewrite <- Hf, <- Hk; reflexivity).
  rewrite (update_found KDeployment _ _ _ Hh Hf'). simpl.
  set (w1 := put KDeployment _ w).
  assert (Hh1 : healthy w1) by (apply healthy_put, Hh).
  assert (Hi1 : find KGlanceAPI (keyOf (k:=KGlanceAPI) (withDeploymentHash i deploymentHash)) w1
                = Some old)
    by (unfold w1; rewrite find_put_kind by discriminate; exact Hi).
  rewrite (status_update_found KGlanceAPI _ _ _ Hh1 Hi1). reflexivity.
Qed.

Lemma deployment_settled (i : glancev1beta1.GlanceAPI) (configMap : corev1.ConfigMap)
    (configMapHash : string) (d : appsv1.Deployment) (w : World) :
  healthy w ->
  glance.ObjectHash KConfigMap configMap = (configMapHash, None) ->
  glance.ObjectHash KDeployment (glance.Deployment i configMapHash)
  = (glancev1beta1.DeploymentHash (glancev1beta1.Status i), None) ->
  find KDeployment (keyOf (k:=KDeployment) (glance.Deployment i configMapHash)) w = Some d ->
  exec handle (syncDeployment i configMap) w
  = ((if Z.eqb (appsv1.ReadyReplicas (appsv1.Status d))
               (glancev1beta1.Replicas (glancev1beta1.Spec i))
      then Next tt else Done (requeueAfter (Second * 5)) None),
     [found KDeployment (keyOf (k:=KDeployment) (glance.Deployment i configMapHash)) d],
     w).
Proof.
  intros Hh Hc Hd Hf. unfold syncDeployment. rewrite Hc, Hd. simpl.
  rewrite (get_found KDeployment _ _ _ _ Hh Hf). simpl.
  rewrite String.eqb_refl. simpl.
  destruct (Z.eqb _ _); reflexivity.
Qed.


(** C5, as the code has it.  Against a healthy server holding the instance,
    the PVC, the Service and a ConfigMap whose data differs from the desired
    data, one pass sends that ConfigMap back with the desired data and asks
    to be requeued after five seconds.  When the desired data is nil or has
    an entry, the stored ConfigMap then has the desired data and the pass
    that follows on the resulting store makes no ConfigMap update. *)
Theorem configmap_drift_repaired_once :
  forall (req : Request) (i : glancev1beta1.GlanceAPI) (p : corev1.PersistentVolumeClaim)
         (s : corev1.Service) (c : corev1.ConfigMap) (w : World),
    healthy w ->
    find KGlanceAPI (NamespacedName req) w = Some i ->
    find KPvc (keyOf (k:=KPvc) (glance.Pvc i)) w = Some p ->
    find KService (keyOf (k:=KService) (glance.Service i)) w = Some s ->
    find KConfigMap (keyOf (k:=KConfigMap) (glance.ConfigMap i)) w = Some c ->
    keyOf (k:=KConfigMap) c = keyOf (k:=KConfigMap) (glance.ConfigMap i) ->
    corev1.Data c <> corev1.Data (glance.ConfigMap i) ->
    let first := exec handle (Reconcile req) w in
    let second := exec handle (Reconcile req) (final first) in
    outcome first = (requeueAfter (Second * 5), None)
    /\ trace first
       = [found KGlanceAPI (NamespacedName req) i;
          found KPvc (keyOf (k:=KPvc) (glance.Pvc i)) p;
          found KService (keyOf (k:=KService) (glance.Service i)) s;
          found KConfigMap (keyOf (k:=KConfigMap) (glance.ConfigMap i)) c;
          done (Update KConfigMap (withData c (glance.ConfigMap i)))]
    /\ find KConfigMap (keyOf (k:=KConfigMap) (glance.ConfigMap i)) (final first)
       = Some (wire KConfigMap (withData c (glance.ConfigMap i)))
    /\ (corev1.Data (glance.ConfigMap i) <> Some ∅ ->
        (exists c', find KConfigMap (keyOf (k:=KConfigMap) (glance.ConfigMap i)) (final first)
                    = Some c'
                    /\ corev1.Data c' = corev1.Data (glance.ConfigMap i))
        /\ ~ In (VUpdate, KConfigMap) (calls (trace second))).
Proof.
  intros req i p s c w Hh Hi Hp Hs Hc Hk Hdata first second.
  assert (Hfirst : first
    = ((requeueAfter (Second * 5), None),
       [found KGlanceAPI (NamespacedName req) i;
        found KPvc (keyOf (k:=KPvc) (glance.Pvc i)) p;
        found KService (keyOf (k:=KService) (glance.Service i)) s;
        found KConfigMap (keyOf (k:=KConfigMap) (glance.ConfigMap i)) c;
        done (Update KConfigMap (withData c (glance.ConfigMap i)))],
       put KConfigMap (wire KConfigMap (withData c (glance.ConfigMap i))) w)).
  { unfold first, Reconcile, pass. rewrite exec_bindP.
    rewrite exec_bind, (fetch_present req i w Hh Hi). cbv beta iota.
    rewrite exec_bind, (pvc_present i p w Hh Hp). cbv beta iota.
    rewrite exec_bind, (service_present i s w Hh Hs). cbv beta iota.
    rewrite exec_bind, (configmap_drift i c w Hh Hc Hk Hdata). reflexivity. }
  set (c' := withData c (glance.ConfigMap i)) in *.
  set (w' := put KConfigMap (wire KConfigMap c') w) in *.
  assert (Hc' : find KConfigMap (keyOf (k:=KConfigMap) (glance.ConfigMap i)) w'
                = Some (wire KConfigMap c')).
  { unfold w'. apply find_put_at. rewrite wire_key, <- Hk. reflexivity. }
  assert (Hh' : healthy w') by (apply healthy_put, Hh).
  split; [rewrite Hfirst; reflexivity |].
  split; [rewrite Hfirst; reflexivity |].
  split; [rewrite Hfirst; exact Hc' |].
  intros Hkept.
  assert (Hsame : wire KConfigMap c' = c') by (apply wire_keeps; exact Hkept).
  rewrite Hsame in Hc'.
  split; [exists c'; rewrite Hfirst; split; [exact Hc' | reflexivity] |].
  unfold second. rewrite Hfirst. unfold final. simpl snd.
  unfold Reconcile, pass. rewrite exec_bindP.
  rewrite exec_bind, (fetch_present req i w' Hh'); cbv beta iota;
    [| unfold w'; rewrite find_put_kind by discriminate; exact Hi].
  rewrite exec_bind, (pvc_present i p w' Hh'); cbv beta iota;
    [| unfold w'; rewrite find_put_kind by discriminate; exact Hp].
  rewrite exec_bind, (service_present i s w' Hh'); cbv beta iota;
    [| unfold w'; rewrite find_put_kind by discriminate; exact Hs].
  rewrite exec_bind, (configmap_same i c' w' Hh' Hc' eq_refl). cbv beta iota.
  pose proof (rest_avoids_configmap handle i (glance.ConfigMap i) w') as Hrest.
  destruct (exec handle (bind (syncSchema i) _) w') as [[fl tr] w''].
  unfold trace in *. simpl in Hrest.
  assert (Hnot : ~ In (VUpdate, KConfigMap) (calls tr))
    by (apply avoids_not_in, Hrest).
  destruct fl; simpl; intros H;
    repeat (destruct H as [H | H]; [discriminate H |]);
    rewrite app_nil_r in H; exact (Hnot H).
Qed.
End OnApiserver.

(** ** Runs on the sample *)

(** C1, at the input where the code departs from it.  The instance, its PVC,
    Service and ConfigMap are there, the schema object is not.  The pass
    creates the schema object and goes straight on to the job phase, where
    it creates the DB sync job, although the schema it leaves behind is not
    completed. *)
Theorem job_created_before_schema_completed :
  let x := exec apiserver.handle (sample.Reconcile sample.req) sample.provisioned in
  calls (trace x)
  = [(VGet, KGlanceAPI); (VGet, KPvc); (VGet, KService); (VGet, KConfigMap);
     (VGet, KSchema); (VCreate, KSchema); (VGet, KJob); (VCreate, KJob)]
  /\ outcome x = (requeueAfter (Second * 5), None)
  /\ unstructured.statusCompleted
       <$> apiserver.find KSchema (keyOf (k:=KSchema) (fst (sample.SchemaObject sample.instance)))
             (final x)
     = Some unstructured.Absent
  /\ batchv1.jobState
       <$> apiserver.find KJob (keyOf (k:=KJob) (sample.DbSyncJob sample.instance)) (final x)
     = Some batchv1.Running.
Proof. vm_compute. repeat split; reflexivity. Qed.

(** C4, at the input where the code departs from it.  The fetch of the
    ConfigMap fails with a timeout.  The pass does not stop there: it goes
    on to send an update of the empty ConfigMap it holds, and what it
    returns is the error of that update, not the timeout. *)
Theorem configmap_fetch_error_not_returned :
  let x := exec apiserver.handle (sample.Reconcile sample.req)
             (sample.configMapFetchDown sample.provisioned) in
  calls (trace x)
  = [(VGet, KGlanceAPI); (VGet, KPvc); (VGet, KService); (VGet, KConfigMap);
     (VUpdate, KConfigMap)]
  /\ map evError (trace x)
     = [None; None; None; Some (StatusError ServerTimeout); Some (StatusError NotFound)]
  /\ outcome x = (noRequeue, Some (StatusError NotFound)).
Proof. vm_compute. repeat split; reflexivity. Qed.

(** The job phase is not free of calls when the hash is recorded: with the
    job hash in Status and no job left, it still fetches the job. *)
Lemma dbsync_recorded_hash_still_fetches_job :
  glance.ObjectHash (Templates:=sample.templates) KJob (sample.DbSyncJob sample.recorded)
  = (glancev1beta1.DbSyncHash (glancev1beta1.Status sample.recorded), None)
  /\ calls (trace (exec apiserver.handle (syncDbSync (G:=sample.templates) sample.recorded)
                     sample.settled))
     = [(VGet, KJob)].
Proof. vm_compute. split; reflexivity. Qed.

Lemma sample_healthy_settled : apiserver.healthy sample.settled.
Proof. intros v k. reflexivity. Qed.

Lemma sample_healthy_drifted : apiserver.healthy sample.drifted.
Proof. intros v k. reflexivity. Qed.

Lemma dbsync_recorded_hash_runs_only_delete_witness :
  writes (trace (exec apiserver.handle (syncDbSync (G:=sample.templates) sample.recorded)
                   sample.settled)) = [].
Proof.
  destruct (dbsync_recorded_hash_runs_only_delete (G:=sample.templates) apiserver.handle
              sample.recorded sample.settled) as (_ & _ & _ & Hwrites & _).
  - vm_compute. reflexivity.
  - exact Hwrites.
Defined.

Lemma reconcile_instance_gone_witness :
  exec apiserver.handle (sample.Reconcile sample.req) apiserver.empty
  = ((noRequeue, None),
     [Ev (Get KGlanceAPI (NamespacedName sample.req) (zero KGlanceAPI))
         (zero KGlanceAPI, Some (StatusError NotFound))],
     apiserver.empty).
Proof.
  apply (reconcile_instance_gone (G:=sample.templates) apiserver.handle sample.req
           apiserver.empty apiserver.empty (zero KGlanceAPI) (StatusError NotFound)).
  - vm_compute. reflexivity.
  - reflexivity.
Defined.


Lemma configmap_drift_repaired_once_witness :
  outcome (exec apiserver.handle (sample.Reconcile sample.req) sample.drifted)
  = (requeueAfter (Second * 5), None).
Proof.
  destruct (configmap_drift_repaired_once (G:=sample.templates) sample.req sample.instance
              (sample.Pvc sample.instance) (sample.Service sample.instance)
              {| corev1.cmMeta := sample.nameOf sample.instance "";
                 corev1.Data := Some {[ "glance-api.conf" := "[DEFAULT] debug = true" ]} |}
              sample.drifted) as (Hout & _).
  - exact sample_healthy_drifted.
  - vm_compute; reflexivity.
  - vm_compute; reflexivity.
  - vm_compute; reflexivity.
  - vm_compute; reflexivity.
  - vm_compute; reflexivity.
  - intros H.
    apply (f_equal (fun d : option (gmap string string) =>
                      match d with Some m => m !! "glance-api.conf" | None => None end)) in H.
    vm_compute in H. discriminate H.
  - exact Hout.
Defined.

(** ** The scenario of a fresh instance *)

Ltac healthy_tac :=
  repeat first [ apply apiserver_facts.healthy_put
               | apply apiserver_facts.healthy_remove
               | apply apiserver_facts.healthy_amend ];
  first [ assumption | exact apiserver_facts.healthy_empty ].

Ltac strip :=
  repeat first [ rewrite apiserver_facts.find_put_kind by discriminate
               | rewrite apiserver_facts.find_remove_kind by discriminate
               | rewrite apiserver_facts.find_amend_kind by discriminate ].

Ltac lookup :=
  strip;
  first [ eassumption
        | apply apiserver_facts.find_put_at; reflexivity
        | apply apiserver_facts.find_remove_at; reflexivity
        | apply apiserver_facts.find_empty
        | rewrite apiserver_facts.find_amend; strip;
          first [ erewrite apiserver_facts.find_put_at by reflexivity; reflexivity
                | rewrite apiserver_facts.find_amend; strip;
                  erewrite apiserver_facts.find_put_at by reflexivity; reflexivity ] ].

Ltac side := first [ healthy_tac | lookup | eassumption | reflexivity ].

Section Scenario.
Context {G : glance.Templates}.
Import apiserver apiserver_facts.

Variable i : glancev1beta1.GlanceAPI.
Variable schemaObj : unstructured.Unstructured.
Variables dbSyncHash configMapHash deploymentHash : string.
Variable w0 : World.
Variable ready : Z.

Hypothesis Hblind : statusBlind G.
Hypothesis Hdata : corev1.Data (glance.ConfigMap i) <> Some ∅.
Hypothesis Hschema : glance.SchemaObject i = (schemaObj, None).
Hypothesis Hjob : glance.ObjectHash KJob (glance.DbSyncJob i) = (dbSyncHash, None).
Hypothesis Hcm : glance.ObjectHash KConfigMap (glance.ConfigMap i) = (configMapHash, None).
Hypothesis Hdep :
  glance.ObjectHash KDeployment (glance.Deployment i configMapHash) = (deploymentHash, None).
Hypothesis Hnew1 : glancev1beta1.DbSyncHash (glancev1beta1.Status i) <> dbSyncHash.
Hypothesis Hnew2 : glancev1beta1.DeploymentHash (glancev1beta1.Status i) <> deploymentHash.
Hypothesis Hh : healthy w0.
Hypothesis Hi : find KGlanceAPI (keyOf (k:=KGlanceAPI) i) w0 = Some i.
Hypothesis Hnone : unprovisioned i w0.

Local Abbreviation run := (scenario.run i).
Local Abbreviation hasPvc := (scenario.hasPvc i w0).
Local Abbreviation hasService := (scenario.hasService i w0).
Local Abbreviation hasSchema := (scenario.hasSchema i schemaObj w0).
Local Abbreviation gateOpen := (scenario.gateOpen i schemaObj w0).
Local Abbreviation jobDone := (scenario.jobDone i schemaObj w0).
Local Abbreviation schemaCompleted := (scenario.schemaCompleted schemaObj).
Local Abbreviation jobSucceededObj := (scenario.jobSucceededObj i).
Local Abbreviation i1 := (scenario.i1 i dbSyncHash).
Local Abbreviation i2 := (scenario.i2 i dbSyncHash deploymentHash).
Local Abbreviation deployed := (scenario.deployed i schemaObj dbSyncHash configMapHash w0).
Local Abbreviation deploymentWith := (scenario.deploymentWith i configMapHash).
Local Abbreviation deploymentReady := (scenario.deploymentReady i configMapHash).
Local Abbreviation rolledOut := (scenario.rolledOut i schemaObj dbSyncHash configMapHash w0).
Local Abbreviation updated :=
  (scenario.updated i schemaObj dbSyncHash configMapHash deploymentHash w0).
Local Abbreviation allReady :=
  (scenario.allReady i schemaObj dbSyncHash configMapHash deploymentHash w0).

Lemma scenario_pass1 :
  run w0
  = ((requeueAfter (Second * 5), None),
     [found KGlanceAPI (keyOf (k:=KGlanceAPI) i) i;
      missing KPvc (keyOf (k:=KPvc) (glance.Pvc i));
      done (Create KPvc (glance.Pvc i))],
     hasPvc).
Proof.
  destruct Hnone as (Hp & _).
  unfold scenario.run, Reconcile, pass. rewrite exec_bindP.
  rewrite exec_bind; erewrite fetch_present; [cbv beta iota | side ..].
  rewrite exec_bind; erewrite pvc_absent; [cbv beta iota | side ..].
  reflexivity.
Qed.

Lemma scenario_pass2 :
  run hasPvc
  = ((requeueAfter (Second * 5), None),
     [found KGlanceAPI (keyOf (k:=KGlanceAPI) i) i;
      found KPvc (keyOf (k:=KPvc) (glance.Pvc i)) (glance.Pvc i);
      missing KService (keyOf (k:=KService) (glance.Service i));
      done (Create KService (glance.Service i))],
     hasService).
Proof.
  destruct Hnone as (Hp & Hs & _).
  unfold scenario.run, Reconcile, pass, scenario.hasPvc. rewrite exec_bindP.
  rewrite exec_bind; erewrite fetch_present; [cbv beta iota | side ..].
  rewrite exec_bind; erewrite pvc_present; [cbv beta iota | side ..].
  rewrite exec_bind; erewrite service_absent; [cbv beta iota | side ..].
  reflexivity.
Qed.

Lemma scenario_pass3 :
  run hasService
  = ((requeueAfter (Second * 5), None),
     [found KGlanceAPI (keyOf (k:=KGlanceAPI) i) i;
      found KPvc (keyOf (k:=KPvc) (glance.Pvc i)) (glance.Pvc i);
      found KService (keyOf (k:=KService) (glance.Service i)) (glance.Service i);
      missing KConfigMap (keyOf (k:=KConfigMap) (glance.ConfigMap i));
      done (Create KConfigMap (glance.ConfigMap i));
      Ev (Get KSchema (keyOf (k:=KSchema) schemaObj) (schemaInto schemaObj))
         (schemaInto schemaObj, Some (StatusError NotFound));
      done (Create KSchema schemaObj);
      missing KJob (keyOf (k:=KJob) (glance.DbSyncJob i));
      done (Create KJob (glance.DbSyncJob i))],
     hasSchema).
Proof.
  destruct Hnone as (Hp & Hs & Hc & Hu & Hj & _). rewrite Hschema in Hu. simpl in Hu.
  unfold scenario.run, Reconcile, pass, scenario.hasService, scenario.hasPvc. rewrite exec_bindP.
  rewrite exec_bind; erewrite fetch_present; [cbv beta iota | side ..].
  rewrite exec_bind; erewrite pvc_present; [cbv beta iota | side ..].
  rewrite exec_bind; erewrite service_present; [cbv beta iota | side ..].
  rewrite exec_bind; erewrite configmap_absent; [cbv beta iota | side ..].
  rewrite (wire_keeps _ Hdata).
  rewrite exec_bind; erewrite schema_absent; [cbv beta iota | side ..].
  rewrite exec_bind; erewrite dbsync_start; [cbv beta iota | side ..].
  reflexivity.
Qed.

Lemma scenario_pass4 :
  run hasSchema
  = ((requeueAfter (Second * 5), None),
     [found KGlanceAPI (keyOf (k:=KGlanceAPI) i) i;
      found KPvc (keyOf (k:=KPvc) (glance.Pvc i)) (glance.Pvc i);
      found KService (keyOf (k:=KService) (glance.Service i)) (glance.Service i);
      found KConfigMap (keyOf (k:=KConfigMap) (glance.ConfigMap i)) (glance.ConfigMap i);
      Ev (Get KSchema (keyOf (k:=KSchema) schemaObj) (schemaInto schemaObj))
         (created KSchema schemaObj, None)],
     hasSchema).
Proof.
  unfold scenario.run, Reconcile, pass, scenario.hasSchema, scenario.hasService,
    scenario.hasPvc.
  rewrite exec_bindP.
  rewrite exec_bind; erewrite fetch_present; [cbv beta iota | side ..].
  rewrite exec_bind; erewrite pvc_present; [cbv beta iota | side ..].
  rewrite exec_bind; erewrite service_present; [cbv beta iota | side ..].
  rewrite exec_bind; erewrite configmap_same; [cbv beta iota | side ..].
  rewrite exec_bind; erewrite schema_present; [cbv beta iota | side ..].
  reflexivity.
Qed.

Lemma scenario_pass5 :
  run gateOpen
  = ((requeueAfter (Second * 5), None),
     [found KGlanceAPI (keyOf (k:=KGlanceAPI) i) i;
      found KPvc (keyOf (k:=KPvc) (glance.Pvc i)) (glance.Pvc i);
      found KService (keyOf (k:=KService) (glance.Service i)) (glance.Service i);
      found KConfigMap (keyOf (k:=KConfigMap) (glance.ConfigMap i)) (glance.ConfigMap i);
      Ev (Get KSchema (keyOf (k:=KSchema) schemaObj) (schemaInto schemaObj))
         (schemaCompleted, None);
      found KJob (keyOf (k:=KJob) (glance.DbSyncJob i)) (created KJob (glance.DbSyncJob i))],
     gateOpen).
Proof.
  unfold run, Reconcile, pass, gateOpen, cluster.completeSchema, hasSchema, hasService,
    hasPvc.
  rewrite exec_bindP.
  rewrite exec_bind; erewrite fetch_present; [cbv beta iota | side ..].
  rewrite exec_bind; erewrite pvc_present; [cbv beta iota | side ..].
  rewrite exec_bind; erewrite service_present; [cbv beta iota | side ..].
  rewrite exec_bind; erewrite configmap_same; [cbv beta iota | side ..].
  rewrite exec_bind; erewrite schema_present; [cbv beta iota | side ..].
  rewrite exec_bind; erewrite dbsync_running; [cbv beta iota | side ..].
  reflexivity.
Qed.

Lemma blind (i' : glancev1beta1.GlanceAPI) :
  glancev1beta1.ObjectMeta i' = glancev1beta1.ObjectMeta i ->
  glancev1beta1.Spec i' = glancev1beta1.Spec i ->
  syncPvc i' = syncPvc i /\ syncService i' = syncService i
  /\ syncConfigMap i' = syncConfigMap i /\ syncSchema i' = syncSchema i
  /\ glance.DbSyncJob i' = glance.DbSyncJob i
  /\ glance.Deployment i' configMapHash = glance.Deployment i configMapHash.
Proof.
  intros Hm Hs. destruct (Hblind i' i Hm Hs) as (B1 & B2 & B3 & B4 & B5 & B6).
  unfold syncPvc, syncService, syncConfigMap, syncSchema.
  rewrite B1, B2, B3, B4, B5, B6. repeat split; reflexivity.
Qed.

Lemma scenario_pass6 :
  run jobDone
  = ((requeueAfter (Second * 10), None),
     [found KGlanceAPI (keyOf (k:=KGlanceAPI) i) i;
      found KPvc (keyOf (k:=KPvc) (glance.Pvc i)) (glance.Pvc i);
      found KService (keyOf (k:=KService) (glance.Service i)) (glance.Service i);
      found KConfigMap (keyOf (k:=KConfigMap) (glance.ConfigMap i)) (glance.ConfigMap i);
      Ev (Get KSchema (keyOf (k:=KSchema) schemaObj) (schemaInto schemaObj))
         (schemaCompleted, None);
      found KJob (keyOf (k:=KJob) (glance.DbSyncJob i)) jobSucceededObj;
      done (StatusUpdate KGlanceAPI i1);
      found KJob (keyOf (k:=KJob) (glance.DbSyncJob i)) jobSucceededObj;
      done (Delete KJob jobSucceededObj);
      missing KDeployment (keyOf (k:=KDeployment) (glance.Deployment i configMapHash));
      done (Create KDeployment (glance.Deployment i configMapHash))],
     deployed).
Proof.
  destruct Hnone as (_ & _ & _ & _ & _ & Hd).
  destruct (blind i1 eq_refl eq_refl) as (_ & _ & _ & _ & _ & B6).
  unfold run, Reconcile, pass, deployed, jobDone, cluster.finishJob, gateOpen,
    cluster.completeSchema, hasSchema, hasService, hasPvc.
  rewrite exec_bindP.
  rewrite exec_bind; erewrite fetch_present; [cbv beta iota | side ..].
  rewrite exec_bind; erewrite pvc_present; [cbv beta iota | side ..].
  rewrite exec_bind; erewrite service_present; [cbv beta iota | side ..].
  rewrite exec_bind; erewrite configmap_same; [cbv beta iota | side ..].
  rewrite exec_bind; erewrite schema_present; [cbv beta iota | side ..].
  rewrite exec_bind;
    erewrite (dbsync_succeeded i i dbSyncHash jobSucceededObj);
    [cbv beta iota | side ..].
  fold (scenario.i1 i dbSyncHash).
  erewrite (deployment_absent i1 _ configMapHash deploymentHash);
    [ | healthy_tac | exact Hcm | rewrite B6; exact Hdep | rewrite B6; strip; apply Hd ].
  rewrite B6. reflexivity.
Qed.

Lemma scenario_pass7 :
  run (rolledOut ready)
  = ((requeueAfter (Second * 10), None),
     [found KGlanceAPI (keyOf (k:=KGlanceAPI) i) i1;
      found KPvc (keyOf (k:=KPvc) (glance.Pvc i)) (glance.Pvc i);
      found KService (keyOf (k:=KService) (glance.Service i)) (glance.Service i);
      found KConfigMap (keyOf (k:=KConfigMap) (glance.ConfigMap i)) (glance.ConfigMap i);
      Ev (Get KSchema (keyOf (k:=KSchema) schemaObj) (schemaInto schemaObj))
         (schemaCompleted, None);
      missing KJob (keyOf (k:=KJob) (glance.DbSyncJob i));
      found KDeployment (keyOf (k:=KDeployment) (glance.Deployment i configMapHash))
        (deploymentWith ready);
      done (Update KDeployment (deploymentWith ready));
      done (StatusUpdate KGlanceAPI i2)],
     updated ready).
Proof.
  destruct (blind i1 eq_refl eq_refl) as (P1 & P2 & P3 & P4 & B5 & B6).
  unfold run, Reconcile, pass, updated, rolledOut, cluster.rollOut, deployed, jobDone,
    cluster.finishJob, gateOpen, cluster.completeSchema, hasSchema, hasService, hasPvc.
  rewrite exec_bindP.
  rewrite exec_bind; erewrite (fetch_present _ i1); [cbv beta iota | side ..].
  rewrite P1, P2, P3, P4.
  rewrite exec_bind; erewrite pvc_present; [cbv beta iota | side ..].
  rewrite exec_bind; erewrite service_present; [cbv beta iota | side ..].
  rewrite exec_bind; erewrite configmap_same; [cbv beta iota | side ..].
  rewrite exec_bind; erewrite schema_present; [cbv beta iota | side ..].
  rewrite exec_bind; erewrite (dbsync_skip_absent i1);
    [cbv beta iota | healthy_tac | rewrite B5; exact Hjob | rewrite B5; lookup].
  erewrite (deployment_changed i1 i1 _ configMapHash deploymentHash (deploymentWith ready));
    [ | healthy_tac | exact Hcm | rewrite B6; exact Hdep | rewrite B6; lookup
      | rewrite B6; reflexivity | exact Hnew2 | lookup ].
  rewrite B5, B6. reflexivity.
Qed.

Lemma scenario_pass8 :
  run (allReady ready)
  = ((noRequeue, None),
     [found KGlanceAPI (keyOf (k:=KGlanceAPI) i) i2;
      found KPvc (keyOf (k:=KPvc) (glance.Pvc i)) (glance.Pvc i);
      found KService (keyOf (k:=KService) (glance.Service i)) (glance.Service i);
      found KConfigMap (keyOf (k:=KConfigMap) (glance.ConfigMap i)) (glance.ConfigMap i);
      Ev (Get KSchema (keyOf (k:=KSchema) schemaObj) (schemaInto schemaObj))
         (schemaCompleted, None);
      missing KJob (keyOf (k:=KJob) (glance.DbSyncJob i));
      found KDeployment (keyOf (k:=KDeployment) (glance.Deployment i configMapHash))
        deploymentReady],
     allReady ready).
Proof.
  destruct (blind i2 eq_refl eq_refl) as (P1 & P2 & P3 & P4 & B5 & B6).
  unfold run, Reconcile, pass, allReady, updated, rolledOut, cluster.rollOut, deployed,
    jobDone, cluster.finishJob, gateOpen, cluster.completeSchema, hasSchema, hasService,
    hasPvc.
  rewrite exec_bindP.
  rewrite exec_bind; erewrite (fetch_present _ i2); [cbv beta iota | side ..].
  rewrite P1, P2, P3, P4.
  rewrite exec_bind; erewrite pvc_present; [cbv beta iota | side ..].
  rewrite exec_bind; erewrite service_present; [cbv beta iota | side ..].
  rewrite exec_bind; erewrite configmap_same; [cbv beta iota | side ..].
  rewrite exec_bind; erewrite schema_present; [cbv beta iota | side ..].
  rewrite exec_bind; erewrite (dbsync_skip_absent i2);
    [cbv beta iota | healthy_tac | rewrite B5; exact Hjob | rewrite B5; lookup].
  erewrite (deployment_settled i2 _ configMapHash deploymentReady);
    [ | healthy_tac | exact Hcm | rewrite B6; exact Hdep | rewrite B6; lookup ].
  simpl appsv1.ReadyReplicas. simpl glancev1beta1.Replicas.
  rewrite Z.eqb_refl, B5, B6. reflexivity.
Qed.

(** C8, as the code has it.  From a store that holds the fresh instance and
    nothing of what the controller manages, on a healthy server:
    the first pass creates the PVC only and asks for a requeue after five
    seconds; the second creates the Service and requeues; the third creates
    the ConfigMap and then the schema object and requeues; while the schema
    is not completed a pass only fetches and requeues; once the schema is
    completed a pass requeues while the job runs; once the job has
    succeeded a pass records the job hash, deletes the job, creates the
    deployment and requeues after ten seconds; the pass after that,
    however many replicas are ready, updates the deployment, records the
    deployment hash and requeues after ten seconds; after that, with as many
    replicas ready as desired, a pass returns the empty result.  The
    desired ConfigMap has data that is nil or has an entry. *)
Theorem fresh_instance_scenario :
  let p1 := run w0 in
  let p2 := run (final p1) in
  let p3 := run (final p2) in
  let p4 := run (final p3) in
  let p5 := run (cluster.completeSchema (final p4)) in
  let p6 := run (cluster.finishJob (final p5)) in
  let p7 := run (cluster.rollOut ready (final p6)) in
  let p8 :=
    run (cluster.rollOut (glancev1beta1.Replicas (glancev1beta1.Spec i)) (final p7)) in
  (outcome p1 = (requeueAfter (Second * 5), None)
   /\ calls (trace p1) = [(VGet, KGlanceAPI); (VGet, KPvc); (VCreate, KPvc)])
  /\ (outcome p2 = (requeueAfter (Second * 5), None)
      /\ calls (trace p2)
         = [(VGet, KGlanceAPI); (VGet, KPvc); (VGet, KService); (VCreate, KService)])
  /\ (outcome p3 = (requeueAfter (Second * 5), None)
      /\ firstn 7 (calls (trace p3))
         = [(VGet, KGlanceAPI); (VGet, KPvc); (VGet, KService); (VGet, KConfigMap);
            (VCreate, KConfigMap); (VGet, KSchema); (VCreate, KSchema)])
  /\ (outcome p4 = (requeueAfter (Second * 5), None)
      /\ calls (trace p4)
         = [(VGet, KGlanceAPI); (VGet, KPvc); (VGet, KService); (VGet, KConfigMap);
            (VGet, KSchema)])
  /\ outcome p5 = (requeueAfter (Second * 5), None)
  /\ (outcome p6 = (requeueAfter (Second * 10), None)
      /\ calls (trace p6)
         = [(VGet, KGlanceAPI); (VGet, KPvc); (VGet, KService); (VGet, KConfigMap);
            (VGet, KSchema); (VGet, KJob); (VStatusUpdate, KGlanceAPI); (VGet, KJob);
            (VDelete, KJob); (VGet, KDeployment); (VCreate, KDeployment)])
  /\ (outcome p7 = (requeueAfter (Second * 10), None)
      /\ calls (trace p7)
         = [(VGet, KGlanceAPI); (VGet, KPvc); (VGet, KService); (VGet, KConfigMap);
            (VGet, KSchema); (VGet, KJob); (VGet, KDeployment); (VUpdate, KDeployment);
            (VStatusUpdate, KGlanceAPI)])
  /\ (outcome p8 = (noRequeue, None)
      /\ calls (trace p8)
         = [(VGet, KGlanceAPI); (VGet, KPvc); (VGet, KService); (VGet, KConfigMap);
            (VGet, KSchema); (VGet, KJob); (VGet, KDeployment)]).
Proof.
  intros p1 p2 p3 p4 p5 p6 p7 p8.
  pose proof scenario_pass1 as E1. fold p1 in E1.
  assert (E2 : p2 = _) by (unfold p2; rewrite E1; exact scenario_pass2).
  assert (E3 : p3 = _) by (unfold p3; rewrite E2; exact scenario_pass3).
  assert (E4 : p4 = _) by (unfold p4; rewrite E3; exact scenario_pass4).
  assert (E5 : p5 = _) by (unfold p5; rewrite E4; exact scenario_pass5).
  assert (E6 : p6 = _) by (unfold p6; rewrite E5; exact scenario_pass6).
  assert (E7 : p7 = _) by (unfold p7; rewrite E6; exact scenario_pass7).
  assert (E8 : p8 = _) by (unfold p8; rewrite E7; exact scenario_pass8).
  rewrite E1, E2, E3, E4, E5, E6, E7, E8.
  repeat split; reflexivity.
Qed.
End Scenario.

Lemma sample_statusBlind : statusBlind sample.templates.
Proof.
  intros [m s st] [m' s' st'] Hm Hs. simpl in Hm, Hs. subst m' s'.
  repeat split.
Qed.

Lemma sample_unprovisioned : unprovisioned (G:=sample.templates) sample.instance sample.fresh.
Proof. repeat split. Qed.

Lemma fresh_instance_scenario_witness :
  outcome (scenario.run (G:=sample.templates) sample.instance sample.fresh)
  = (requeueAfter (Second * 5), None)
  /\ calls (trace (scenario.run (G:=sample.templates) sample.instance sample.fresh))
     = [(VGet, KGlanceAPI); (VGet, KPvc); (VCreate, KPvc)].
Proof.
  destruct (fresh_instance_scenario (G:=sample.templates) sample.instance
              (fst (sample.SchemaObject sample.instance))
              "job:glance-manage db_sync" "cm:[DEFAULT]" "dep:1:CONFIG_HASH=cm:[DEFAULT]"
              sample.fresh 0) as (H1 & _).
  - exact sample_statusBlind.
  - intros H. apply (f_equal (fun d : option (gmap string string) =>
                                match d with Some m => m !! "glance-api.conf" | None => None end))
      in H.
    vm_compute in H. discriminate H.
  - reflexivity.
  - reflexivity.
  - reflexivity.
  - reflexivity.
  - vm_compute. intros H. discriminate H.
  - vm_compute. intros H. discriminate H.
  - intros v k. reflexivity.
  - reflexivity.
  - exact sample_unprovisioned.
  - exact H1.
Defined.

(** Where the run of the fresh instance leaves the scenario as the spec
    tells it.  The third pass, which creates the ConfigMap and the schema
    object, also creates the job, before the schema is completed; and the
    pass that follows the creation of the deployment asks for a requeue
    after ten seconds although the ready replicas already equal the desired
    ones. *)
Lemma fresh_scenario_departs :
  let run := fun w => exec apiserver.handle (sample.Reconcile sample.req) w in
  let p3 := run (final (run (final (run sample.fresh)))) in
  let p6 :=
    run (cluster.finishJob (final (run (cluster.completeSchema (final (run (final p3))))))) in
  let w7 := cluster.rollOut 1 (final p6) in
  calls (trace p3)
  = [(VGet, KGlanceAPI); (VGet, KPvc); (VGet, KService); (VGet, KConfigMap);
     (VCreate, KConfigMap); (VGet, KSchema); (VCreate, KSchema); (VGet, KJob);
     (VCreate, KJob)]
  /\ unstructured.statusCompleted
       <$> apiserver.find KSchema (keyOf (k:=KSchema) (fst (sample.SchemaObject sample.instance)))
             (final p3)
     = Some unstructured.Absent
  /\ (appsv1.ReadyReplicas ∘ appsv1.Status)
       <$> apiserver.find KDeployment
             (keyOf (k:=KDeployment) (sample.Deployment sample.instance "")) w7
     = Some (glancev1beta1.Replicas (glancev1beta1.Spec sample.instance))
  /\ outcome (run w7) = (requeueAfter (Second * 10), None)
  /\ calls (trace (run w7))
     = [(VGet, KGlanceAPI); (VGet, KPvc); (VGet, KService); (VGet, KConfigMap);
        (VGet, KSchema); (VGet, KJob); (VGet, KDeployment); (VUpdate, KDeployment);
        (VStatusUpdate, KGlanceAPI)].
Proof. vm_compute. repeat split; reflexivity. Qed.

(** ** Two passes in a row *)

Ltac gentle_tac :=
  repeat first
    [ apply gentle_ret
    | apply gentle_vis; [discriminate | discriminate | intros ?]
    | progress simpl
    | match goal with
      | |- context [match ?x with _ => _ end] => destruct x
      end ].

Section TwoPasses.
Context {G : glance.Templates}.
Import apiserver apiserver_facts.

Lemma fetchInstance_gentle (req : Request) : gentle (fetchInstance req).
Proof. unfold fetchInstance. gentle_tac. Qed.

Lemma syncPvc_gentle (i : glancev1beta1.GlanceAPI) : gentle (syncPvc i).
Proof. unfold syncPvc. gentle_tac. Qed.

Lemma syncService_gentle (i : glancev1beta1.GlanceAPI) : gentle (syncService i).
Proof. unfold syncService. gentle_tac. Qed.

Lemma syncConfigMap_gentle (i : glancev1beta1.GlanceAPI) : gentle (syncConfigMap i).
Proof. unfold syncConfigMap. gentle_tac. Qed.

Lemma syncSchema_gentle (i : glancev1beta1.GlanceAPI) : gentle (syncSchema i).
Proof. unfold syncSchema, unstructured.NestedBool. gentle_tac. Qed.

Lemma syncDeployment_gentle (i : glancev1beta1.GlanceAPI) (configMap : corev1.ConfigMap) :
  gentle (syncDeployment i configMap).
Proof. unfold syncDeployment, setDeploymentHash. gentle_tac. Qed.

Lemma handle_frame {R : Type} (c : Call R) (j : batchv1.Job) (w : World) :
  kindOf c <> KJob ->
  handle R c (remove KJob j w)
  = (fst (handle R c w), remove KJob j (snd (handle R c w))).
Proof.
  intros Hk. unfold handle, find, put, remove.
  destruct c as [k key into | k obj | k obj | k obj | k obj]; simpl in Hk;
    destruct k; try congruence; simpl.
  all: match goal with
       | |- context [outage ?w0 ?v ?k] => destruct (outage w0 v k); [reflexivity |]
       end.
  all: match goal with
       | |- context [?m !! ?a] => destruct (m !! a); reflexivity
       end.
Qed.

Lemma handle_read_only {R : Type} (c : Call R) (w : World) :
  verbOf c = VGet -> snd (handle R c w) = w.
Proof.
  destruct c; simpl; try discriminate. intros _. apply get_keeps.
Qed.

Lemma writes_app (tr1 tr2 : list Event) : writes (tr1 ++ tr2) = writes tr1 ++ writes tr2.
Proof. unfold writes. apply filter_app. Qed.

Lemma writes_cons_write (e : Event) (tr : list Event) :
  isWrite e = true -> writes (e :: tr) <> [].
Proof.
  intros He. unfold writes. rewrite filter_cons_True by exact He. discriminate.
Qed.

Lemma writes_cons_other (e : Event) (tr : list Event) :
  isWrite e = false -> writes (e :: tr) = writes tr.
Proof.
  intros He. unfold writes. apply filter_cons_False. rewrite He. discriminate.
Qed.

(** Removing a job does not change what a gentle program does. *)
Lemma gentle_frame {A : Type} (p : Prog A) (j : batchv1.Job) (w : World) :
  gentle p ->
  exec handle p (remove KJob j w)
  = (outcome (exec handle p w), trace (exec handle p w),
     remove KJob j (final (exec handle p w))).
Proof.
  intros Hp. revert w. induction Hp as [a | R c k Hk Hv Hrest IH]; intros w; simpl.
  - reflexivity.
  - rewrite (handle_frame c j w Hk). destruct (handle R c w) as [r w1]. simpl.
    rewrite IH. destruct (exec handle (k r) w1) as [[a tr] w2]. reflexivity.
Qed.

(** A gentle program that writes nothing leaves the store as it is. *)
Lemma gentle_read_only {A : Type} (p : Prog A) (w : World) :
  gentle p -> writes (trace (exec handle p w)) = [] -> final (exec handle p w) = w.
Proof.
  intros Hp. revert w. induction Hp as [a | R c k Hk Hv Hrest IH]; intros w; simpl.
  - reflexivity.
  - pose proof (handle_read_only c w) as Hro.
    destruct (handle R c w) as [r w1]. simpl in Hro.
    specialize (IH r w1). destruct (exec handle (k r) w1) as [[a tr] w2].
    unfold trace, final in *. simpl in *. intros Hw.
    destruct (isWrite (Ev c r)) eqn:He.
    + exfalso. exact (writes_cons_write _ _ He Hw).
    + rewrite writes_cons_other in Hw by exact He. rewrite (IH Hw).
      apply Hro. destruct c; simpl in *; try reflexivity; try discriminate He; congruence.
Qed.

Ltac serve Hh :=
  repeat first
    [ progress (unfold handle; simpl)
    | rewrite Hh
    | match goal with
      | |- context [find ?k ?key ?w] => destruct (find k key w) eqn:?
      end
    | branch ].

(** [DeleteJob] changes the store by removing a job, or not at all. *)
Lemma deleteJob_final (job : batchv1.Job) (w : World) :
  final (exec handle (glance.DeleteJob job) w) = w
  \/ exists j, final (exec handle (glance.DeleteJob job) w) = remove KJob j w.
Proof.
  unfold glance.DeleteJob, final.
  repeat first
    [ progress (unfold handle; simpl)
    | match goal with
      | |- context [outage ?w0 ?v ?k] => destruct (outage w0 v k) eqn:?
      | |- context [find ?k ?key ?w0] => destruct (find k key w0) eqn:?
      end
    | branch ].
  all: first [left; reflexivity | right; eexists; reflexivity].
Qed.

(** A job phase that writes nothing leaves the store as it is, or has found
    the hash recorded and removed the job that was left. *)
Lemma syncDbSync_quiet_final (i : glancev1beta1.GlanceAPI) (w : World) :
  healthy w ->
  writes (trace (exec handle (syncDbSync i) w)) = [] ->
  final (exec handle (syncDbSync i) w) = w
  \/ (exists j, final (exec handle (syncDbSync i) w) = remove KJob j w)
     /\ outcome (exec handle (syncDbSync i) w) = Next i
     /\ glance.ObjectHash KJob (glance.DbSyncJob i)
        = (glancev1beta1.DbSyncHash (glancev1beta1.Status i), None).
Proof.
  intros Hh.
  unfold syncDbSync, setDbSyncHash, glance.EnsureJob, glance.DeleteJob, trace, final,
    outcome.
  destruct (glance.ObjectHash KJob (glance.DbSyncJob i)) as [dbSyncHash [e |]];
    [left; reflexivity |].
  rewrite (String.eqb_sym dbSyncHash).
  destruct (String.eqb _ dbSyncHash) eqn:Hhash; simpl.
  - apply String.eqb_eq in Hhash. subst dbSyncHash.
    serve Hh; intros Hw; first [left; reflexivity | right; eauto].
  - serve Hh; intros Hw;
      first [left; reflexivity | exfalso; revert Hw; apply writes_cons_write; reflexivity
            | idtac ].
    all: rewrite !writes_cons_other in Hw by reflexivity.
    all: exfalso; revert Hw; apply writes_cons_write; reflexivity.
Qed.

Lemma settles_bind_gentle {A B : Type} (m : Pass A) (f : A -> Pass B) :
  gentle m -> (forall a, settles (f a)) -> settles (bind m f).
Proof.
  intros Hm Hf w Hh. rewrite exec_bind.
  pose proof (gentle_read_only m w Hm) as Hro.
  destruct (exec handle m w) as [[[a | res err] tr1] w1] eqn:E;
    unfold trace, final in *; simpl in *.
  - destruct (exec handle (f a) w1) as [[b tr2] w2] eqn:E2. simpl.
    rewrite writes_app. intros Hw. apply app_eq_nil in Hw as [Hw1 Hw2].
    specialize (Hro Hw1). subst w1.
    specialize (Hf a w Hh). unfold trace, final in Hf. rewrite E2 in Hf. simpl in Hf.
    destruct (Hf Hw2) as [-> | (j & -> & Hj)]; [left; reflexivity |].
    right. exists j. split; [reflexivity |].
    rewrite exec_bind, (gentle_frame m j w Hm), E. unfold outcome, trace, final. simpl.
    destruct (exec handle (f a) (remove KJob j w)) as [[b' tr2'] w2']. simpl in *.
    rewrite writes_app, Hw1, Hj. reflexivity.
  - intros Hw. left. exact (Hro Hw).
Qed.

Lemma settles_tail (i : glancev1beta1.GlanceAPI) (configMap : corev1.ConfigMap) :
  settles (bind (syncDbSync i) (fun i' => syncDeployment i' configMap)).
Proof.
  intros w Hh. rewrite exec_bind.
  pose proof (syncDbSync_quiet_final i w Hh) as Hjob.
  destruct (exec handle (syncDbSync i) w) as [[[i' | res err] tr1] w1] eqn:E;
    unfold trace, final, outcome in *; simpl in *.
  - pose proof (gentle_read_only (syncDeployment i' configMap) w1
                  (syncDeployment_gentle i' configMap)) as Hro.
    destruct (exec handle (syncDeployment i' configMap) w1) as [[b tr2] w2] eqn:E2.
    unfold trace, final in Hro. simpl in *.
    rewrite writes_app. intros Hw. apply app_eq_nil in Hw as [Hw1 Hw2].
    specialize (Hro Hw2). subst w2.
    destruct (Hjob Hw1) as [-> | ((j & ->) & Hi' & Hhash)]; [left; reflexivity |].
    injection Hi' as ->.
    right. exists j. split; [reflexivity |].
    rewrite exec_bind.
    destruct (syncDbSync_recorded handle i (remove KJob j w) Hhash)
      as (_ & Hfinal & Hout & Hwrites & _).
    pose proof (deleteJob_final (glance.DbSyncJob i) (remove KJob j w)) as Hshape.
    rewrite <- Hfinal in Hshape.
    destruct (exec handle (syncDbSync i) (remove KJob j w)) as [[o tr1'] w1'] eqn:E'.
    unfold trace, final, outcome in *. simpl in *.
    destruct (notNil _); subst o; simpl; [exact Hwrites |].
    destruct Hshape as [-> | (j' & ->)].
    + rewrite E2. simpl. rewrite writes_app, Hwrites, Hw2. reflexivity.
    + rewrite (gentle_frame _ j' _ (syncDeployment_gentle i configMap)), E2.
      unfold trace. simpl. rewrite writes_app, Hwrites, Hw2. reflexivity.
  - intros Hw. destruct (Hjob Hw) as [-> | (_ & Hi' & _)]; [left; reflexivity |].
    discriminate Hi'.
Qed.

Lemma settles_pass (req : Request) : settles (pass req).
Proof.
  unfold pass.
  apply settles_bind_gentle; [apply fetchInstance_gentle |]. intros i.
  apply settles_bind_gentle; [apply syncPvc_gentle |]. intros _.
  apply settles_bind_gentle; [apply syncService_gentle |]. intros _.
  apply settles_bind_gentle; [apply syncConfigMap_gentle |]. intros configMap.
  apply settles_bind_gentle; [apply syncSchema_gentle |]. intros _.
  apply settles_tail.
Qed.

Lemma reconcile_pass (req : Request) (w : World) :
  trace (exec handle (Reconcile req) w) = trace (exec handle (pass req) w)
  /\ final (exec handle (Reconcile req) w) = final (exec handle (pass req) w).
Proof.
  unfold Reconcile. rewrite exec_bindP.
  destruct (exec handle (pass req) w) as [[[[] | res err] tr] w1]; simpl;
    unfold trace, final; simpl; rewrite app_nil_r; split; reflexivity.
Qed.

(** C3, as the code has it.  On a healthy server, when a pass makes no
    create, update or status-update call, the pass that follows it on the
    store it left makes none either. *)
Theorem reconcile_twice_no_new_writes :
  forall (req : Request) (w : World),
    healthy w ->
    writes (trace (exec handle (Reconcile req) w)) = [] ->
    writes (trace (exec handle (Reconcile req) (final (exec handle (Reconcile req) w)))) = [].
Proof.
  intros req w Hh Hw.
  destruct (reconcile_pass req w) as [Htr Hfin]. rewrite Hfin. rewrite Htr in Hw.
  destruct (settles_pass req w Hh Hw) as [-> | (j & -> & Hj)].
  - destruct (reconcile_pass req w) as [-> _]. exact Hw.
  - destruct (reconcile_pass req (remove KJob j w)) as [-> _]. exact Hj.
Qed.
End TwoPasses.

Lemma reconcile_twice_no_new_writes_witness :
  writes (trace (exec apiserver.handle (sample.Reconcile sample.req)
                   (final (exec apiserver.handle (sample.Reconcile sample.req)
                             sample.settled)))) = [].
Proof.
  apply (reconcile_twice_no_new_writes (G:=sample.templates) sample.req sample.settled).
  - exact sample_healthy_settled.
  - vm_compute. reflexivity.
Defined.

(** Two passes in a row are not always idle the second time: on the fresh
    instance the first pass creates the PVC, and the pass right after it
    creates the Service. *)
Lemma second_pass_creates_service :
  let first := exec apiserver.handle (sample.Reconcile sample.req) sample.fresh in
  let second := exec apiserver.handle (sample.Reconcile sample.req) (final first) in
  calls (writes (trace first)) = [(VCreate, KPvc)]
  /\ calls (writes (trace second)) = [(VCreate, KService)].
Proof. vm_compute. split; reflexivity. Qed.

(** ** More properties that hold for every client *)

Ltac cases_on h := repeat (first [reply h | branch | progress simpl]).

Section EveryClientMore.
Context {G : glance.Templates}.
Context {W : Type} (h : Handler W).

Lemma failuresReturned_app (tr1 tr2 : list Event) (out : option (Result * error)) :
  failuresReturned tr1 None -> failuresReturned tr2 out ->
  failuresReturned (tr1 ++ tr2) out.
Proof.
  induction tr1 as [| e tr1 IH]; simpl; [intros _ H; exact H |].
  destruct (survivable e); [exact IH |]. intros [_ Hout]. discriminate Hout.
Qed.

Lemma bind_failuresReturned {A B : Type} (m : Pass A) (f : A -> Pass B) (w : W) :
  failuresReturned (trace (exec h m w)) (returned (outcome (exec h m w))) ->
  (forall a w', failuresReturned (trace (exec h (f a) w'))
                  (returned (outcome (exec h (f a) w')))) ->
  failuresReturned (trace (exec h (bind m f) w)) (returned (outcome (exec h (bind m f) w))).
Proof.
  rewrite exec_bind.
  destruct (exec h m w) as [[[a | res err] tr1] w1]; unfold trace, outcome; simpl;
    intros Hm Hf; [| exact Hm].
  specialize (Hf a w1). destruct (exec h (f a) w1) as [[b tr2] w2]. simpl in *.
  apply failuresReturned_app; assumption.
Qed.

Ltac phase_failures :=
  unfold trace, outcome; cases_on h;
  repeat (unfold survivable; simpl;
          repeat match goal with
                 | H : IsNotFound _ = _ |- _ => rewrite H
                 end;
          simpl);
  auto.

Lemma fetchInstance_failures (req : Request) (w : W) :
  failuresReturned (trace (exec h (fetchInstance req) w))
    (returned (outcome (exec h (fetchInstance req) w))).
Proof. unfold fetchInstance. phase_failures. Qed.

Lemma syncPvc_failures (i : glancev1beta1.GlanceAPI) (w : W) :
  failuresReturned (trace (exec h (syncPvc i) w)) (returned (outcome (exec h (syncPvc i) w))).
Proof. unfold syncPvc. phase_failures. Qed.

Lemma syncService_failures (i : glancev1beta1.GlanceAPI) (w : W) :
  failuresReturned (trace (exec h (syncService i) w))
    (returned (outcome (exec h (syncService i) w))).
Proof. unfold syncService. phase_failures. Qed.

Lemma syncConfigMap_failures (i : glancev1beta1.GlanceAPI) (w : W) :
  failuresReturned (trace (exec h (syncConfigMap i) w))
    (returned (outcome (exec h (syncConfigMap i) w))).
Proof. unfold syncConfigMap. phase_failures. Qed.

Lemma syncSchema_failures (i : glancev1beta1.GlanceAPI) (w : W) :
  failuresReturned (trace (exec h (syncSchema i) w))
    (returned (outcome (exec h (syncSchema i) w))).
Proof. unfold syncSchema, unstructured.NestedBool. phase_failures. Qed.

Lemma syncDbSync_failures (i : glancev1beta1.GlanceAPI) (w : W) :
  failuresReturned (trace (exec h (syncDbSync i) w))
    (returned (outcome (exec h (syncDbSync i) w))).
Proof.
  unfold syncDbSync, setDbSyncHash, glance.EnsureJob, glance.DeleteJob.
  destruct (glance.ObjectHash KJob (glance.DbSyncJob i)) as [dbSyncHash [e |]];
    [simpl; exact I |].
  rewrite (String.eqb_sym dbSyncHash).
  destruct (String.eqb _ dbSyncHash); simpl; phase_failures.
Qed.

Lemma syncDeployment_failures (i : glancev1beta1.GlanceAPI) (c : corev1.ConfigMap) (w : W) :
  failuresReturned (trace (exec h (syncDeployment i c) w))
    (returned (outcome (exec h (syncDeployment i c) w))).
Proof.
  unfold syncDeployment, setDeploymentHash.
  destruct (glance.ObjectHash KConfigMap c) as [configMapHash [e |]]; [simpl; exact I |].
  destruct (glance.ObjectHash KDeployment _) as [deploymentHash [e |]]; [simpl; exact I |].
  rewrite (String.eqb_sym deploymentHash).
  phase_failures.
Qed.

Lemma pass_failures (req : Request) (w : W) :
  failuresReturned (trace (exec h (pass req) w)) (returned (outcome (exec h (pass req) w))).
Proof.
  unfold pass.
  apply bind_failuresReturned; [apply fetchInstance_failures |]. intros i w1.
  apply bind_failuresReturned; [apply syncPvc_failures |]. intros _ w2.
  apply bind_failuresReturned; [apply syncService_failures |]. intros _ w3.
  apply bind_failuresReturned; [apply syncConfigMap_failures |]. intros c w4.
  apply bind_failuresReturned; [apply syncSchema_failures |]. intros _ w5.
  apply bind_failuresReturned; [apply syncDbSync_failures |]. intros i' w6.
  apply syncDeployment_failures.
Qed.

Lemma failuresReturned_end (tr : list Event) (res : Result) (err : error) :
  failuresReturned tr None -> failuresReturned tr (Some (res, err)).
Proof.
  induction tr as [| e tr IH]; simpl; [tauto |].
  destruct (survivable e); [exact IH |]. intros [_ H]. discriminate H.
Qed.

(** X1.  Whatever the client, a call that fails ends the pass on the spot,
    and the pass returns the empty result with the error of that call; the
    only failures it goes on from are a fetch answered NotFound and a failed
    fetch of the ConfigMap. *)
Theorem failed_call_ends_pass :
  forall (req : Request) (w : W),
    failuresReturned (trace (exec h (Reconcile req) w))
      (Some (outcome (exec h (Reconcile req) w))).
Proof.
  intros req w. pose proof (pass_failures req w) as Hp.
  unfold Reconcile. rewrite exec_bindP.
  destruct (exec h (pass req) w) as [[[[] | res err] tr] w1];
    unfold trace, outcome in *; simpl in *; rewrite app_nil_r.
  - apply failuresReturned_end. exact Hp.
  - exact Hp.
Qed.

Lemma bind_permitted {A B : Type} (m : Pass A) (f : A -> Pass B) (w : W) :
  forallb permitted (calls (trace (exec h m w))) = true ->
  (forall a w', forallb permitted (calls (trace (exec h (f a) w'))) = true) ->
  forallb permitted (calls (trace (exec h (bind m f) w))) = true.
Proof.
  rewrite exec_bind.
  destruct (exec h m w) as [[[a | res err] tr1] w1]; unfold trace; simpl;
    intros Hm Hf; [| exact Hm].
  specialize (Hf a w1). destruct (exec h (f a) w1) as [[b tr2] w2]. simpl in *.
  unfold calls in *. rewrite map_app, forallb_app, Hm. exact Hf.
Qed.

Lemma pass_permitted (req : Request) (w : W) :
  forallb permitted (calls (trace (exec h (pass req) w))) = true.
Proof.
  unfold pass.
  apply bind_permitted.
  { unfold fetchInstance, trace. cases_on h; reflexivity. }
  intros i w1. apply bind_permitted.
  { unfold syncPvc, trace. cases_on h; reflexivity. }
  intros _ w2. apply bind_permitted.
  { unfold syncService, trace. cases_on h; reflexivity. }
  intros _ w3. apply bind_permitted.
  { unfold syncConfigMap, trace. cases_on h; reflexivity. }
  intros c w4. apply bind_permitted.
  { unfold syncSchema, unstructured.NestedBool, trace. cases_on h; reflexivity. }
  intros _ w5. apply bind_permitted.
  { unfold syncDbSync, setDbSyncHash, glance.EnsureJob, glance.DeleteJob, trace.
    cases_on h; reflexivity. }
  intros i' w6.
  unfold syncDeployment, setDeploymentHash, trace. cases_on h; reflexivity.
Qed.

Lemma reconcile_trace (req : Request) (w : W) :
  trace (exec h (Reconcile req) w) = trace (exec h (pass req) w).
Proof.
  unfold Reconcile. rewrite exec_bindP.
  destruct (exec h (pass req) w) as [[[[] | res err] tr] w1]; unfold trace; simpl;
    apply app_nil_r.
Qed.

(** X2.  Whatever the client, a pass only ever fetches, creates a PVC, a
    Service, a ConfigMap, a schema object, a job or a deployment, updates a
    ConfigMap or a deployment, updates the status of the instance, and
    deletes a job.  It never creates, updates or deletes the instance, and
    never updates or deletes a PVC, a Service or a schema object. *)
Theorem pass_calls_permitted :
  forall (req : Request) (w : W),
    forallb permitted (calls (trace (exec h (Reconcile req) w))) = true.
Proof. intros req w. rewrite reconcile_trace. apply pass_permitted. Qed.

Lemma made_app (k : Kind) (tr1 tr2 : list Event) :
  made k (tr1 ++ tr2) = (made k tr1 + made k tr2)%nat.
Proof. unfold made. rewrite filter_app, length_app. reflexivity. Qed.

Lemma bind_made {A B : Type} (m : Pass A) (f : A -> Pass B) (w : W) (k : Kind) (n1 n2 : nat) :
  (made k (trace (exec h m w)) <= n1)%nat ->
  (forall a w', (made k (trace (exec h (f a) w')) <= n2)%nat) ->
  (made k (trace (exec h (bind m f) w)) <= n1 + n2)%nat.
Proof.
  rewrite exec_bind.
  destruct (exec h m w) as [[[a | res err] tr1] w1]; unfold trace; simpl;
    intros Hm Hf; [| lia].
  specialize (Hf a w1). destruct (exec h (f a) w1) as [[b tr2] w2]. simpl in *.
  rewrite made_app. lia.
Qed.

Ltac phase_made k :=
  unfold trace, made; cases_on h; destruct k; simpl; lia.

Lemma pass_made (req : Request) (w : W) (k : Kind) :
  (made k (trace (exec h (pass req) w)) <= 1)%nat.
Proof.
  unfold pass.
  pose (one := fun k0 : Kind => if bool_decide (k = k0) then 1%nat else 0%nat).
  apply Nat.le_trans
    with (0 + (one KPvc + (one KService + (one KConfigMap
                 + (one KSchema + (one KJob + one KDeployment))))))%nat;
    [| unfold one; destruct k; simpl; lia].
  unfold one.
  apply bind_made.
  { unfold fetchInstance. phase_made k. }
  intros i w1. apply bind_made.
  { unfold syncPvc. phase_made k. }
  intros _ w2. apply bind_made.
  { unfold syncService. phase_made k. }
  intros _ w3. apply bind_made.
  { unfold syncConfigMap. phase_made k. }
  intros c w4. apply bind_made.
  { unfold syncSchema, unstructured.NestedBool. phase_made k. }
  intros _ w5. apply bind_made.
  { unfold syncDbSync, setDbSyncHash, glance.EnsureJob, glance.DeleteJob. phase_made k. }
  intros i' w6.
  unfold syncDeployment, setDeploymentHash. phase_made k.
Qed.

(** X3.  Whatever the client, a pass makes at most one create or update
    call on each kind of object: it never both creates and updates the same
    kind, and never repeats either. *)
Theorem one_create_or_update_per_kind :
  forall (req : Request) (w : W) (k : Kind),
    (made k (trace (exec h (Reconcile req) w)) <= 1)%nat.
Proof. intros req w k. rewrite reconcile_trace. apply pass_made. Qed.

(** What a phase returns, when it returns, is well shaped. *)
Lemma bind_wellShaped {A B : Type} (m : Pass A) (f : A -> Pass B) (w : W) :
  (forall out, returned (outcome (exec h m w)) = Some out -> wellShaped out) ->
  (forall a w' out, returned (outcome (exec h (f a) w')) = Some out -> wellShaped out) ->
  forall out, returned (outcome (exec h (bind m f) w)) = Some out -> wellShaped out.
Proof.
  rewrite exec_bind.
  destruct (exec h m w) as [[[a | res err] tr1] w1]; unfold outcome; simpl;
    intros Hm Hf; [| exact Hm].
  specialize (Hf a w1). destruct (exec h (f a) w1) as [[b tr2] w2]. exact Hf.
Qed.

Ltac phase_shape :=
  unfold outcome; cases_on h; intros out Hout;
  try discriminate Hout; injection Hout as <-;
  unfold wellShaped; simpl;
  (split; [reflexivity |]);
  (split; [auto |]);
  (let x := fresh "x" in
   let Hx := fresh "Hx" in
   intros x Hx; try discriminate Hx; injection Hx as <-;
   first [left; reflexivity | right; split; [reflexivity | eauto]]).

Lemma pass_wellShaped (req : Request) (w : W) (out : Result * error) :
  returned (outcome (exec h (pass req) w)) = Some out -> wellShaped out.
Proof.
  revert out. unfold pass.
  apply bind_wellShaped. { unfold fetchInstance. phase_shape. }
  intros i w1. apply bind_wellShaped. { unfold syncPvc. phase_shape. }
  intros _ w2. apply bind_wellShaped. { unfold syncService. phase_shape. }
  intros _ w3. apply bind_wellShaped. { unfold syncConfigMap. phase_shape. }
  intros c w4. apply bind_wellShaped.
  { unfold syncSchema, unstructured.NestedBool. phase_shape. }
  intros _ w5. apply bind_wellShaped.
  { unfold syncDbSync, setDbSyncHash, glance.EnsureJob, glance.DeleteJob. phase_shape. }
  intros i' w6.
  unfold syncDeployment, setDeploymentHash. phase_shape.
Qed.

(** X4.  Whatever the client, the result of a pass never has the [Requeue]
    flag set and asks for a delay of nothing, five seconds or ten seconds;
    beside an error the result is empty, but for the error of reading
    [status.completed] (line 149), which comes with a delay of five
    seconds. *)
Theorem result_well_shaped :
  forall (req : Request) (w : W), wellShaped (outcome (exec h (Reconcile req) w)).
Proof.
  intros req w. pose proof (pass_wellShaped req w) as Hp.
  unfold Reconcile. rewrite exec_bindP.
  destruct (exec h (pass req) w) as [[[[] | res err] tr] w1]; unfold outcome in *; simpl in *.
  - unfold wellShaped. simpl. repeat split; auto; intros e He; discriminate He.
  - apply Hp. reflexivity.
Qed.

(** X5.  Whatever the client, and whether or not the status write comes
    back with an error, the instance [setDbSyncHash] leaves in memory holds
    the new job hash and is otherwise the instance it was given; the write,
    when there is one, sends that very instance and its error is what the
    helper returns; and a second call with the same hash on the instance
    left in memory makes no call at all.  The same holds of
    [setDeploymentHash] and the deployment hash. *)
Theorem set_hash_in_memory :
  forall (api : glancev1beta1.GlanceAPI) (hashStr : string) (w : W),
    (let x := exec h (setDbSyncHash api hashStr) w in
     let api' := fst (outcome x) in
     glancev1beta1.DbSyncHash (glancev1beta1.Status api') = hashStr
     /\ api' = withDbSyncHash api hashStr
     /\ ((trace x = [] /\ snd (outcome x) = None)
         \/ trace x = [Ev (StatusUpdate KGlanceAPI api') (snd (outcome x))])
     /\ forall w', exec h (setDbSyncHash api' hashStr) w' = ((api', None), [], w'))
    /\ (let x := exec h (setDeploymentHash api hashStr) w in
        let api' := fst (outcome x) in
        glancev1beta1.DeploymentHash (glancev1beta1.Status api') = hashStr
        /\ api' = withDeploymentHash api hashStr
        /\ ((trace x = [] /\ snd (outcome x) = None)
            \/ trace x = [Ev (StatusUpdate KGlanceAPI api') (snd (outcome x))])
        /\ forall w', exec h (setDeploymentHash api' hashStr) w' = ((api', None), [], w')).
Proof.
  intros api hashStr w. unfold setDbSyncHash, setDeploymentHash, outcome, trace.
  split.
  - destruct (String.eqb hashStr _) eqn:E; simpl.
    + apply String.eqb_eq in E. rewrite <- E. rewrite String.eqb_refl.
      destruct api as [m sp [d1 d2]]. simpl in *. subst d1. repeat split; auto.
    + reply h. destruct r; simpl; rewrite String.eqb_refl; simpl; repeat split; auto.
  - destruct (String.eqb hashStr _) eqn:E; simpl.
    + apply String.eqb_eq in E. rewrite <- E. rewrite String.eqb_refl.
      destruct api as [m sp [d1 d2]]. simpl in *. subst d2. repeat split; auto.
    + reply h. destruct r; simpl; rewrite String.eqb_refl; simpl; repeat split; auto.
Qed.


Lemma afterJobHash_app (s : Progress) (tr1 tr2 : list Event) :
  afterJobHash s (tr1 ++ tr2)
  = afterJobHash s tr1 && afterJobHash (progressAfter s tr1) tr2.
Proof.
  revert s. induction tr1 as [| e tr1 IH]; intros s; simpl; [reflexivity |].
  rewrite IH, andb_assoc. reflexivity.
Qed.

Lemma quiet_no_progress (s : Progress) (tr : list Event) :
  quiet tr = true -> progressAfter s tr = s /\ afterJobHash s tr = true.
Proof.
  induction tr as [| e tr IH]; simpl; [split; reflexivity |].
  intros Hq. apply andb_prop in Hq as [He Htr]. destruct (IH Htr) as [IH1 IH2].
  assert (Hadv : advance s e = (s, true)).
  { destruct e as [R c r]. destruct c as [k ? ? | k ? | k ? | k ? | k ?];
      destruct k; simpl in He; try discriminate He; reflexivity. }
  unfold progressAfter in *. simpl. rewrite Hadv. simpl. split; assumption.
Qed.

Lemma bind_afterJobHash {A B : Type} (m : Pass A) (f : A -> Pass B) (s : Progress) (w : W) :
  afterJobHash s (trace (exec h m w)) = true ->
  (forall a, outcome (exec h m w) = Next a ->
     afterJobHash (progressAfter s (trace (exec h m w)))
       (trace (exec h (f a) (final (exec h m w)))) = true) ->
  afterJobHash s (trace (exec h (bind m f) w)) = true.
Proof.
  rewrite exec_bind.
  destruct (exec h m w) as [[[a | res err] tr1] w1]; unfold trace, outcome, final; simpl;
    intros Hm Hf; [| exact Hm].
  specialize (Hf a eq_refl).
  destruct (exec h (f a) w1) as [[b tr2] w2]. simpl in *.
  rewrite afterJobHash_app, Hm. exact Hf.
Qed.

Lemma bind_quiet_afterJobHash {A B : Type} (m : Pass A) (f : A -> Pass B)
    (s : Progress) (w : W) :
  quiet (trace (exec h m w)) = true ->
  (forall a, afterJobHash s (trace (exec h (f a) (final (exec h m w)))) = true) ->
  afterJobHash s (trace (exec h (bind m f) w)) = true.
Proof.
  intros Hq Hf. destruct (quiet_no_progress s _ Hq) as [Hs Hok].
  apply bind_afterJobHash; [exact Hok |]. intros a _. rewrite Hs. apply Hf.
Qed.

Lemma phase_quiet (i : glancev1beta1.GlanceAPI) (w : W) :
  quiet (trace (exec h (syncPvc i) w)) = true
  /\ quiet (trace (exec h (syncService i) w)) = true
  /\ quiet (trace (exec h (syncConfigMap i) w)) = true
  /\ quiet (trace (exec h (syncSchema i) w)) = true.
Proof.
  unfold syncPvc, syncService, syncConfigMap, syncSchema, unstructured.NestedBool, trace.
  repeat split; cases_on h; reflexivity.
Qed.

Lemma fetchInstance_progress (req : Request) (w : W) :
  afterJobHash noProgress (trace (exec h (fetchInstance req) w)) = true
  /\ forall i, outcome (exec h (fetchInstance req) w) = Next i ->
       progressAfter noProgress (trace (exec h (fetchInstance req) w))
       = {| pInstance := Some i; pRecorded := None |}.
Proof.
  unfold fetchInstance, trace, outcome, progressAfter. cases_on h.
  all: split; [reflexivity | intros i Hi; try discriminate Hi].
  injection Hi as <-. reflexivity.
Qed.

Lemma syncDbSync_progress (i : glancev1beta1.GlanceAPI) (w : W) :
  let s := {| pInstance := Some i; pRecorded := None |} in
  afterJobHash s (trace (exec h (syncDbSync i) w)) = true
  /\ forall i', outcome (exec h (syncDbSync i) w) = Next i' ->
       jobHashRecorded (progressAfter s (trace (exec h (syncDbSync i) w))) = true.
Proof.
  unfold syncDbSync, setDbSyncHash, glance.EnsureJob, glance.DeleteJob, trace, outcome,
    progressAfter, jobHashRecorded.
  destruct (glance.ObjectHash KJob (glance.DbSyncJob i)) as [dbSyncHash [e |]] eqn:Hhash.
  { simpl. split; [reflexivity | discriminate]. }
  rewrite (String.eqb_sym dbSyncHash).
  destruct (String.eqb _ dbSyncHash) eqn:Heq; simpl.
  - cases_on h.
    all: try discriminate Hhash.
    all: try (injection Hhash as ->).
    all: try congruence.
    all: try match goal with
             | H : String.eqb ?a ?a = false |- _ =>
                 rewrite String.eqb_refl in H; discriminate H
             end.
    all: unfold jobHashRecorded; simpl;
      repeat match goal with
             | H : glance.ObjectHash _ _ = _ |- _ => rewrite H
             | H : String.eqb _ _ = _ |- _ => rewrite H
             end;
      rewrite ?String.eqb_refl; simpl.
    all: split; [reflexivity | intros i' Hi'; try discriminate Hi'; reflexivity].
  - cases_on h.
    all: try discriminate Hhash.
    all: try (injection Hhash as ->).
    all: try congruence.
    all: try match goal with
             | H : String.eqb ?a ?a = false |- _ =>
                 rewrite String.eqb_refl in H; discriminate H
             end.
    all: unfold jobHashRecorded; simpl;
      repeat match goal with
             | H : glance.ObjectHash _ _ = _ |- _ => rewrite H
             | H : String.eqb _ _ = _ |- _ => rewrite H
             end;
      rewrite ?String.eqb_refl; simpl.
    all: split; [reflexivity | intros i' Hi'; try discriminate Hi'; reflexivity].
Qed.

Lemma syncDeployment_progress (i : glancev1beta1.GlanceAPI) (c : corev1.ConfigMap)
    (s : Progress) (w : W) :
  jobHashRecorded s = true ->
  afterJobHash s (trace (exec h (syncDeployment i c) w)) = true.
Proof.
  intros Hs. unfold syncDeployment, setDeploymentHash, trace.
  destruct (glance.ObjectHash KConfigMap c) as [configMapHash [e |]]; [reflexivity |].
  destruct (glance.ObjectHash KDeployment _) as [deploymentHash [e |]]; [reflexivity |].
  rewrite (String.eqb_sym deploymentHash).
  cases_on h; rewrite ?Hs; reflexivity.
Qed.

(** X7.  Whatever the client, a pass deletes the job, and creates or updates
    the deployment, only once the hash of the job is recorded: it was in the
    Status as fetched, or a status write carrying it has come back nil
    earlier in the pass. *)
Theorem job_hash_recorded_first :
  forall (req : Request) (w : W),
    afterJobHash noProgress (trace (exec h (Reconcile req) w)) = true.
Proof.
  intros req w. rewrite reconcile_trace. unfold pass.
  destruct (fetchInstance_progress req w) as [Hok0 Hs0].
  apply bind_afterJobHash; [exact Hok0 |]. intros i Hi. rewrite (Hs0 i Hi).
  apply bind_quiet_afterJobHash; [apply phase_quiet |]. intros _.
  apply bind_quiet_afterJobHash; [apply phase_quiet |]. intros _.
  apply bind_quiet_afterJobHash; [apply phase_quiet |]. intros c.
  apply bind_quiet_afterJobHash; [apply phase_quiet |]. intros _.
  match goal with
  | |- context [exec h (bind (syncDbSync i) _) ?w0] =>
      destruct (syncDbSync_progress i w0) as [Hok5 Hrec]
  end.
  apply bind_afterJobHash; [exact Hok5 |]. intros i' Hi'.
  apply syncDeployment_progress. exact (Hrec i' Hi').
Qed.

(** The monitor does reject a deployment created before the job hash is
    recorded. *)
Example early_deployment_rejected :
  afterJobHash (G:=sample.templates) noProgress
    [found KGlanceAPI (NamespacedName sample.req) sample.instance;
     done (Create KDeployment (sample.Deployment sample.instance ""))]
  = false.
Proof. reflexivity. Qed.

Lemma gateKept_app (open : bool) (tr1 tr2 : list Event) :
  gateKept open (tr1 ++ tr2) = gateKept open tr1 && gateKept (openAfter open tr1) tr2.
Proof.
  revert open. induction tr1 as [| e tr1 IH]; intros open; simpl; [reflexivity |].
  rewrite IH, andb_assoc. reflexivity.
Qed.

Lemma gateKept_open (tr : list Event) : gateKept true tr = true.
Proof.
  induction tr as [| e tr IH]; simpl; [reflexivity |].
  rewrite orb_true_r. exact IH.
Qed.

Lemma bind_gateKept {A B : Type} (m : Pass A) (f : A -> Pass B) (open : bool) (w : W) :
  gateKept open (trace (exec h m w)) = true ->
  (forall a, outcome (exec h m w) = Next a ->
     gateKept (openAfter open (trace (exec h m w)))
       (trace (exec h (f a) (final (exec h m w)))) = true) ->
  gateKept open (trace (exec h (bind m f) w)) = true.
Proof.
  rewrite exec_bind.
  destruct (exec h m w) as [[[a | res err] tr1] w1]; unfold trace, outcome, final; simpl;
    intros Hm Hf; [| exact Hm].
  specialize (Hf a eq_refl).
  destruct (exec h (f a) w1) as [[b tr2] w2]. simpl in *.
  rewrite gateKept_app, Hm. exact Hf.
Qed.

Lemma syncSchema_gate (i : glancev1beta1.GlanceAPI) (open : bool) (w : W) :
  gateKept open (trace (exec h (syncSchema i) w)) = true
  /\ forall u, outcome (exec h (syncSchema i) w) = Next u ->
       openAfter open (trace (exec h (syncSchema i) w)) = true.
Proof.
  unfold syncSchema, unstructured.NestedBool, trace, outcome, openAfter.
  cases_on h.
  all: split; [reflexivity | intros tt0 Hu; try discriminate Hu].
  all: unfold unstructured.NestedBool; simpl;
    repeat match goal with
           | H : unstructured.statusCompleted _ = _ |- _ => rewrite H
           end;
    simpl; apply orb_true_r.
Qed.

(** X8.  Whatever the client, no call on a job or on a deployment and no
    status write is made in a pass before the schema object has been
    fetched with [status.completed] true, or has been created in this very
    pass. *)
Theorem schema_gate_kept :
  forall (req : Request) (w : W),
    gateKept false (trace (exec h (Reconcile req) w)) = true.
Proof.
  intros req w. rewrite reconcile_trace. unfold pass.
  apply bind_gateKept.
  { unfold fetchInstance, trace. cases_on h; reflexivity. }
  intros i _. generalize (openAfter false (trace (exec h (fetchInstance req) w))).
  intros o1. apply bind_gateKept.
  { unfold syncPvc, trace. cases_on h; destruct o1; reflexivity. }
  intros _ _. match goal with |- context [openAfter o1 ?t] => generalize (openAfter o1 t) end.
  intros o2. apply bind_gateKept.
  { unfold syncService, trace. cases_on h; destruct o2; reflexivity. }
  intros _ _. match goal with |- context [openAfter o2 ?t] => generalize (openAfter o2 t) end.
  intros o3. apply bind_gateKept.
  { unfold syncConfigMap, trace. cases_on h; destruct o3; reflexivity. }
  intros c _. match goal with |- context [openAfter o3 ?t] => generalize (openAfter o3 t) end.
  intros o4.
  match goal with
  | |- context [exec h (bind (syncSchema i) _) ?w0] =>
      destruct (syncSchema_gate i o4 w0) as [Hok Hopen]
  end.
  apply bind_gateKept; [exact Hok |]. intros u Hu. rewrite (Hopen u Hu).
  apply gateKept_open.
Qed.
End EveryClientMore.

(** ** More runs against the reference API server *)

Section OnApiserverMore.
Context {G : glance.Templates}.
Import apiserver apiserver_facts.

(** X9.  Against a healthy server that holds the instance and all it needs,
    with the job hash recorded and the job gone, but with a deployment hash
    in Status that is not the hash of the desired deployment, one pass
    sends the live deployment back with the desired spec, records the new
    hash and asks for a requeue after ten seconds.  It leaves the
    deployment with the desired spec and the status it had, and the
    instance with the new deployment hash and the job hash it had. *)
Theorem deployment_drift_rolled_out :
  forall (req : Request) (i : glancev1beta1.GlanceAPI) (p : corev1.PersistentVolumeClaim)
         (s : corev1.Service) (c : corev1.ConfigMap)
         (schemaObj u : unstructured.Unstructured)
         (configMapHash deploymentHash : string) (d : appsv1.Deployment) (w : World),
    healthy w ->
    find KGlanceAPI (NamespacedName req) w = Some i ->
    keyOf (k:=KGlanceAPI) i = NamespacedName req ->
    find KPvc (keyOf (k:=KPvc) (glance.Pvc i)) w = Some p ->
    find KService (keyOf (k:=KService) (glance.Service i)) w = Some s ->
    find KConfigMap (keyOf (k:=KConfigMap) (glance.ConfigMap i)) w = Some c ->
    corev1.Data c = corev1.Data (glance.ConfigMap i) ->
    glance.SchemaObject i = (schemaObj, None) ->
    find KSchema (keyOf (k:=KSchema) schemaObj) w = Some u ->
    unstructured.statusCompleted u = unstructured.BoolValue true ->
    glance.ObjectHash KJob (glance.DbSyncJob i)
    = (glancev1beta1.DbSyncHash (glancev1beta1.Status i), None) ->
    find KJob (keyOf (k:=KJob) (glance.DbSyncJob i)) w = None ->
    glance.ObjectHash KConfigMap (glance.ConfigMap i) = (configMapHash, None) ->
    glance.ObjectHash KDeployment (glance.Deployment i configMapHash)
    = (deploymentHash, None) ->
    glancev1beta1.DeploymentHash (glancev1beta1.Status i) <> deploymentHash ->
    find KDeployment (keyOf (k:=KDeployment) (glance.Deployment i configMapHash)) w
    = Some d ->
    keyOf (k:=KDeployment) d = keyOf (k:=KDeployment) (glance.Deployment i configMapHash) ->
    let x := exec handle (Reconcile req) w in
    outcome x = (requeueAfter (Second * 10), None)
    /\ calls (trace x)
       = [(VGet, KGlanceAPI); (VGet, KPvc); (VGet, KService); (VGet, KConfigMap);
          (VGet, KSchema); (VGet, KJob); (VGet, KDeployment); (VUpdate, KDeployment);
          (VStatusUpdate, KGlanceAPI)]
    /\ find KDeployment (keyOf (k:=KDeployment) (glance.Deployment i configMapHash)) (final x)
       = Some {| appsv1.depMeta := appsv1.depMeta d;
                 appsv1.Spec := appsv1.Spec (glance.Deployment i configMapHash);
                 appsv1.Status := appsv1.Status d |}
    /\ find KGlanceAPI (NamespacedName req) (final x)
       = Some (withDeploymentHash i deploymentHash).
Proof.
  intros req i p s c schemaObj u configMapHash deploymentHash d w
    Hh Hi Hkey Hp Hs Hc Hdata Hschema Hu Hdone Hjob Hnojob Hcm Hdep Hne Hd Hkd x.
  assert (Hi' : find KGlanceAPI (keyOf (k:=KGlanceAPI) i) w = Some i)
    by (rewrite Hkey; exact Hi).
  assert (Hx : x = ((requeueAfter (Second * 10), None),
                    [found KGlanceAPI (NamespacedName req) i;
                     found KPvc (keyOf (k:=KPvc) (glance.Pvc i)) p;
                     found KService (keyOf (k:=KService) (glance.Service i)) s;
                     found KConfigMap (keyOf (k:=KConfigMap) (glance.ConfigMap i)) c;
                     Ev (Get KSchema (keyOf (k:=KSchema) schemaObj) (schemaInto schemaObj))
                        (u, None);
                     missing KJob (keyOf (k:=KJob) (glance.DbSyncJob i));
                     found KDeployment
                       (keyOf (k:=KDeployment) (glance.Deployment i configMapHash)) d;
                     done (Update KDeployment
                             (withSpec d (glance.Deployment i configMapHash)));
                     done (StatusUpdate KGlanceAPI (withDeploymentHash i deploymentHash))],
                    put KGlanceAPI
                      (keepStatus KGlanceAPI i (withDeploymentHash i deploymentHash))
                      (put KDeployment
                         (keepStatus KDeployment
                            (withSpec d (glance.Deployment i configMapHash)) d) w))).
  { unfold x, Reconcile, pass. rewrite exec_bindP.
    rewrite exec_bind, (fetch_present req i w Hh Hi). cbv beta iota.
    rewrite exec_bind, (pvc_present i p w Hh Hp). cbv beta iota.
    rewrite exec_bind, (service_present i s w Hh Hs). cbv beta iota.
    rewrite exec_bind, (configmap_same i c w Hh Hc Hdata). cbv beta iota.
    rewrite exec_bind, (schema_present i schemaObj u w Hh Hschema Hu).
    unfold unstructured.NestedBool. rewrite Hdone. cbv beta iota. simpl fst.
    cbv beta iota.
    rewrite exec_bind, (dbsync_skip_absent i w Hh Hjob Hnojob). cbv beta iota.
    rewrite (deployment_changed i i _ configMapHash deploymentHash d w
               Hh Hcm Hdep Hd Hkd Hne Hi').
    reflexivity. }
  rewrite Hx. unfold outcome, trace, final. simpl fst. simpl snd.
  repeat split.
  - rewrite find_put_kind by discriminate. apply find_put_at. rewrite <- Hkd. reflexivity.
  - apply find_put_at. rewrite <- Hkey. reflexivity.
Qed.

(** X10.  Against a healthy server that holds the instance and all it
    needs, with both hashes recorded and the job gone, a pass makes seven
    fetches and nothing else and leaves the store as it is; it returns the
    empty result when the ready replicas of the deployment equal the
    replicas of the instance, and asks for a requeue after five seconds when
    they do not. *)
Theorem converged_waits_for_replicas :
  forall (req : Request) (i : glancev1beta1.GlanceAPI) (p : corev1.PersistentVolumeClaim)
         (s : corev1.Service) (c : corev1.ConfigMap)
         (schemaObj u : unstructured.Unstructured) (configMapHash : string)
         (d : appsv1.Deployment) (w : World),
    healthy w ->
    find KGlanceAPI (NamespacedName req) w = Some i ->
    find KPvc (keyOf (k:=KPvc) (glance.Pvc i)) w = Some p ->
    find KService (keyOf (k:=KService) (glance.Service i)) w = Some s ->
    find KConfigMap (keyOf (k:=KConfigMap) (glance.ConfigMap i)) w = Some c ->
    corev1.Data c = corev1.Data (glance.ConfigMap i) ->
    glance.SchemaObject i = (schemaObj, None) ->
    find KSchema (keyOf (k:=KSchema) schemaObj) w = Some u ->
    unstructured.statusCompleted u = unstructured.BoolValue true ->
    glance.ObjectHash KJob (glance.DbSyncJob i)
    = (glancev1beta1.DbSyncHash (glancev1beta1.Status i), None) ->
    find KJob (keyOf (k:=KJob) (glance.DbSyncJob i)) w = None ->
    glance.ObjectHash KConfigMap (glance.ConfigMap i) = (configMapHash, None) ->
    glance.ObjectHash KDeployment (glance.Deployment i configMapHash)
    = (glancev1beta1.DeploymentHash (glancev1beta1.Status i), None) ->
    find KDeployment (keyOf (k:=KDeployment) (glance.Deployment i configMapHash)) w
    = Some d ->
    let x := exec handle (Reconcile req) w in
    outcome x
    = (if Z.eqb (appsv1.ReadyReplicas (appsv1.Status d))
                (glancev1beta1.Replicas (glancev1beta1.Spec i))
       then (noRequeue, None) else (requeueAfter (Second * 5), None))
    /\ calls (trace x)
       = [(VGet, KGlanceAPI); (VGet, KPvc); (VGet, KService); (VGet, KConfigMap);
          (VGet, KSchema); (VGet, KJob); (VGet, KDeployment)]
    /\ final x = w.
Proof.
  intros req i p s c schemaObj u configMapHash d w
    Hh Hi Hp Hs Hc Hdata Hschema Hu Hdone Hjob Hnojob Hcm Hdep Hd x.
  unfold x, Reconcile, pass. rewrite exec_bindP.
  rewrite exec_bind, (fetch_present req i w Hh Hi). cbv beta iota.
  rewrite exec_bind, (pvc_present i p w Hh Hp). cbv beta iota.
  rewrite exec_bind, (service_present i s w Hh Hs). cbv beta iota.
  rewrite exec_bind, (configmap_same i c w Hh Hc Hdata). cbv beta iota.
  rewrite exec_bind, (schema_present i schemaObj u w Hh Hschema Hu).
  unfold unstructured.NestedBool. rewrite Hdone. cbv beta iota. simpl fst.
  cbv beta iota.
  rewrite exec_bind, (dbsync_skip_absent i w Hh Hjob Hnojob). cbv beta iota.
  rewrite (deployment_settled i _ configMapHash d w Hh Hcm Hdep Hd).
  destruct (Z.eqb _ _); repeat split.
Qed.

(** X11.  Against a healthy server that holds the instance but not its PVC,
    a pass fetches the instance, misses the PVC, creates it and asks for a
    requeue after five seconds, whatever else the store holds: it makes no
    call on any other kind, and every other object is left as it is.  With
    the PVC there and the Service missing, the same holds of the Service. *)
Theorem first_missing_created_alone :
  forall (req : Request) (i : glancev1beta1.GlanceAPI) (w : World),
    healthy w ->
    find KGlanceAPI (NamespacedName req) w = Some i ->
    (find KPvc (keyOf (k:=KPvc) (glance.Pvc i)) w = None ->
     let x := exec handle (Reconcile req) w in
     outcome x = (requeueAfter (Second * 5), None)
     /\ calls (trace x) = [(VGet, KGlanceAPI); (VGet, KPvc); (VCreate, KPvc)]
     /\ find KPvc (keyOf (k:=KPvc) (glance.Pvc i)) (final x) = Some (glance.Pvc i)
     /\ forall k key, k <> KPvc -> find k key (final x) = find k key w)
    /\ (forall p, find KPvc (keyOf (k:=KPvc) (glance.Pvc i)) w = Some p ->
        find KService (keyOf (k:=KService) (glance.Service i)) w = None ->
        let x := exec handle (Reconcile req) w in
        outcome x = (requeueAfter (Second * 5), None)
        /\ calls (trace x)
           = [(VGet, KGlanceAPI); (VGet, KPvc); (VGet, KService); (VCreate, KService)]
        /\ find KService (keyOf (k:=KService) (glance.Service i)) (final x)
           = Some (glance.Service i)
        /\ forall k key, k <> KService -> find k key (final x) = find k key w).
Proof.
  intros req i w Hh Hi. split.
  - intros Hp x. unfold x, Reconcile, pass. rewrite exec_bindP.
    rewrite exec_bind, (fetch_present req i w Hh Hi). cbv beta iota.
    rewrite exec_bind, (pvc_absent i w Hh Hp). cbv beta iota.
    unfold outcome, trace, final. simpl fst. simpl snd. repeat split.
    + apply find_put_at. reflexivity.
    + intros k key Hk. apply find_put_kind. exact Hk.
  - intros p Hp Hs x. unfold x, Reconcile, pass. rewrite exec_bindP.
    rewrite exec_bind, (fetch_present req i w Hh Hi). cbv beta iota.
    rewrite exec_bind, (pvc_present i p w Hh Hp). cbv beta iota.
    rewrite exec_bind, (service_absent i w Hh Hs). cbv beta iota.
    unfold outcome, trace, final. simpl fst. simpl snd. repeat split.
    + apply find_put_at. reflexivity.
    + intros k key Hk. apply find_put_kind. exact Hk.
Qed.
End OnApiserverMore.

(** ** A pass on a store that serves every call *)

Section NoSpuriousFailure.
Context {G : glance.Templates}.
Import apiserver apiserver_facts.

Lemma addr_inj (key key' : types.NamespacedName) : addr key = addr key' -> key = key'.
Proof. destruct key, key'. unfold addr. simpl. intros H. injection H as -> ->. reflexivity. Qed.

Lemma find_put_same (k : Kind) (o : objT k) (key : types.NamespacedName) (w : World) :
  find k key (put k o w)
  = if decide (addr (keyOf o) = addr key) then Some o else find k key w.
Proof. unfold find, put. destruct k; simpl; apply lookup_insert. Qed.

Lemma find_remove_same (k : Kind) (o : objT k) (key : types.NamespacedName) (w : World) :
  find k key (remove k o w)
  = if decide (addr (keyOf o) = addr key) then None else find k key w.
Proof. unfold find, remove. destruct k; simpl; apply lookup_delete. Qed.

Lemma wellKeyed_put (k : Kind) (o : objT k) (w : World) :
  wellKeyed w -> wellKeyed (put k o w).
Proof.
  intros Hw k' key o' Hf. destruct (decide (k' = k)) as [-> | Hk].
  - rewrite find_put_same in Hf. destruct (decide _) as [Ha | _].
    + injection Hf as <-. apply addr_inj. exact Ha.
    + exact (Hw _ _ _ Hf).
  - rewrite find_put_kind in Hf by exact Hk. exact (Hw _ _ _ Hf).
Qed.

Lemma wellKeyed_remove (k : Kind) (o : objT k) (w : World) :
  wellKeyed w -> wellKeyed (remove k o w).
Proof.
  intros Hw k' key o' Hf. destruct (decide (k' = k)) as [-> | Hk].
  - rewrite find_remove_same in Hf. destruct (decide _); [discriminate Hf |].
    exact (Hw _ _ _ Hf).
  - rewrite find_remove_kind in Hf by exact Hk. exact (Hw _ _ _ Hf).
Qed.

Lemma wellKeyed_empty : wellKeyed empty.
Proof. intros k key o Hf. rewrite find_empty in Hf. discriminate Hf. Qed.

Ltac sound_tac Hwk :=
  unfold sound, final; simpl snd;
  repeat split;
  [ healthy_tac
  | repeat first [apply wellKeyed_put | apply wellKeyed_remove]; assumption
  | strip; first [ assumption | eexists; eassumption
                 | eexists; apply find_put_at; auto ] ].

Ltac no_error := intros ? ? Herr; discriminate Herr.

Lemma calm_pvc (key : types.NamespacedName) (i : glancev1beta1.GlanceAPI) (w : World) :
  sound key w ->
  sound key (final (exec handle (syncPvc i) w))
  /\ failsOnItsOwn (outcome (exec handle (syncPvc i) w)).
Proof.
  intros (Hh & Hwk & Hin).
  destruct (find KPvc (keyOf (k:=KPvc) (glance.Pvc i)) w) as [p |] eqn:E.
  - rewrite (pvc_present i p w Hh E). split; [sound_tac Hwk | no_error].
  - rewrite (pvc_absent i w Hh E). split; [sound_tac Hwk | no_error].
Qed.

Lemma calm_service (key : types.NamespacedName) (i : glancev1beta1.GlanceAPI) (w : World) :
  sound key w ->
  sound key (final (exec handle (syncService i) w))
  /\ failsOnItsOwn (outcome (exec handle (syncService i) w)).
Proof.
  intros (Hh & Hwk & Hin).
  destruct (find KService (keyOf (k:=KService) (glance.Service i)) w) as [p |] eqn:E.
  - rewrite (service_present i p w Hh E). split; [sound_tac Hwk | no_error].
  - rewrite (service_absent i w Hh E). split; [sound_tac Hwk | no_error].
Qed.

Lemma calm_configmap (key : types.NamespacedName) (i : glancev1beta1.GlanceAPI) (w : World) :
  sound key w ->
  sound key (final (exec handle (syncConfigMap i) w))
  /\ failsOnItsOwn (outcome (exec handle (syncConfigMap i) w)).
Proof.
  intros (Hh & Hwk & Hin).
  destruct (find KConfigMap (keyOf (k:=KConfigMap) (glance.ConfigMap i)) w) as [c |] eqn:E.
  - destruct (decide (corev1.Data c = corev1.Data (glance.ConfigMap i))) as [Hd | Hd].
    + rewrite (configmap_same i c w Hh E Hd). split; [sound_tac Hwk | no_error].
    + rewrite (configmap_drift i c w Hh E (Hwk _ _ _ E) Hd).
      split; [sound_tac Hwk | no_error].
  - rewrite (configmap_absent i w Hh E). split; [sound_tac Hwk | no_error].
Qed.

Lemma calm_schema (key : types.NamespacedName) (i : glancev1beta1.GlanceAPI) (w : World) :
  sound key w ->
  sound key (final (exec handle (syncSchema i) w))
  /\ failsOnItsOwn (outcome (exec handle (syncSchema i) w)).
Proof.
  intros (Hh & Hwk & Hin).
  destruct (glance.SchemaObject i) as [schemaObj [e |]] eqn:Hs.
  - unfold syncSchema. rewrite Hs. simpl. split; [sound_tac Hwk |].
    intros res e0 H. injection H as _ <-. right. left. exists i. rewrite Hs. reflexivity.
  - destruct (find KSchema (keyOf (k:=KSchema) schemaObj) w) as [u |] eqn:E.
    + rewrite (schema_present i schemaObj u w Hh Hs E). split; [sound_tac Hwk |].
      unfold unstructured.NestedBool.
      destruct (unstructured.statusCompleted u) as [| [|] | |]; simpl;
        intros res e0 H; try discriminate H; injection H as _ <-;
        right; right; left; eauto.
    + rewrite (schema_absent i schemaObj w Hh Hs E). split; [sound_tac Hwk | no_error].
Qed.

Lemma calm_dbsync (i : glancev1beta1.GlanceAPI) (w : World) :
  sound (keyOf (k:=KGlanceAPI) i) w ->
  sound (keyOf (k:=KGlanceAPI) i) (final (exec handle (syncDbSync i) w))
  /\ failsOnItsOwn (outcome (exec handle (syncDbSync i) w))
  /\ forall i', outcome (exec handle (syncDbSync i) w) = Next i' ->
       keyOf (k:=KGlanceAPI) i' = keyOf (k:=KGlanceAPI) i.
Proof.
  intros (Hh & Hwk & [old Hold]).
  destruct (glance.ObjectHash KJob (glance.DbSyncJob i)) as [dbSyncHash [e |]] eqn:Hhash.
  { unfold syncDbSync. rewrite Hhash. simpl.
    split; [sound_tac Hwk | split; [| intros i' H; discriminate H]].
    intros res e0 H. injection H as _ <-. left. eauto. }
  destruct (String.eqb (glancev1beta1.DbSyncHash (glancev1beta1.Status i)) dbSyncHash)
    eqn:Heq.
  - apply String.eqb_eq in Heq. subst dbSyncHash.
    destruct (find KJob (keyOf (k:=KJob) (glance.DbSyncJob i)) w) as [j |] eqn:E.
    + rewrite (dbsync_skip_present i j w Hh Hhash E (Hwk _ _ _ E)).
      split; [sound_tac Hwk | split; [no_error |]].
      intros i' H. injection H as <-. reflexivity.
    + rewrite (dbsync_skip_absent i w Hh Hhash E).
      split; [sound_tac Hwk | split; [no_error |]].
      intros i' H. injection H as <-. reflexivity.
  - assert (Hne : glancev1beta1.DbSyncHash (glancev1beta1.Status i) <> dbSyncHash)
      by (apply String.eqb_neq; exact Heq).
    destruct (find KJob (keyOf (k:=KJob) (glance.DbSyncJob i)) w) as [j |] eqn:E.
    + destruct (batchv1.jobState j) eqn:Hst.
      * rewrite (dbsync_running i dbSyncHash j w Hh Hhash Hne E Hst).
        split; [sound_tac Hwk | split; [no_error | intros i' H; discriminate H]].
      * rewrite (dbsync_succeeded i old dbSyncHash j w Hh Hhash Hne E (Hwk _ _ _ E) Hst Hold).
        split; [| split; [no_error | intros i' H; injection H as <-; reflexivity]].
        unfold sound, final; simpl snd.
        repeat split;
          [ healthy_tac
          | repeat first [apply wellKeyed_put | apply wellKeyed_remove]; assumption
          | rewrite find_remove_kind by discriminate; eexists; apply find_put_at ].
        rewrite <- (Hwk _ _ _ Hold). reflexivity.
      * unfold syncDbSync, glance.EnsureJob. rewrite Hhash, Heq. simpl.
        rewrite (get_found KJob _ _ _ _ Hh E). simpl. rewrite Hst. simpl.
        split; [sound_tac Hwk | split; [| intros i' H; discriminate H]].
        intros res e0 H. injection H as _ <-. right. right. right. reflexivity.
    + rewrite (dbsync_start i dbSyncHash w Hh Hhash Hne E).
      split; [sound_tac Hwk | split; [no_error | intros i' H; discriminate H]].
Qed.

Lemma calm_deployment (i : glancev1beta1.GlanceAPI) (c : corev1.ConfigMap) (w : World) :
  sound (keyOf (k:=KGlanceAPI) i) w ->
  failsOnItsOwn (outcome (exec handle (syncDeployment i c) w)).
Proof.
  intros (Hh & Hwk & [old Hold]).
  destruct (glance.ObjectHash KConfigMap c) as [configMapHash [e |]] eqn:Hc.
  { unfold syncDeployment. rewrite Hc. simpl.
    intros res e0 H. injection H as _ <-. left. eauto. }
  destruct (glance.ObjectHash KDeployment (glance.Deployment i configMapHash))
    as [deploymentHash [e |]] eqn:Hd.
  { unfold syncDeployment. rewrite Hc, Hd. simpl.
    intros res e0 H. injection H as _ <-. left. eauto. }
  destruct (find KDeployment (keyOf (k:=KDeployment) (glance.Deployment i configMapHash)) w)
    as [d |] eqn:E.
  - destruct (String.eqb (glancev1beta1.DeploymentHash (glancev1beta1.Status i))
                deploymentHash) eqn:Heq.
    + apply String.eqb_eq in Heq. subst deploymentHash.
      rewrite (deployment_settled i c configMapHash d w Hh Hc Hd E).
      destruct (Z.eqb _ _); no_error.
    + apply String.eqb_neq in Heq.
      rewrite (deployment_changed i old c configMapHash deploymentHash d w
                 Hh Hc Hd E (Hwk _ _ _ E) Heq Hold).
      no_error.
  - rewrite (deployment_absent i c configMapHash deploymentHash w Hh Hc Hd E). no_error.
Qed.

Lemma bind_failsOnItsOwn {A B : Type} (m : Pass A) (f : A -> Pass B) (w : World) :
  failsOnItsOwn (outcome (exec handle m w)) ->
  (forall a, outcome (exec handle m w) = Next a ->
             failsOnItsOwn (outcome (exec handle (f a) (final (exec handle m w))))) ->
  failsOnItsOwn (outcome (exec handle (bind m f) w)).
Proof.
  rewrite exec_bind.
  destruct (exec handle m w) as [[[a | res err] tr1] w1]; unfold outcome, final; simpl;
    intros Hm Hf.
  - specialize (Hf a eq_refl).
    destruct (exec handle (f a) w1) as [[b tr2] w2]. exact Hf.
  - intros res0 e H. injection H as -> ->. exact (Hm _ _ eq_refl).
Qed.

(** X12.  Against a server that serves every call, on a store that keeps
    every object under its own name, a pass returns an error only for a
    reason of its own: a hash that could not be computed, a schema object
    that could not be built, a [status.completed] that could not be read,
    or a job that failed. *)
Theorem pass_fails_only_on_its_own :
  forall (req : Request) (w : World) (res : Result) (e : Err),
    healthy w -> wellKeyed w ->
    outcome (exec handle (Reconcile req) w) = (res, Some e) ->
    ownFailure e.
Proof.
  intros req w res e Hh Hwk.
  assert (Hpass : failsOnItsOwn (outcome (exec handle (pass req) w))).
  { unfold pass.
    destruct (find KGlanceAPI (NamespacedName req) w) as [i0 |] eqn:Ei.
    - apply bind_failsOnItsOwn; rewrite (fetch_present req i0 w Hh Ei); [no_error |].
      intros i Hi. unfold outcome in Hi. cbn [fst] in Hi. injection Hi as <-.
      unfold final. cbn [snd].
      assert (Hs : sound (keyOf (k:=KGlanceAPI) i0) w).
      { repeat split; try assumption. exists i0. rewrite (Hwk _ _ _ Ei). exact Ei. }
      destruct (calm_pvc _ i0 w Hs) as [Hs1 He1].
      apply bind_failsOnItsOwn; [exact He1 |]. intros _ _.
      destruct (calm_service _ i0 _ Hs1) as [Hs2 He2].
      apply bind_failsOnItsOwn; [exact He2 |]. intros _ _.
      destruct (calm_configmap _ i0 _ Hs2) as [Hs3 He3].
      apply bind_failsOnItsOwn; [exact He3 |]. intros c _.
      destruct (calm_schema _ i0 _ Hs3) as [Hs4 He4].
      apply bind_failsOnItsOwn; [exact He4 |]. intros _ _.
      destruct (calm_dbsync i0 _ Hs4) as (Hs5 & He5 & Hk5).
      apply bind_failsOnItsOwn; [exact He5 |]. intros i' Hi'.
      apply calm_deployment. rewrite (Hk5 i' Hi'). exact Hs5.
    - apply bind_failsOnItsOwn; rewrite (fetch_absent req w Hh Ei); [no_error |].
      intros a Ha. discriminate Ha. }
  unfold Reconcile. rewrite exec_bindP.
  destruct (exec handle (pass req) w) as [[[[] | res0 err] tr] w1]; unfold outcome in *;
    simpl in *; intros H; [discriminate H |].
  injection H as -> ->. exact (Hpass _ _ eq_refl).
Qed.
End NoSpuriousFailure.

(** ** Fetch before write *)

Section FetchBeforeWrite.
Context {G : glance.Templates}.
Context {W : Type} (h : Handler W).

Lemma answers_any (prev : option Event) (e : Event) :
  answers None e = true -> answers prev e = true.
Proof.
  unfold answers. destruct (evVerb e); try reflexivity; [| discriminate].
  rewrite orb_false_r. intros ->. reflexivity.
Qed.

Lemma fetchedFirst_any (prev : option Event) (tr : list Event) :
  fetchedFirst None tr = true -> fetchedFirst prev tr = true.
Proof.
  destruct tr as [| e tr]; simpl; [reflexivity |].
  intros H. apply andb_prop in H as [He Htr].
  rewrite (answers_any prev e He). exact Htr.
Qed.

Lemma fetchedFirst_app (prev : option Event) (tr1 tr2 : list Event) :
  fetchedFirst prev tr1 = true -> fetchedFirst None tr2 = true ->
  fetchedFirst prev (tr1 ++ tr2) = true.
Proof.
  revert prev. induction tr1 as [| e tr1 IH]; intros prev; simpl.
  - intros _. apply fetchedFirst_any.
  - intros H1 H2. apply andb_prop in H1 as [He Htr]. rewrite He. simpl.
    apply IH; assumption.
Qed.

Lemma bind_fetchedFirst {A B : Type} (m : Pass A) (f : A -> Pass B) (w : W) :
  fetchedFirst None (trace (exec h m w)) = true ->
  (forall a w', fetchedFirst None (trace (exec h (f a) w')) = true) ->
  fetchedFirst None (trace (exec h (bind m f) w)) = true.
Proof.
  rewrite exec_bind.
  destruct (exec h m w) as [[[a | res err] tr1] w1]; unfold trace; simpl;
    intros Hm Hf; [| exact Hm].
  specialize (Hf a w1). destruct (exec h (f a) w1) as [[b tr2] w2]. simpl in *.
  apply fetchedFirst_app; assumption.
Qed.

Ltac phase_fetched :=
  unfold trace; cases_on h;
  repeat (unfold answers, evKey, evFound, keyOf; simpl;
          rewrite ?bool_decide_eq_true_2 by reflexivity;
          repeat match goal with
                 | H : IsNotFound _ = _ |- _ => rewrite H
                 end;
          simpl);
  try reflexivity.

Lemma pass_fetchedFirst (req : Request) (w : W) :
  fetchedFirst None (trace (exec h (pass req) w)) = true.
Proof.
  unfold pass.
  apply bind_fetchedFirst.
  { unfold fetchInstance. phase_fetched. }
  intros i w1. apply bind_fetchedFirst.
  { unfold syncPvc. phase_fetched. }
  intros _ w2. apply bind_fetchedFirst.
  { unfold syncService. phase_fetched. }
  intros _ w3. apply bind_fetchedFirst.
  { unfold syncConfigMap. phase_fetched. }
  intros c w4. apply bind_fetchedFirst.
  { unfold syncSchema, unstructured.NestedBool. phase_fetched. }
  intros _ w5. apply bind_fetchedFirst.
  { unfold syncDbSync, setDbSyncHash, glance.EnsureJob, glance.DeleteJob. phase_fetched. }
  intros i' w6.
  unfold syncDeployment, setDeploymentHash. phase_fetched.
Qed.

(** X13.  Whatever the client, every create a pass makes itself comes
    straight after a fetch of the same kind, under the same namespace and
    name, that was answered NotFound; every update comes straight after a
    fetch of the same kind that was not answered NotFound, and is of an
    object with the namespace and name of the one that fetch handed
    over.  The fetch before an update of the
    deployment came back nil; the one before an update of the ConfigMap may
    have failed. *)
Theorem writes_answer_a_fetch :
  forall (req : Request) (w : W),
    fetchedFirst None (trace (exec h (Reconcile req) w)) = true.
Proof.
  intros req w.
  assert (Ht : trace (exec h (Reconcile req) w) = trace (exec h (pass req) w)).
  { unfold Reconcile. rewrite exec_bindP.
    destruct (exec h (pass req) w) as [[[[] | res err] tr] w1]; unfold trace; simpl;
      apply app_nil_r. }
  rewrite Ht. apply pass_fetchedFirst.
Qed.
End FetchBeforeWrite.

(** The monitor does reject an update of a deployment whose fetch failed,
    and a create under another name than the one fetched. *)
Example blind_update_rejected :
  fetchedFirst None
    [Ev (Get KDeployment (keyOf (k:=KDeployment) (sample.Deployment sample.instance ""))
           (zero KDeployment))
        (zero KDeployment, Some (StatusError ServerTimeout));
     Ev (Update KDeployment (zero KDeployment)) None] = false
  /\ fetchedFirst None
       [missing KPvc (keyOf (k:=KPvc) (sample.Pvc sample.instance));
        Ev (Create KPvc (zero KPvc)) None] = false.
Proof. split; vm_compute; reflexivity. Qed.

(** ** The added runs on the sample stores *)

Lemma later_healthy_scaledUp : apiserver.healthy later.scaledUp.
Proof. intros v k. reflexivity. Qed.

Lemma later_healthy_unreadable : apiserver.healthy later.unreadable.
Proof. intros v k. reflexivity. Qed.

Lemma sample_healthy_fresh : apiserver.healthy sample.fresh.
Proof. intros v k. reflexivity. Qed.

Lemma later_wellKeyed_unreadable : wellKeyed later.unreadable.
Proof.
  unfold later.unreadable, sample.provisioned, sample.fresh.
  repeat apply wellKeyed_put. exact wellKeyed_empty.
Qed.

Lemma deployment_drift_rolled_out_witness :
  outcome (exec apiserver.handle (sample.Reconcile sample.req) later.scaledUp)
  = (requeueAfter (Second * 10), None).
Proof.
  destruct (deployment_drift_rolled_out (G:=sample.templates) sample.req later.scaled
              (sample.Pvc sample.instance) (sample.Service sample.instance)
              (sample.ConfigMap sample.instance)
              (fst (sample.SchemaObject sample.instance))
              {| unstructured.GroupVersionKind :=
                   unstructured.GroupVersionKind (fst (sample.SchemaObject sample.instance));
                 unstructured.uMeta := sample.nameOf sample.instance "";
                 unstructured.statusCompleted := unstructured.BoolValue true |}
              "cm:[DEFAULT]" "dep:n:CONFIG_HASH=cm:[DEFAULT]"
              {| appsv1.depMeta := sample.nameOf sample.instance "";
                 appsv1.Spec := appsv1.Spec (sample.Deployment sample.instance "cm:[DEFAULT]");
                 appsv1.Status := {| appsv1.ReadyReplicas := 1 |} |}
              later.scaledUp) as (Hout & _).
  - exact later_healthy_scaledUp.
  - vm_compute; reflexivity.
  - vm_compute; reflexivity.
  - vm_compute; reflexivity.
  - vm_compute; reflexivity.
  - vm_compute; reflexivity.
  - vm_compute; reflexivity.
  - vm_compute; reflexivity.
  - vm_compute; reflexivity.
  - vm_compute; reflexivity.
  - vm_compute; reflexivity.
  - vm_compute; reflexivity.
  - vm_compute; reflexivity.
  - vm_compute; reflexivity.
  - intros H. vm_compute in H. discriminate H.
  - vm_compute; reflexivity.
  - vm_compute; reflexivity.
  - exact Hout.
Defined.

Lemma converged_waits_for_replicas_witness :
  outcome (exec apiserver.handle (sample.Reconcile sample.req) sample.settled)
  = (noRequeue, None)
  /\ final (exec apiserver.handle (sample.Reconcile sample.req) sample.settled)
     = sample.settled.
Proof.
  destruct (converged_waits_for_replicas (G:=sample.templates) sample.req sample.recorded
              (sample.Pvc sample.instance) (sample.Service sample.instance)
              (sample.ConfigMap sample.instance)
              (fst (sample.SchemaObject sample.instance))
              {| unstructured.GroupVersionKind :=
                   unstructured.GroupVersionKind (fst (sample.SchemaObject sample.instance));
                 unstructured.uMeta := sample.nameOf sample.instance "";
                 unstructured.statusCompleted := unstructured.BoolValue true |}
              "cm:[DEFAULT]"
              {| appsv1.depMeta := sample.nameOf sample.instance "";
                 appsv1.Spec := appsv1.Spec (sample.Deployment sample.instance "cm:[DEFAULT]");
                 appsv1.Status := {| appsv1.ReadyReplicas := 1 |} |}
              sample.settled) as (Hout & _ & Hfinal).
  - exact sample_healthy_settled.
  - vm_compute; reflexivity.
  - vm_compute; reflexivity.
  - vm_compute; reflexivity.
  - vm_compute; reflexivity.
  - vm_compute; reflexivity.
  - vm_compute; reflexivity.
  - vm_compute; reflexivity.
  - vm_compute; reflexivity.
  - vm_compute; reflexivity.
  - vm_compute; reflexivity.
  - vm_compute; reflexivity.
  - vm_compute; reflexivity.
  - vm_compute; reflexivity.
  - split; [exact Hout | exact Hfinal].
Defined.

Lemma first_missing_created_alone_witness :
  calls (trace (exec apiserver.handle (sample.Reconcile sample.req) sample.fresh))
  = [(VGet, KGlanceAPI); (VGet, KPvc); (VCreate, KPvc)].
Proof.
  destruct (first_missing_created_alone (G:=sample.templates) sample.req sample.instance
              sample.fresh) as (Hpvc & _).
  - exact sample_healthy_fresh.
  - vm_compute; reflexivity.
  - destruct Hpvc as (_ & Hcalls & _).
    + vm_compute; reflexivity.
    + exact Hcalls.
Defined.

Lemma pass_fails_only_on_its_own_witness :
  outcome (exec apiserver.handle (sample.Reconcile sample.req) later.unreadable)
  = (requeueAfter (Second * 5), Some (AccessorError ".status.completed"))
  /\ ownFailure (G:=sample.templates) (AccessorError ".status.completed").
Proof.
  assert (Hout : outcome (exec apiserver.handle (sample.Reconcile sample.req)
                            later.unreadable)
                 = (requeueAfter (Second * 5), Some (AccessorError ".status.completed")))
    by (vm_compute; reflexivity).
  split; [exact Hout |].
  apply (pass_fails_only_on_its_own (G:=sample.templates) sample.req later.unreadable
           (requeueAfter (Second * 5)) (AccessorError ".status.completed")).
  - exact later_healthy_unreadable.
  - exact later_wellKeyed_unreadable.
  - exact Hout.
Defined.
